(** * Finance_PPT_Maker: a shallow embedding of the market-data, content and
      deck services, and the properties of the specification checked on it.

    Conventions of the embedding.

    - A Python [str] is a Rocq [string].  The character-level operations
      ([lower], [upper], the classes [\s] and [\d] of the regular expression)
      are those of Python on ASCII text; bytes above 127 are left alone.
    - A Python [dict] is an association list in insertion order, a value of
      a dictionary is a [value].
    - A Python [float] is a rational ([Q]); [round(x, 2)] is rounding of the
      exact rational to two decimals, ties to even.
    - [int(...)] of a digit string is the mathematical integer.
    - Exceptions are the [Raise] branch of [result]; code that talks to the
      network, the clock or the random generator runs in the monad [M] over
      a [world] whose replies are read from oracles. *)

From Stdlib Require Import List String Ascii Bool ZArith QArith Qround Lia.
From Stdlib Require Import Qminmax Lqa DecimalString.
Import ListNotations.
Set Warnings "-register-all".
Open Scope string_scope.
Open Scope Z_scope.

(* ================================================================== *)
(** * Python strings *)
(* ================================================================== *)

Module PyStr.

Definition code (c : ascii) : nat := nat_of_ascii c.

Definition is_upper_char (c : ascii) : bool :=
  (65 <=? code c)%nat && (code c <=? 90)%nat.

Definition is_lower_char (c : ascii) : bool :=
  (97 <=? code c)%nat && (code c <=? 122)%nat.

Definition lower_char (c : ascii) : ascii :=
  if is_upper_char c then ascii_of_nat (code c + 32) else c.

Definition upper_char (c : ascii) : ascii :=
  if is_lower_char c then ascii_of_nat (code c - 32) else c.

Fixpoint map_chars (f : ascii -> ascii) (s : string) : string :=
  match s with
  | EmptyString => EmptyString
  | String c s' => String (f c) (map_chars f s')
  end.

(** [s.lower()] and [s.upper()] *)
Definition lower : string -> string := map_chars lower_char.
Definition upper : string -> string := map_chars upper_char.

(** [s.startswith(p)] *)
Fixpoint startswith (p s : string) : bool :=
  match p, s with
  | EmptyString, _ => true
  | String a p', String b s' => Ascii.eqb a b && startswith p' s'
  | String _ _, EmptyString => false
  end.

(** [sub in s] *)
Fixpoint contains (sub s : string) : bool :=
  startswith sub s ||
  match s with
  | EmptyString => false
  | String _ s' => contains sub s'
  end.

Fixpoint drop (n : nat) (s : string) : string :=
  match n, s with
  | O, _ => s
  | S n', String _ s' => drop n' s'
  | S _, EmptyString => EmptyString
  end.

Fixpoint take (n : nat) (s : string) : string :=
  match n, s with
  | S n', String c s' => String c (take n' s')
  | _, _ => EmptyString
  end.

(** [s.replace(old, new)] for a non-empty [old]: left to right, without
    overlap.  [skip] counts the characters of a replaced occurrence that are
    still to be passed over. *)
Fixpoint replace_go (old new s : string) (skip : nat) : string :=
  match s with
  | EmptyString => EmptyString
  | String c s' =>
      match skip with
      | S k => replace_go old new s' k
      | O =>
          if startswith old s
          then new ++ replace_go old new s' (String.length old - 1)
          else String c (replace_go old new s' 0)
      end
  end.

Definition replace (old new s : string) : string := replace_go old new s 0.

(** ASCII white space as [str.isspace] and the class [\s] see it. *)
Definition is_space (c : ascii) : bool :=
  let n := code c in
  ((9 <=? n)%nat && (n <=? 13)%nat) || ((28 <=? n)%nat && (n <=? 32)%nat).

Definition is_digit (c : ascii) : bool :=
  (48 <=? code c)%nat && (code c <=? 57)%nat.

(** every character of [s] is of the class [p] *)
Fixpoint all_chars (p : ascii -> bool) (s : string) : bool :=
  match s with
  | EmptyString => true
  | String c s' => p c && all_chars p s'
  end.

Definition digit_val (c : ascii) : Z := Z.of_nat (code c - 48).

(** [int(s)] for a string of decimal digits. *)
Definition int_of_digits (s : string) : Z :=
  fold_left (fun acc c => acc * 10 + digit_val c) (list_ascii_of_string s) 0.

(** [s.split()]: the runs of characters that are not white space *)
Fixpoint split_ws_go (s cur : string) : list string :=
  match s with
  | EmptyString => match cur with EmptyString => [] | _ => [cur] end
  | String c s' =>
      if is_space c
      then match cur with
           | EmptyString => split_ws_go s' EmptyString
           | _ => cur :: split_ws_go s' EmptyString
           end
      else split_ws_go s' (cur ++ String c EmptyString)
  end.

Definition split_ws (s : string) : list string := split_ws_go s EmptyString.

(** [s.split(sep)] for a non-empty [sep] *)
Fixpoint split_on_go (sep s cur : string) (skip : nat) : list string :=
  match s with
  | EmptyString => [cur]
  | String c s' =>
      match skip with
      | S k => split_on_go sep s' cur k
      | O =>
          if startswith sep s
          then cur :: split_on_go sep s' EmptyString (String.length sep - 1)
          else split_on_go sep s' (cur ++ String c EmptyString) 0
      end
  end.

Definition split_on (sep s : string) : list string :=
  split_on_go sep s EmptyString 0.

Fixpoint lstrip (s : string) : string :=
  match s with
  | String c s' => if is_space c then lstrip s' else s
  | EmptyString => EmptyString
  end.

Definition rev_string (s : string) : string :=
  string_of_list_ascii (rev (list_ascii_of_string s)).

(** [s.strip()] *)
Definition strip (s : string) : string :=
  rev_string (lstrip (rev_string (lstrip s))).

(** [s.lstrip(chars)]: [tokens] are the characters of [chars], each as the
    string of its bytes *)
Fixpoint lstrip_set_go (fuel : nat) (tokens : list string) (s : string) : string :=
  match fuel with
  | O => s
  | S fuel' =>
      match find (fun t => startswith t s) tokens with
      | Some t => lstrip_set_go fuel' tokens (drop (String.length t) s)
      | None => s
      end
  end.

Definition lstrip_set (tokens : list string) (s : string) : string :=
  lstrip_set_go (String.length s) tokens s.

Definition is_alpha (c : ascii) : bool := is_upper_char c || is_lower_char c.

(** [s.title()]: a letter after a letter is lowered, any other letter is
    raised *)
Fixpoint title_go (s : string) (after_letter : bool) : string :=
  match s with
  | EmptyString => EmptyString
  | String c s' =>
      if is_alpha c
      then String (if after_letter then lower_char c else upper_char c)
                  (title_go s' true)
      else String c (title_go s' false)
  end.

Definition title (s : string) : string := title_go s false.

(** [l[:n]] *)
Definition slice_to {A} (n : Z) (l : list A) : list A :=
  if 0 <=? n then firstn (Z.to_nat n) l
  else firstn (List.length l - Z.to_nat (- n)) l.

End PyStr.

(* ================================================================== *)
(** * Python values and dictionaries *)
(* ================================================================== *)

(** One row of a pandas price frame as the market-data provider returns it:
    the index formatted as a date, the price columns, and the volume column
    when the frame has one. *)
Record row : Type := mk_row {
  row_date : string;
  row_close : Q;
  row_high : Q;
  row_low : Q;
  row_volume : option Q
}.

Definition frame := list row.

Inductive value : Type :=
| VNone
| VBool (b : bool)
| VInt (z : Z)
| VNum (q : Q)
| VStr (s : string)
| VList (l : list value)
| VDict (d : list (string * value))
| VFrame (f : frame)
| VSeries (l : list Q).

Definition dict := list (string * value).

(** [d.get(k)] / [k in d] *)
Fixpoint dict_get (k : string) (d : dict) : option value :=
  match d with
  | [] => None
  | (k', v) :: d' => if String.eqb k k' then Some v else dict_get k d'
  end.

Definition dict_has (k : string) (d : dict) : bool :=
  match dict_get k d with Some _ => true | None => false end.

Definition dict_keys (d : dict) : list string := map fst d.

(** [v[k]] on a value that should be a dictionary *)
Definition field (k : string) (v : value) : option value :=
  match v with
  | VDict d => dict_get k d
  | _ => None
  end.

(** a path of keys into nested dictionaries *)
Fixpoint path (ks : list string) (v : value) : option value :=
  match ks with
  | [] => Some v
  | k :: ks' => match field k v with
                | Some v' => path ks' v'
                | None => None
                end
  end.

Definition str_list (l : list string) : value := VList (map VStr l).

(* ================================================================== *)
(** * A backtracking matcher for the regular expressions of the source *)
(* ================================================================== *)

Module Re.
Import PyStr.

Inductive regex : Type :=
| Lit (s : string)                 (* literal text *)
| Class (p : ascii -> bool)        (* one character of a class *)
| Plus (p : ascii -> bool)         (* class+, greedy *)
| Opt (r : regex)                  (* r?, greedy *)
| Seq (r1 r2 : regex)
| Alt (r1 r2 : regex)              (* r1|r2, r1 first *)
| Group (n : nat) (r : regex)      (* capturing group number n *)
| Eos.                             (* $ *)

Definition captures := list (nat * string).

(** [$] without MULTILINE: the end, or just before a final newline. *)
Definition at_end (s : string) : bool :=
  match s with
  | EmptyString => true
  | String c EmptyString => Ascii.eqb c "010"%char
  | _ => false
  end.

Section Matcher.
Context {R : Type}.

Fixpoint plus (p : ascii -> bool) (s : string) (k : string -> option R)
  : option R :=
  match s with
  | EmptyString => None
  | String c s' =>
      if p c
      then match plus p s' k with
           | Some r => Some r
           | None => k s'
           end
      else None
  end.

Fixpoint run (r : regex) (s : string) (caps : captures)
         (k : string -> captures -> option R) : option R :=
  match r with
  | Lit l => if startswith l s then k (drop (String.length l) s) caps else None
  | Class p =>
      match s with
      | String c s' => if p c then k s' caps else None
      | EmptyString => None
      end
  | Plus p => plus p s (fun s' => k s' caps)
  | Opt r1 =>
      match run r1 s caps k with
      | Some x => Some x
      | None => k s caps
      end
  | Seq r1 r2 => run r1 s caps (fun s' caps' => run r2 s' caps' k)
  | Alt r1 r2 =>
      match run r1 s caps k with
      | Some x => Some x
      | None => run r2 s caps k
      end
  | Group n r1 =>
      run r1 s caps
        (fun s' caps' =>
           k s' ((n, take (String.length s - String.length s') s) :: caps'))
  | Eos => if at_end s then k s caps else None
  end.
End Matcher.

(** [re.search(r, s)]: the first start position with a match. *)
Fixpoint search (r : regex) (s : string) : option captures :=
  match run r s [] (fun _ caps => Some caps) with
  | Some caps => Some caps
  | None =>
      match s with
      | EmptyString => None
      | String _ s' => search r s'
      end
  end.

(** [m.group(n)] *)
Fixpoint group (n : nat) (caps : captures) : string :=
  match caps with
  | [] => EmptyString
  | (m, s) :: caps' => if Nat.eqb n m then s else group n caps'
  end.

End Re.

(* ================================================================== *)
(** * services/market_data_service.py: the topic classifier *)
(* ================================================================== *)

Module Topic.
Import PyStr.

(** [self.market_symbols], in insertion order *)
Definition market_symbols : list (string * string) :=
  [ ("nifty_50", "^NSEI"); ("nifty_bank", "^NSEBANK"); ("sensex", "^BSESN");
    ("nifty_it", "^CNXIT"); ("nifty_pharma", "^CNXPHARMA");
    ("nifty_auto", "^CNXAUTO"); ("nifty_fmcg", "^CNXFMCG");
    ("nifty_metal", "^CNXMETAL"); ("nifty_realty", "^CNXREALTY");
    ("nifty_energy", "^CNXENERGY");
    ("sp_500", "^GSPC"); ("nasdaq", "^IXIC"); ("dow_jones", "^DJI");
    ("ftse_100", "^FTSE"); ("dax", "^GDAXI"); ("nikkei", "^N225");
    ("hang_seng", "^HSI"); ("shanghai", "000001.SS"); ("asx_200", "^AXJO");
    ("tsx", "^GSPTSE");
    ("gold", "GC=F"); ("silver", "SI=F"); ("crude_oil", "CL=F");
    ("natural_gas", "NG=F"); ("copper", "HG=F");
    ("usd_inr", "USDINR=X"); ("eur_usd", "EURUSD=X"); ("gbp_usd", "GBPUSD=X");
    ("jpy_usd", "JPYUSD=X");
    ("bitcoin", "BTC-USD"); ("ethereum", "ETH-USD"); ("binance_coin", "BNB-USD") ].

(** [self.finance_keywords] *)
Definition finance_keywords : list string :=
  [ "financial"; "stock"; "market"; "analysis"; "investment"; "budget"; "revenue";
    "profit"; "cash flow"; "balance sheet"; "nifty"; "sensex"; "sp500"; "nasdaq";
    "gold"; "oil"; "sector"; "banking"; "technology"; "pharma"; "esg"; "ai investing";
    "q1"; "q2"; "q3"; "q4"; "earnings"; "valuation"; "risk"; "trend"; "forecast" ].

Definition expanded_finance_keywords : list string :=
  finance_keywords ++
  [ "quarterly"; "q1"; "q2"; "q3"; "q4"; "earnings"; "valuation"; "dividend";
    "portfolio"; "asset"; "bond"; "etf"; "mutual fund"; "ipo"; "merger";
    "acquisition"; "esg"; "sustainable"; "crypto"; "blockchain"; "fintech" ].

(** [self.stock_databases]: market, then category, then symbols *)
Definition stock_databases : list (string * list (string * list string)) :=
  [ ("indian_stocks",
      [ ("large_cap",
          [ "RELIANCE.NS"; "TCS.NS"; "HDFCBANK.NS"; "INFY.NS"; "HINDUNILVR.NS";
            "ICICIBANK.NS"; "KOTAKBANK.NS"; "BHARTIARTL.NS"; "ITC.NS"; "SBIN.NS";
            "BAJFINANCE.NS"; "ASIANPAINT.NS"; "MARUTI.NS"; "HCLTECH.NS"; "AXISBANK.NS";
            "LT.NS"; "DMART.NS"; "SUNPHARMA.NS"; "TITAN.NS"; "ULTRACEMCO.NS" ]);
        ("banking",
          [ "HDFCBANK.NS"; "ICICIBANK.NS"; "KOTAKBANK.NS"; "SBIN.NS"; "AXISBANK.NS";
            "INDUSINDBK.NS" ]);
        ("technology",
          [ "TCS.NS"; "INFY.NS"; "HCLTECH.NS"; "WIPRO.NS"; "TECHM.NS"; "LTIM.NS" ]);
        ("pharma",
          [ "SUNPHARMA.NS"; "CIPLA.NS"; "DRREDDY.NS"; "DIVISLAB.NS"; "APOLLOHOSP.NS" ]);
        ("auto",
          [ "MARUTI.NS"; "TATAMOTORS.NS"; "EICHERMOT.NS"; "HEROMOTOCO.NS";
            "BAJAJ-AUTO.NS" ]);
        ("fmcg",
          [ "HINDUNILVR.NS"; "ITC.NS"; "NESTLEIND.NS"; "BRITANNIA.NS";
            "TATACONSUM.NS" ]) ]);
    ("us_stocks",
      [ ("mega_cap",
          [ "AAPL"; "MSFT"; "GOOGL"; "AMZN"; "NVDA"; "TSLA"; "META"; "BRK-B" ]);
        ("technology",
          [ "AAPL"; "MSFT"; "GOOGL"; "NVDA"; "META"; "NFLX"; "ADBE"; "CRM"; "ORCL";
            "IBM" ]);
        ("finance",
          [ "JPM"; "BAC"; "WFC"; "GS"; "MS"; "C"; "AXP"; "BLK"; "SCHW" ]);
        ("healthcare",
          [ "JNJ"; "PFE"; "UNH"; "ABBV"; "MRK"; "TMO"; "ABT"; "LLY" ]);
        ("consumer",
          [ "AMZN"; "TSLA"; "HD"; "MCD"; "NKE"; "SBUX"; "TGT"; "WMT" ]) ]);
    ("global_stocks",
      [ ("european",
          [ "ASML"; "SAP"; "LVMH.PA"; "NVO"; "NESN.SW"; "ROG.SW"; "MC.PA" ]);
        ("asian",
          [ "TSM"; "BABA"; "TCEHY"; "005930.KS"; "6758.T"; "7203.T" ]) ]) ].

(** [self.sector_themes] *)
Definition sector_themes : list (string * list string) :=
  [ ("esg_investing", [ "renewable energy"; "sustainable"; "green"; "clean" ]);
    ("artificial_intelligence", [ "ai"; "machine learning"; "automation"; "robotics" ]);
    ("fintech", [ "digital payments"; "blockchain"; "cryptocurrency"; "neobank" ]);
    ("healthcare_innovation",
      [ "biotech"; "pharmaceuticals"; "medical devices"; "telemedicine" ]);
    ("renewable_energy",
      [ "solar"; "wind"; "electric vehicle"; "battery"; "clean energy" ]);
    ("cybersecurity", [ "security"; "cyber"; "data protection"; "privacy" ]);
    ("cloud_computing", [ "cloud"; "saas"; "software"; "data center" ]);
    ("e_commerce", [ "online retail"; "marketplace"; "digital commerce"; "logistics" ]) ].

(** the local tables of [_parse_topic] *)
Definition sector_keywords : list (string * list string) :=
  [ ("banking", [ "bank"; "financial services"; "finance"; "banking sector" ]);
    ("technology",
      [ "tech"; "it"; "software"; "ai"; "artificial intelligence"; "tech sector" ]);
    ("pharma", [ "pharma"; "healthcare"; "medical"; "biotech"; "pharma sector" ]);
    ("auto", [ "auto"; "automotive"; "car"; "vehicle"; "auto sector" ]);
    ("energy",
      [ "energy"; "oil"; "gas"; "renewable"; "solar"; "wind"; "energy sector" ]);
    ("fmcg", [ "fmcg"; "consumer goods"; "retail"; "consumer"; "fmcg sector" ]);
    ("metals", [ "metal"; "steel"; "mining"; "commodity"; "metals sector" ]);
    ("realty", [ "real estate"; "realty"; "property"; "housing"; "realty sector" ]) ].

Definition stock_indicators : list string :=
  [ "stock"; "company"; "equity"; "share"; "investment" ].

Definition commodity_keywords : list string :=
  [ "gold"; "silver"; "oil"; "crude"; "copper"; "natural gas"; "commodity" ].

Definition commodity_keys : list string :=
  [ "gold"; "silver"; "crude_oil"; "copper"; "natural_gas" ].

(** [any(keyword in text for keyword in keywords)] *)
Definition any_in (keywords : list string) (text : string) : bool :=
  existsb (fun keyword => contains keyword text) keywords.

(** [r'(?:last|over|past)\s+(\d+)\s+(year|years?)(?:\s|$)'] *)
Definition years_pattern : Re.regex :=
  Re.Seq (Re.Alt (Re.Lit "last") (Re.Alt (Re.Lit "over") (Re.Lit "past")))
 (Re.Seq (Re.Plus is_space)
 (Re.Seq (Re.Group 1 (Re.Plus is_digit))
 (Re.Seq (Re.Plus is_space)
 (Re.Seq (Re.Group 2 (Re.Alt (Re.Lit "year")
                             (Re.Seq (Re.Lit "year") (Re.Opt (Re.Lit "s")))))
         (Re.Alt (Re.Class is_space) Re.Eos))))).

(** lines 155-157: the years the topic asks for *)
Definition years_of (topic_lower : string) : Z :=
  let years_match := Re.search years_pattern topic_lower in
  let years := match years_match with
               | Some m => int_of_digits (Re.group 1 m)
               | None => 3
               end in
  Z.min years 10.

(** the test of the loop over [market_symbols] *)
Definition index_hit (topic_lower : string) (item : string * string) : bool :=
  contains (replace "_" " " (fst item)) topic_lower || contains (fst item) topic_lower.

Definition sector_hit (topic_lower : string) (item : string * list string) : bool :=
  any_in (snd item) topic_lower.

(** the three nested loops over [stock_databases], flattened in their order *)
Definition stock_candidates : list (string * string) :=
  flat_map (fun ms : string * list (string * list string) =>
              flat_map (fun cs : string * list string =>
                          map (fun symbol => (fst ms, symbol)) (snd cs))
                       (snd ms))
           stock_databases.

Definition stock_hit (topic_lower : string) (item : string * string) : bool :=
  let symbol := snd item in
  let company_name := lower (replace "-" " " (replace ".NS" EmptyString symbol)) in
  contains company_name topic_lower || contains (lower symbol) topic_lower.

Definition commodity_hit (topic_lower : string) (item : string * string) : bool :=
  existsb (String.eqb (fst item)) commodity_keys &&
  contains (replace "_" " " (fst item)) topic_lower.

Definition invalid_reason : string :=
  "Topic must be finance-related (e.g., stocks, markets, investments, financial analysis)".

(** [MarketDataService._parse_topic] *)
Definition _parse_topic (topic : string) : dict :=
  let topic_lower := lower topic in
  if negb (any_in expanded_finance_keywords topic_lower) then
    [ ("type", VStr "invalid"); ("reason", VStr invalid_reason) ]
  else
    let years := years_of topic_lower in
    match find (index_hit topic_lower) market_symbols with
    | Some (key, symbol) =>
        [ ("type", VStr "index"); ("symbol", VStr symbol); ("name", VStr key);
          ("years", VInt years) ]
    | None =>
    match find (sector_hit topic_lower) sector_keywords with
    | Some (sector, keywords) =>
        [ ("type", VStr "sector"); ("sector", VStr sector);
          ("keywords", str_list keywords); ("years", VInt years) ]
    | None =>
    match (if any_in stock_indicators topic_lower
           then find (stock_hit topic_lower) stock_candidates
           else None) with
    | Some (market, symbol) =>
        [ ("type", VStr "stock"); ("symbol", VStr symbol); ("market", VStr market);
          ("years", VInt years) ]
    | None =>
    match (if any_in commodity_keywords topic_lower
           then find (commodity_hit topic_lower) market_symbols
           else None) with
    | Some (key, symbol) =>
        [ ("type", VStr "commodity"); ("symbol", VStr symbol); ("name", VStr key);
          ("years", VInt years) ]
    | None =>
    match find (sector_hit topic_lower) sector_themes with
    | Some (theme, keywords) =>
        [ ("type", VStr "theme"); ("theme", VStr theme);
          ("keywords", str_list keywords); ("years", VInt years) ]
    | None =>
        [ ("type", VStr "general"); ("topic", VStr topic); ("years", VInt years) ]
    end end end end end.

(** ** The classifier as the specification words it

    "First match wins": the categories in their priority order, each with
    the test of its branch of [_parse_topic]. *)

Definition index_match (topic_lower : string) : bool :=
  existsb (index_hit topic_lower) market_symbols.

Definition sector_match (topic_lower : string) : bool :=
  existsb (sector_hit topic_lower) sector_keywords.



Definition theme_match (topic_lower : string) : bool :=
  existsb (sector_hit topic_lower) sector_themes.

Definition passes_gate (topic : string) : bool :=
  any_in expanded_finance_keywords (lower topic).


(** The keyword list a category is recognised by, taken alone: for a stock
    the indicator words, for a commodity the commodity words, for the default
    category the finance vocabulary. *)
Definition keyword_list_matches (category topic_lower : string) : bool :=
  if String.eqb category "index" then index_match topic_lower
  else if String.eqb category "sector" then sector_match topic_lower
  else if String.eqb category "stock" then any_in stock_indicators topic_lower
  else if String.eqb category "commodity" then any_in commodity_keywords topic_lower
  else if String.eqb category "theme" then theme_match topic_lower
  else if String.eqb category "general" then
    any_in expanded_finance_keywords topic_lower
  else false.




Definition categories : list string :=
  [ "index"; "sector"; "stock"; "commodity"; "theme"; "general"; "invalid" ].

Definition type_of (d : dict) : option value := dict_get "type" d.

End Topic.


(* ================================================================== *)
(** * Exceptions, the world outside, and the monad of effectful code *)
(* ================================================================== *)

Inductive exn : Type :=
| AttributeError (attr : string)
| KeyError (key : string)
| OverflowError
| ZeroDivisionError
| LibraryError (what : string).   (* anything a library call raises *)

Inductive result (A : Type) : Type :=
| Ok (a : A)
| Raise (e : exn).
Arguments Ok {A} a.
Arguments Raise {A} e.

(** What the program does to the outside, in the order it does it. *)
Inductive event : Type :=
| EvTicker (sym : string)                 (* yf.Ticker(sym) *)
| EvHistory (sym : string) (days : Z)     (* ticker.history(start = now - days) *)
| EvInfo (sym : string)                   (* ticker.info *)
| EvSleep (seconds : Q)                   (* time.sleep *)
| EvSearch (query : string) (num : Z)     (* SerpAPI, engine google *)
| EvImages (query : string) (num : Z)     (* SerpAPI, engine google_images *)
| EvDownload (url : string)               (* requests.get(image_url) *)
| EvUi (message : string).                (* st.error / st.warning *)

(** what a list of events says about the network *)
Definition tickers (evs : list event) : list string :=
  flat_map (fun e => match e with EvTicker sym => [sym] | _ => [] end) evs.

Definition sleeps (evs : list event) : list Q :=
  flat_map (fun e => match e with EvSleep d => [d] | _ => [] end) evs.

Definition history_requests (evs : list event) : list string :=
  flat_map (fun e => match e with EvHistory sym _ => [sym] | _ => [] end) evs.

(** One entry of [organic_results] and of [images_results] in the JSON of
    SerpAPI; a field is [None] when the entry has no such key. *)
Record organic : Type := mk_organic {
  o_title : option string;
  o_snippet : option string;
  o_link : option string
}.

Record serp_data : Type := mk_serp {
  organic_results : option (list organic);
  images_results : option (list (option string))   (* the 'original' of each *)
}.

Record world : Type := mk_world {
  rng : nat;            (* calls of the random generator so far *)
  io : nat;             (* replies read from the outside so far *)
  trace : list event    (* latest first *)
}.

Definition M (A : Type) : Type := world -> result A * world.

Definition ret {A} (a : A) : M A := fun w => (Ok a, w).

Definition raise {A} (e : exn) : M A := fun w => (Raise e, w).

Definition bind {A B} (m : M A) (k : A -> M B) : M B :=
  fun w => match m w with
           | (Ok a, w') => k a w'
           | (Raise e, w') => (Raise e, w')
           end.

Notation "x <- m ;; k" := (bind m (fun x => k))
  (at level 61, m at next level, right associativity).
Notation "m ;;; k" := (bind m (fun _ => k))
  (at level 61, right associativity).

(** [try: m  except Exception as e: h e] *)
Definition try_except {A} (m : M A) (h : exn -> M A) : M A :=
  fun w => match m w with
           | (Ok a, w') => (Ok a, w')
           | (Raise e, w') => h e w'
           end.

Definition lift {A} (r : result A) : M A := fun w => (r, w).

(** the requests in a list of events that open an exchange with a server *)
Definition contacts (evs : list event) : nat :=
  List.length
    (filter (fun e => match e with
                      | EvTicker _ | EvSearch _ _ | EvImages _ _ | EvDownload _ => true
                      | _ => false
                      end) evs).


(** [m] returns, from every world, a value that satisfies [P] *)
Definition returns {A} (m : M A) (P : A -> Prop) : Prop :=
  forall w, exists a w', m w = (Ok a, w') /\ P a.

Definition emit (e : event) : M unit :=
  fun w => (Ok tt, mk_world (rng w) (io w) (e :: trace w)).

(** [m] raises, from every world *)
Definition raises {A} (m : M A) : Prop :=
  forall w, exists e w', m w = (Raise e, w').

(** whenever [m] returns, the value satisfies [P] *)
Definition ensures {A} (m : M A) (P : A -> Prop) : Prop :=
  forall w a w', m w = (Ok a, w') -> P a.

(** ** Comparisons of Python objects *)

(** the number an object counts as in a comparison, if it is one *)
Definition num_of (v : value) : option Q :=
  match v with
  | VInt z => Some (inject_Z z)
  | VNum q => Some q
  | VBool b => Some (if b then 1 else 0)%Q
  | _ => None
  end.

(** [v > n] for a number [n]: an object that is no number cannot be
    ordered against one *)
Definition greater (v : value) (n : Q) : M bool :=
  match num_of v with
  | Some q => ret (negb (Qle_bool q n))
  | None => raise (LibraryError "TypeError")
  end.

(** [v < n] *)
Definition less (v : value) (n : Q) : M bool :=
  match num_of v with
  | Some q => ret (negb (Qle_bool n q))
  | None => raise (LibraryError "TypeError")
  end.

(** [v == n] for a number [n] and [v == s] for a string [s] *)
Definition eq_number (v : value) (n : Q) : bool :=
  match num_of v with
  | Some q => Qeq_bool q n
  | None => false
  end.

Definition eq_string (v : value) (s : string) : bool :=
  match v with
  | VStr t => String.eqb t s
  | _ => false
  end.

(** the objects that can be keys of a dictionary, and when two of them are
    the same key *)
Definition hashable (v : value) : bool :=
  match v with
  | VNone | VBool _ | VInt _ | VNum _ | VStr _ => true
  | _ => false
  end.

Definition same_key (a b : value) : bool :=
  match num_of a, num_of b with
  | Some x, Some y => Qeq_bool x y
  | None, None =>
      match a, b with
      | VStr s, VStr t => String.eqb s t
      | VNone, VNone => true
      | _, _ => false
      end
  | _, _ => false
  end.

(** The replies of everything that is not code of the repository.  A reply
    is indexed by the number of replies read before it. *)
Record env : Type := mk_env {
  random_unit : nat -> Q;                 (* random.random(), by call number *)
  randbelow : nat -> Z -> Z;              (* random._randbelow(n), by call number *)
  clock_ordinal : nat -> Z;               (* datetime.now(), as a day ordinal *)
  clock_ymd : nat -> string;              (* ... .strftime of it, year-month-day *)
  clock_month_year : nat -> string;       (* ... .strftime of it, month and year *)
  ticker_reply : nat -> result unit;      (* yf.Ticker(sym) *)
  history_reply : nat -> result frame;    (* ticker.history(...) *)
  info_reply : nat -> result (list (string * value));   (* ticker.info *)
  serp_reply : nat -> result serp_data;   (* requests.get(...).json() *)
  download_reply : nat -> result unit;   (* requests.get(image_url) and add_picture *)
  float_repr : Q -> string;               (* str of a float in an f-string *)
  np_volatility : list Q -> Q;   (* pct_change().std() * np.sqrt(252) * 100 *)
  (* the bodies of the methods of MarketDataService left out of this file *)
  method_body : string -> list value -> M value
}.

Definition str_of_Z (z : Z) : string := NilEmpty.string_of_int (Z.to_int z).

(** ** Numbers *)

(** [round(q)] to an integer, ties to even *)
Definition round_half_even (q : Q) : Z :=
  let f := Qfloor q in
  match Qcompare (q - inject_Z f) (1 # 2) with
  | Lt => f
  | Gt => f + 1
  | Eq => if Z.even f then f else f + 1
  end.

(** [round(x, 2)] *)
Definition round2 (x : Q) : Q := Qmake (round_half_even (x * 100)) 100.

(** [int(x)] of a float: towards zero *)
Definition trunc (x : Q) : Z :=
  if Qle_bool 0 x then Qfloor x else Qceiling x.

Section Effects.
Variable E : env.

(** [random.uniform(a, b)] is [a + (b - a) * random()] *)
Definition uniform (a b : Q) : M Q :=
  fun w => (Ok (a + (b - a) * random_unit E (rng w))%Q,
            mk_world (S (rng w)) (io w) (trace w)).

(** [random.randint(a, b)] is [a + _randbelow(b - a + 1)] *)
Definition randint (a b : Z) : M Z :=
  fun w => (Ok (a + randbelow E (rng w) (b - a + 1)),
            mk_world (S (rng w)) (io w) (trace w)).

(** one reply of the outside *)
Definition ask {A} (reply : nat -> A) : M A :=
  fun w => (Ok (reply (io w)), mk_world (rng w) (S (io w)) (trace w)).

Definition datetime_now : M Z := ask (clock_ordinal E).

(** [datetime.now().strftime("%Y-%m-%d")] *)
Definition today : M string := ask (clock_ymd E).

(** [datetime.now().strftime('%B %Y')] *)
Definition month_year : M string := ask (clock_month_year E).

(** [d - timedelta(days=n)]: [timedelta] refuses more than 999999999 days
    and a date has to stay within the years 1 to 9999. *)
Definition minus_days (d n : Z) : M Z :=
  if (Z.abs n >? 999999999) then raise OverflowError
  else if (d - n <? 1) || (d - n >? 3652059) then raise OverflowError
  else ret (d - n).

Definition yf_Ticker (sym : string) : M unit :=
  emit (EvTicker sym) ;;; r <- ask (ticker_reply E) ;; lift r.

Definition ticker_history (sym : string) (days : Z) : M frame :=
  emit (EvHistory sym days) ;;; r <- ask (history_reply E) ;; lift r.

Definition ticker_info (sym : string) : M dict :=
  emit (EvInfo sym) ;;; r <- ask (info_reply E) ;; lift r.

Definition time_sleep (seconds : Q) : M unit := emit (EvSleep seconds).

(** [a / b] on floats *)
Definition float_div (a b : Q) : M Q :=
  if Qeq_bool b 0 then raise ZeroDivisionError else ret (a / b)%Q.

Definition st_message (message : string) : M unit := emit (EvUi message).
End Effects.

(* ================================================================== *)
(** * services/market_data_service.py: the analyses *)
(* ================================================================== *)

Module MarketData.
Import PyStr.

(** The names [class MarketDataService] defines, in the order of the file. *)
Definition class_methods : list string :=
  [ "__init__"; "get_comprehensive_analysis"; "_parse_topic"; "_analyze_index";
    "_analyze_sector"; "_analyze_individual_stock"; "_analyze_commodity";
    "_analyze_investment_theme"; "_analyze_general_market";
    "_calculate_current_metrics"; "_calculate_historical_performance";
    "_calculate_comprehensive_risk_metrics"; "_calculate_technical_indicators";
    "_calculate_rsi"; "_calculate_sortino_ratio"; "_get_stocks_for_sector";
    "_get_stocks_for_theme"; "_compare_with_major_indices";
    "_generate_index_insights"; "_generate_forecast_data";
    "_analyze_sector_trends"; "_generate_sector_thesis"; "_identify_sector_risks";
    "_identify_sector_opportunities"; "_get_fallback_sector_analysis";
    "_get_fallback_stock_analysis"; "_get_fallback_commodity_analysis";
    "_get_fallback_theme_analysis"; "_get_fallback_general_analysis";
    "_get_fallback_current_metrics"; "_get_fallback_historical_performance";
    "_get_fallback_risk_metrics"; "_get_fallback_technical_indicators";
    "_get_fallback_market_comparison"; "_get_fallback_index_insights";
    "_get_fallback_forecast_data"; "_get_complete_fallback_index_analysis";
    "_get_fallback_sector_trends"; "_get_fallback_sector_thesis";
    "_get_fallback_sector_risks"; "_get_fallback_sector_opportunities";
    "_calculate_sharpe_ratio_from_returns"; "_analyze_supply_demand_factors";
    "_analyze_seasonal_patterns"; "_analyze_commodity_correlations";
    "_identify_macro_factors"; "_calculate_commodity_metrics";
    "_calculate_theme_performance"; "_analyze_theme_sectors";
    "_analyze_theme_trends"; "_identify_theme_drivers"; "_identify_theme_risks";
    "_generate_theme_strategy"; "_generate_theme_outlook";
    "_generate_market_overview"; "_identify_market_trends";
    "_analyze_economic_factors"; "_suggest_investment_themes";
    "_assess_market_risks"; "_generate_strategic_recommendations";
    "_calculate_stock_metrics"; "_analyze_financial_health";
    "_calculate_valuation_metrics"; "_compare_with_peers";
    "_analyze_growth_trends"; "_analyze_dividend_history"; "_assess_stock_risks";
    "_generate_stock_recommendation" ].

(** The attributes [__init__] sets on the instance. *)
Definition instance_attributes : list string :=
  [ "market_symbols"; "finance_keywords"; "stock_databases"; "sector_themes" ].

Definition has_attribute (name : string) : bool :=
  existsb (String.eqb name) instance_attributes ||
  existsb (String.eqb name) class_methods.

(** [d[k]] *)
Definition getitem (k : string) (d : dict) : M value :=
  match dict_get k d with
  | Some v => ret v
  | None => raise (KeyError k)
  end.

Definition get_str (k : string) (d : dict) : M string :=
  v <- getitem k d ;;
  match v with
  | VStr s => ret s
  | _ => raise (LibraryError "TypeError")
  end.

(** [d[k] = v] *)
Fixpoint dict_set (k : string) (v : value) (d : dict) : dict :=
  match d with
  | [] => [(k, v)]
  | (k', v') :: d' =>
      if String.eqb k k' then (k, v) :: d' else (k', v') :: dict_set k v d'
  end.

(** [l[-n:]] for a positive [n] *)
Definition last_n {A} (n : nat) (l : list A) : list A :=
  skipn (List.length l - n) l.

Definition closes (hist : frame) : list Q := map row_close hist.

(** [s.iloc[0]] and [s.iloc[-1]] *)
Definition iloc_first (s : list Q) : M Q :=
  match s with
  | [] => raise (LibraryError "IndexError")
  | x :: _ => ret x
  end.

Definition iloc_last (s : list Q) : M Q :=
  match rev s with
  | [] => raise (LibraryError "IndexError")
  | x :: _ => ret x
  end.

(** [range(n)] *)
Definition range (n : nat) : list Z := map Z.of_nat (seq 0 n).

(** The keys test_market_data.py requires of an index analysis. *)
Definition required_keys : list string :=
  [ "topic"; "analysis_type"; "symbol"; "current_data";
    "historical_performance"; "risk_metrics"; "technical_indicators";
    "market_comparison"; "key_insights"; "forecast_data" ].

(** The keys of the fallback index analysis and of a general analysis. *)
Definition fallback_index_keys : list string :=
  [ "topic"; "analysis_type"; "symbol"; "current_data"; "historical_performance";
    "risk_metrics"; "technical_indicators"; "market_comparison"; "key_insights";
    "forecast_data"; "analysis_date"; "period_analyzed" ].

Definition general_keys : list string :=
  [ "topic"; "analysis_type"; "primary_market"; "global_context";
    "market_overview"; "key_trends"; "economic_factors"; "investment_themes";
    "risk_outlook"; "strategic_recommendations"; "analysis_date";
    "period_analyzed" ].

(** Where the numeric metrics of an index analysis sit. *)
Definition metric_paths : list (list string) :=
  [ [ "current_data"; "current_price" ]; [ "current_data"; "daily_change" ];
    [ "current_data"; "volume" ]; [ "current_data"; "market_cap" ];
    [ "current_data"; "52_week_high" ]; [ "current_data"; "52_week_low" ];
    [ "historical_performance"; "1_month" ];
    [ "historical_performance"; "3_months" ];
    [ "historical_performance"; "6_months" ];
    [ "historical_performance"; "1_year" ];
    [ "historical_performance"; "3_years" ];
    [ "risk_metrics"; "volatility" ]; [ "risk_metrics"; "max_drawdown" ];
    [ "risk_metrics"; "var_95" ]; [ "risk_metrics"; "sharpe_ratio" ];
    [ "risk_metrics"; "sortino_ratio" ]; [ "risk_metrics"; "beta" ];
    [ "technical_indicators"; "sma_20" ]; [ "technical_indicators"; "sma_50" ];
    [ "technical_indicators"; "sma_200" ]; [ "technical_indicators"; "rsi" ];
    [ "technical_indicators"; "price_vs_sma_20" ];
    [ "technical_indicators"; "price_vs_sma_50" ];
    [ "market_comparison"; "^GSPC"; "return" ];
    [ "market_comparison"; "^GSPC"; "outperformance" ];
    [ "market_comparison"; "^GSPC"; "volatility" ];
    [ "market_comparison"; "^FTSE"; "return" ];
    [ "market_comparison"; "^FTSE"; "outperformance" ];
    [ "market_comparison"; "^FTSE"; "volatility" ];
    [ "market_comparison"; "^N225"; "return" ];
    [ "market_comparison"; "^N225"; "outperformance" ];
    [ "market_comparison"; "^N225"; "volatility" ];
    [ "market_comparison"; "^HSI"; "return" ];
    [ "market_comparison"; "^HSI"; "outperformance" ];
    [ "market_comparison"; "^HSI"; "volatility" ];
    [ "forecast_data"; "forecasted_return" ];
    [ "forecast_data"; "forecasted_volatility" ] ].

(** The ranges written into [_get_complete_fallback_index_analysis], for the
    metrics that are a rounded draw or a rounded product of draws. *)
Definition range_of (p : list string) (lo hi : Q) : list string * Q * Q :=
  (p, lo, hi).

Definition drawn_ranges : list (list string * Q * Q) :=
  [ range_of [ "current_data"; "current_price" ] (1000) (50000);
    range_of [ "current_data"; "daily_change" ] (-(25 # 10)) (25 # 10);
    range_of [ "current_data"; "volume" ] (100000) (10000000);
    range_of [ "current_data"; "market_cap" ] (1000000000) (1000000000000);
    range_of [ "current_data"; "52_week_high" ] (1000 * (105 # 100)) (50000 * (125 # 100));
    range_of [ "current_data"; "52_week_low" ] (1000 * (75 # 100)) (50000 * (95 # 100));
    range_of [ "historical_performance"; "1_month" ] (-(5)) (8);
    range_of [ "historical_performance"; "3_months" ] (-(8)) (12);
    range_of [ "historical_performance"; "6_months" ] (-(10)) (15);
    range_of [ "historical_performance"; "1_year" ] (-(10)) (25);
    range_of [ "historical_performance"; "3_years" ] (-(10) * 3 - 10) (25 * 3 + 10);
    range_of [ "risk_metrics"; "volatility" ] (10) (35);
    range_of [ "risk_metrics"; "max_drawdown" ] (5) (45);
    range_of [ "risk_metrics"; "var_95" ] (-(45 # 10)) (-(15 # 10));
    range_of [ "risk_metrics"; "sharpe_ratio" ] (-(5 # 10)) (25 # 10);
    range_of [ "risk_metrics"; "sortino_ratio" ] (0) (3);
    range_of [ "risk_metrics"; "beta" ] (8 # 10) (13 # 10);
    range_of [ "technical_indicators"; "sma_20" ] (1000 * (95 # 100)) (50000 * (105 # 100));
    range_of [ "technical_indicators"; "sma_50" ] (1000 * (90 # 100)) (50000 * (110 # 100));
    range_of [ "technical_indicators"; "sma_200" ] (1000 * (85 # 100)) (50000 * (115 # 100));
    range_of [ "technical_indicators"; "rsi" ] (30) (70);
    range_of [ "market_comparison"; "^GSPC"; "return" ] (-(20)) (25);
    range_of [ "market_comparison"; "^GSPC"; "outperformance" ] (-(500)) (500);
    range_of [ "market_comparison"; "^GSPC"; "volatility" ] (8) (40);
    range_of [ "market_comparison"; "^FTSE"; "return" ] (-(20)) (25);
    range_of [ "market_comparison"; "^FTSE"; "outperformance" ] (-(500)) (500);
    range_of [ "market_comparison"; "^FTSE"; "volatility" ] (8) (40);
    range_of [ "market_comparison"; "^N225"; "return" ] (-(20)) (25);
    range_of [ "market_comparison"; "^N225"; "outperformance" ] (-(500)) (500);
    range_of [ "market_comparison"; "^N225"; "volatility" ] (8) (40);
    range_of [ "market_comparison"; "^HSI"; "return" ] (-(20)) (25);
    range_of [ "market_comparison"; "^HSI"; "outperformance" ] (-(500)) (500);
    range_of [ "market_comparison"; "^HSI"; "volatility" ] (8) (40);
    range_of [ "forecast_data"; "forecasted_return" ] (-(5)) (15);
    range_of [ "forecast_data"; "forecasted_volatility" ] (12) (30) ].

Definition is_number (o : option value) : bool :=
  match o with
  | Some (VNum _) | Some (VInt _) => true
  | _ => false
  end.

Definition in_range (lo hi : Q) (o : option value) : Prop :=
  match o with
  | Some (VNum q) => (lo <= q)%Q /\ (q <= hi)%Q
  | Some (VInt z) => (lo <= inject_Z z)%Q /\ (inject_Z z <= hi)%Q
  | _ => False
  end.

(** The contract of the random generator: [random()] is in [0, 1) and
    [_randbelow(n)] is below [n]. *)
Definition generator_contract (E : env) : Prop :=
  (forall k, (0 <= random_unit E k)%Q /\ (random_unit E k < 1)%Q) /\
  (forall k n, 0 < n -> 0 <= randbelow E k n < n).

Section Service.
Variable E : env.

(** [self.name(args)]: the attribute is looked up first. *)
Definition call_method (name : string) (args : list value) : M value :=
  if has_attribute name then method_body E name args
  else raise (AttributeError name).

(** lines 946-1046 *)
Definition _get_complete_fallback_index_analysis
           (symbol topic : string) (years : Z) : M value :=
  u <- uniform E 1000 50000 ;;
  let current_price := round2 u in
  u <- uniform E (-(25 # 10)) (25 # 10) ;;
  let daily_change := round2 u in
  volume <- randint E 100000 10000000 ;;
  market_cap <- randint E 1000000000 1000000000000 ;;
  u <- uniform E (105 # 100) (125 # 100) ;;
  let week_high := round2 (current_price * u) in
  u <- uniform E (75 # 100) (95 # 100) ;;
  let week_low := round2 (current_price * u) in
  base_return <- uniform E (-(1 # 10)) (25 # 100) ;;
  u1 <- uniform E (-(5)) 8 ;;
  u3 <- uniform E (-(8)) 12 ;;
  u6 <- uniform E (-(10)) 15 ;;
  u3y <- uniform E (-(10)) 10 ;;
  y23 <- uniform E (-(15)) 20 ;;
  y22 <- uniform E (-(25)) 15 ;;
  y21 <- uniform E (-(5)) 30 ;;
  let performance :=
    [ ("1_month", VNum (round2 u1));
      ("3_months", VNum (round2 u3));
      ("6_months", VNum (round2 u6));
      ("1_year", VNum (round2 (base_return * 100)));
      ("3_years", VNum (round2 (base_return * 100 * 3 + u3y)));
      ("yearly_breakdown",
        VList [ VDict [ ("year", VInt 2023); ("return", VNum (round2 y23)) ];
                VDict [ ("year", VInt 2022); ("return", VNum (round2 y22)) ];
                VDict [ ("year", VInt 2021); ("return", VNum (round2 y21)) ] ]) ] in
  u <- uniform E 10 35 ;;
  let volatility := round2 u in
  u <- uniform E 5 45 ;;
  let max_drawdown := round2 u in
  u <- uniform E (15 # 10) (45 # 10) ;;
  let var_95 := round2 (- u) in
  u <- uniform E (-(5 # 10)) (25 # 10) ;;
  let sharpe_ratio := round2 u in
  u <- uniform E 0 3 ;;
  let sortino_ratio := round2 u in
  u <- uniform E (95 # 100) (105 # 100) ;;
  let sma_20 := round2 (current_price * u) in
  u <- uniform E (90 # 100) (110 # 100) ;;
  let sma_50 := round2 (current_price * u) in
  u <- uniform E 30 70 ;;
  let rsi := round2 u in
  let trend := if Qlt_le_dec sma_20 current_price then "Bullish" else "Bearish" in
  comparison <-
    (fix loop (indices : list string) (comparison : dict) : M dict :=
       match indices with
       | [] => ret comparison
       | idx :: rest =>
           r <- uniform E (-(20)) 25 ;;
           o <- uniform E (-(500)) 500 ;;
           v <- uniform E 8 40 ;;
           loop rest
             (dict_set idx
                (VDict [ ("return", VNum (round2 r));
                         ("outperformance", VNum (round2 o));
                         ("volatility", VNum (round2 v)) ])
                comparison)
       end) [ "^GSPC"; "^FTSE"; "^N225"; "^HSI" ] [] ;;
  let insights :=
    [ symbol ++ " shows moderate volatility with " ++ float_repr E volatility
             ++ "% annualized volatility.";
      "Current trend appears " ++ lower trend ++ " based on moving averages.";
      "Risk-adjusted returns show Sharpe ratio of " ++ float_repr E sharpe_ratio ++ ".";
      "Maximum drawdown over the period was " ++ float_repr E max_drawdown ++ "%.";
      "Market conditions suggest cautious optimism for the coming quarters." ] in
  fr <- uniform E (-(5)) 15 ;;
  fv <- uniform E 12 30 ;;
  let forecast :=
    [ ("forecasted_return", VNum (round2 fr));
      ("forecasted_volatility", VNum (round2 fv)) ] in
  beta <- uniform E (8 # 10) (13 # 10) ;;
  u200 <- uniform E (85 # 100) (115 # 100) ;;
  q20 <- float_div current_price sma_20 ;;
  q50 <- float_div current_price sma_50 ;;
  analysis_date <- today E ;;
  ret (VDict
    [ ("topic", VStr topic);
      ("analysis_type", VStr "Index Analysis");
      ("symbol", VStr symbol);
      ("current_data", VDict
        [ ("current_price", VNum current_price);
          ("daily_change", VNum daily_change);
          ("volume", VInt volume);
          ("market_cap", VInt market_cap);
          ("52_week_high", VNum week_high);
          ("52_week_low", VNum week_low) ]);
      ("historical_performance", VDict performance);
      ("risk_metrics", VDict
        [ ("volatility", VNum volatility);
          ("max_drawdown", VNum max_drawdown);
          ("var_95", VNum var_95);
          ("sharpe_ratio", VNum sharpe_ratio);
          ("sortino_ratio", VNum sortino_ratio);
          ("beta", VNum (round2 beta)) ]);
      ("technical_indicators", VDict
        [ ("sma_20", VNum sma_20);
          ("sma_50", VNum sma_50);
          ("sma_200", VNum (round2 (current_price * u200)));
          ("rsi", VNum rsi);
          ("price_vs_sma_20", VNum (round2 ((q20 - 1) * 100)));
          ("price_vs_sma_50", VNum (round2 ((q50 - 1) * 100)));
          ("trend", VStr trend) ]);
      ("market_comparison", VDict comparison);
      ("key_insights", str_list insights);
      ("forecast_data", VDict forecast);
      ("analysis_date", VStr analysis_date);
      ("period_analyzed", VStr (str_of_Z years ++ " years")) ]).

(** ** [_analyze_index], lines 207-296 *)

Definition alternative_symbols : list (string * list string) :=
  [ ("^NSEI", [ "NIFTY50.NS"; "^NSEBANK"; "^CNXIT" ]);
    ("^GSPC", [ "SPY"; "QQQ"; "VOO" ]);
    ("^DJI", [ "DIA"; "UDOW" ]);
    ("^IXIC", [ "QQQ"; "TQQQ" ]);
    ("^FTSE", [ "^FTSE"; "VUKE.L" ]);
    ("^GDAXI", [ "^GDAXI"; "EXS1.DE" ]);
    ("^N225", [ "^N225"; "EWJ" ]);
    ("^HSI", [ "^HSI"; "FXI" ]);
    ("^BSESN", [ "^BSESN"; "^CNXIT" ]);
    ("^CNXIT", [ "^CNXIT"; "^NSEI" ]);
    ("^NSEBANK", [ "^NSEBANK"; "^NSEI" ]) ].

Fixpoint assoc_get {A} (k : string) (d : list (string * A)) : option A :=
  match d with
  | [] => None
  | (k', v) :: d' => if String.eqb k k' then Some v else assoc_get k d'
  end.

Definition symbols_to_try (symbol : string) : list string :=
  symbol :: match assoc_get symbol alternative_symbols with
            | Some l => l
            | None => []
            end.

Definition max_retries : Z := 2.
Definition base_delay : Q := 5 # 10.

(** lines 239-246: the price history, a year of it when the first request
    comes back empty, an empty frame when a request raises *)
Definition fetch_history (sym : string) (start_date end_date : Z) : M frame :=
  try_except
    (hist <- ticker_history E sym (end_date - start_date) ;;
     if (List.length hist =? 0)%nat then
       start_date' <- minus_days end_date 365 ;;
       ticker_history E sym (end_date - start_date')
     else ret hist)
    (fun _ => ret []).

(** lines 253-261 *)
Definition historical_prices_of (hist : frame) : list value :=
  map (fun r =>
         VDict [ ("date", VStr (row_date r));
                 ("close", VNum (round2 (row_close r)));
                 ("high", VNum (round2 (row_high r)));
                 ("low", VNum (round2 (row_low r)));
                 ("volume", VInt (match row_volume r with
                                  | Some v => trunc v
                                  | None => 0
                                  end)) ])
      hist.

(** lines 251-284: the branch taken when the history has 30 rows or more;
    it ends in [return analysis] *)
Definition index_live_branch (sym topic : string) (years : Z)
           (hist : frame) (info : dict) : M (option value) :=
  let historical_prices := historical_prices_of hist in
  last_close <- iloc_last (closes hist) ;;
  let current_price := round2 last_close in
  last_close <- iloc_last (closes hist) ;;
  first_close <- iloc_first (closes hist) ;;
  let total_return := round2 ((last_close / first_close - 1) * 100) in
  let volatility := round2 (np_volatility E (closes hist)) in
  max_drawdown <- call_method "_calculate_max_drawdown" [ VSeries (closes hist) ] ;;
  current_data <- call_method "_calculate_current_metrics"
                    [ VFrame hist; VDict info ] ;;
  historical_performance <- call_method "_calculate_historical_performance"
                              [ VFrame hist; VInt years ] ;;
  risk_metrics <- call_method "_calculate_comprehensive_risk_metrics"
                    [ VFrame hist ] ;;
  technical_indicators <- call_method "_calculate_technical_indicators"
                            [ VFrame hist ] ;;
  market_comparison <- call_method "_compare_with_major_indices"
                         [ VFrame hist; VInt years ] ;;
  key_insights <- call_method "_generate_index_insights"
                    [ VFrame hist; VStr sym; VInt years ] ;;
  forecast_data <- call_method "_generate_forecast_data" [ VFrame hist ] ;;
  analysis_date <- today E ;;
  ret (Some (VDict
    [ ("topic", VStr topic);
      ("analysis_type", VStr "Index Analysis");
      ("symbol", VStr sym);
      ("current_price", VNum current_price);
      ("total_return", VNum total_return);
      ("volatility", VNum volatility);
      ("max_drawdown", max_drawdown);
      ("historical_prices", VList (last_n 252 historical_prices));
      ("current_data", current_data);
      ("historical_performance", historical_performance);
      ("risk_metrics", risk_metrics);
      ("technical_indicators", technical_indicators);
      ("market_comparison", market_comparison);
      ("key_insights", key_insights);
      ("forecast_data", forecast_data);
      ("analysis_date", VStr analysis_date);
      ("period_analyzed", VStr (str_of_Z years ++ " years"));
      ("data_quality",
        VStr (if (252 <=? List.length hist)%nat then "high" else "medium")) ])).

(** lines 235-284, the body of the [try]: [Some] is [return analysis],
    [None] is falling out of the [try] *)
Definition index_attempt (sym topic : string) (years : Z) : M (option value) :=
  yf_Ticker E sym ;;;
  end_date <- datetime_now E ;;
  start_date <- minus_days end_date (years * 365 + 100) ;;
  hist <- fetch_history sym start_date end_date ;;
  info <- ticker_info E sym ;;
  if ((0 <? List.length hist)%nat && (30 <=? List.length hist)%nat)%bool then
    index_live_branch sym topic years hist info
  else ret None.

(** lines 233-288: the inner [for], every exception is a [continue] *)
Fixpoint index_symbols_loop (syms : list string) (topic : string) (years : Z)
  : M (option value) :=
  match syms with
  | [] => ret None
  | sym :: rest =>
      r <- try_except (index_attempt sym topic years) (fun _ => ret None) ;;
      match r with
      | Some analysis => ret (Some analysis)
      | None => index_symbols_loop rest topic years
      end
  end.

(** lines 291-293 *)
Definition backoff (attempt : Z) : M unit :=
  if attempt <? max_retries - 1 then
    jitter <- uniform E 0 (5 # 10) ;;
    let delay := (base_delay * inject_Z (2 ^ attempt) + jitter)%Q in
    time_sleep (Qmin delay 2)
  else ret tt.

(** lines 232-293: the outer [for] *)
Fixpoint index_attempts_loop (attempts : list Z) (symbol topic : string) (years : Z)
  : M (option value) :=
  match attempts with
  | [] => ret None
  | attempt :: rest =>
      r <- index_symbols_loop (firstn 2 (symbols_to_try symbol)) topic years ;;
      match r with
      | Some analysis => ret (Some analysis)
      | None => backoff attempt ;;; index_attempts_loop rest symbol topic years
      end
  end.

Definition _analyze_index (symbol topic : string) (years : Z) : M value :=
  r <- index_attempts_loop (range (Z.to_nat max_retries)) symbol topic years ;;
  match r with
  | Some analysis => ret analysis
  | None => _get_complete_fallback_index_analysis symbol topic years
  end.

(** ** [_analyze_general_market] and its helpers *)

Definition global_indices : list string := [ "^GSPC"; "^FTSE"; "^N225"; "^HSI" ].

(** lines 528-543, the body of the [try]: the rounded total return when the
    provider has a history *)
Definition global_attempt (idx : string) (years : Z) : M (option Q) :=
  yf_Ticker E idx ;;;
  end_date <- datetime_now E ;;
  start_date <- minus_days end_date (years * 365 + 100) ;;
  global_hist <- fetch_history idx start_date end_date ;;
  if (0 <? List.length global_hist)%nat then
    last_close <- iloc_last (closes global_hist) ;;
    first_close <- iloc_first (closes global_hist) ;;
    ret (Some (round2 ((last_close / first_close - 1) * 100)))
  else ret None.

Fixpoint global_loop (indices : list string) (years : Z) (global_performance : dict)
  : M dict :=
  match indices with
  | [] => ret global_performance
  | idx :: rest =>
      r <- try_except (global_attempt idx years) (fun _ => ret None) ;;
      global_loop rest years
        match r with
        | Some total_return => dict_set idx (VNum total_return) global_performance
        | None => global_performance
        end
  end.

Definition _generate_market_overview (topic : string) (years : Z) : string :=
  "Market overview for " ++ topic ++ " over the past " ++ str_of_Z years
    ++ " years is not available.".

Definition _identify_market_trends (years : Z) : list string :=
  [ "Key trends in the market over the past " ++ str_of_Z years
      ++ " years are not available." ].

Definition _analyze_economic_factors : dict :=
  [ ("economic_factors", VStr "Not available") ].

Definition _suggest_investment_themes (topic : string) : list string :=
  [ "Investment themes for " ++ topic ++ " are not available." ].

Definition _assess_market_risks : dict :=
  [ ("market_risks", VStr "Not available") ].

Definition _generate_strategic_recommendations (topic : string) : list string :=
  [ "Strategic recommendations for " ++ topic ++ " are not available." ].

(** lines 864-879 *)
Definition _get_fallback_general_analysis (topic : string) (years : Z) : M value :=
  primary_market <- _get_complete_fallback_index_analysis "^NSEI" "Nifty 50" years ;;
  analysis_date <- today E ;;
  ret (VDict
    [ ("topic", VStr topic);
      ("analysis_type", VStr "General Market Analysis");
      ("primary_market", primary_market);
      ("global_context", VDict []);
      ("market_overview", VStr "No overview available.");
      ("key_trends", VList []);
      ("economic_factors", VDict []);
      ("investment_themes", VList []);
      ("risk_outlook", VDict []);
      ("strategic_recommendations", VStr "No recommendations available.");
      ("analysis_date", VStr analysis_date);
      ("period_analyzed", VStr (str_of_Z years ++ " years")) ]).

(** lines 516-566 *)
Definition _analyze_general_market (topic : string) (years : Z) : M value :=
  try_except
    (nifty_analysis <- _analyze_index "^NSEI" "Nifty 50" years ;;
     global_performance <- global_loop global_indices years [] ;;
     analysis_date <- today E ;;
     ret (VDict
       [ ("topic", VStr topic);
         ("analysis_type", VStr "General Market Analysis");
         ("primary_market", nifty_analysis);
         ("global_context", VDict global_performance);
         ("market_overview", VStr (_generate_market_overview topic years));
         ("key_trends", str_list (_identify_market_trends years));
         ("economic_factors", VDict _analyze_economic_factors);
         ("investment_themes", str_list (_suggest_investment_themes topic));
         ("risk_outlook", VDict _assess_market_risks);
         ("strategic_recommendations",
           str_list (_generate_strategic_recommendations topic));
         ("analysis_date", VStr analysis_date);
         ("period_analyzed", VStr (str_of_Z years ++ " years")) ]))
    (fun e =>
       st_message "Error in general market analysis" ;;;
       _get_fallback_general_analysis topic years).

(** ** [get_comprehensive_analysis], lines 118-139 *)

Definition dispatch (topic : string) (years : Z) : M value :=
  let analysis_type := Topic._parse_topic topic in
  ty <- get_str "type" analysis_type ;;
  if String.eqb ty "index" then
    symbol <- get_str "symbol" analysis_type ;;
    _analyze_index symbol topic years
  else if String.eqb ty "sector" then
    sector <- get_str "sector" analysis_type ;;
    call_method "_analyze_sector" [ VStr sector; VStr topic; VInt years ]
  else if String.eqb ty "stock" then
    symbol <- get_str "symbol" analysis_type ;;
    call_method "_analyze_individual_stock" [ VStr symbol; VStr topic; VInt years ]
  else if String.eqb ty "commodity" then
    symbol <- get_str "symbol" analysis_type ;;
    call_method "_analyze_commodity" [ VStr symbol; VStr topic; VInt years ]
  else if String.eqb ty "theme" then
    theme <- get_str "theme" analysis_type ;;
    call_method "_analyze_investment_theme" [ VStr theme; VStr topic; VInt years ]
  else
    _analyze_general_market topic years.

Definition get_comprehensive_analysis (topic : string) (years : Z) : M value :=
  try_except
    (dispatch topic years)
    (fun e =>
       st_message "Error in comprehensive analysis" ;;;
       _get_fallback_general_analysis topic years).

End Service.

(** ** The stocks of a sector and of a theme *)

(** [self.stock_databases[market][category]], for a market and a category
    the table has *)
Definition stocks_of (market category : string) : list string :=
  match assoc_get market Topic.stock_databases with
  | Some categories =>
      match assoc_get category categories with
      | Some symbols => symbols
      | None => []
      end
  | None => []
  end.

(** lines 686-693 *)
Definition _get_stocks_for_sector (sector : string) : list string :=
  let sector_mapping :=
    [ ("metals", [ "JSWSTEEL.NS"; "TATASTEEL.NS"; "HINDALCO.NS"; "VEDL.NS"; "NMDC.NS" ]);
      ("realty", [ "DLF.NS"; "GODREJPROP.NS"; "OBEROIRLTY.NS"; "PRESTIGE.NS";
                   "BRIGADE.NS" ]);
      ("energy", [ "RELIANCE.NS"; "ONGC.NS"; "BPCL.NS"; "IOC.NS"; "GAIL.NS" ]) ] in
  match assoc_get sector sector_mapping with
  | Some stocks => stocks
  | None => slice_to 10 (stocks_of "indian_stocks" "large_cap")
  end.

(** lines 695-704 *)
Definition _get_stocks_for_theme (theme : string) : list string :=
  let theme_stocks :=
    [ ("artificial_intelligence", [ "NVDA"; "GOOGL"; "MSFT"; "TCS.NS"; "INFY.NS" ]);
      ("renewable_energy", [ "TSLA"; "ENPH"; "SEDG"; "ADANIGREEN.NS"; "SUZLON.NS" ]);
      ("fintech", [ "SQ"; "PYPL"; "PAYTM.NS"; "NYKAA.NS"; "POLICYBZR.NS" ]);
      ("healthcare_innovation", [ "JNJ"; "PFE"; "MRNA"; "SUNPHARMA.NS"; "DRREDDY.NS" ]);
      ("esg_investing", [ "TSLA"; "MSFT"; "UNILEVER.NS"; "HINDUNILVR.NS"; "ITC.NS" ]) ] in
  match assoc_get theme theme_stocks with
  | Some stocks => stocks
  | None => slice_to 10 (stocks_of "us_stocks" "technology")
  end.

(** lines 302-305 and 309 of [_analyze_sector]: the stocks it asks for *)
Definition sector_stocks (sector : string) : list string :=
  let stocks :=
    if existsb (String.eqb sector) [ "banking"; "technology"; "pharma"; "auto"; "fmcg" ]
    then match assoc_get sector
                 match assoc_get "indian_stocks" Topic.stock_databases with
                 | Some categories => categories
                 | None => []
                 end with
         | Some symbols => symbols
         | None => []
         end
    else _get_stocks_for_sector sector in
  slice_to 10 stocks.

(** lines 462 and 465 of [_analyze_investment_theme] *)
Definition theme_stocks (theme : string) : list string :=
  slice_to 15 (_get_stocks_for_theme theme).

(** ** [_analyze_theme_sectors], lines 1127-1138 *)

(** [sector_count[sector] += 1], or [sector_count[sector] = 1] for a new key *)
Fixpoint count_sector (sector : value) (sector_count : list (value * Z))
  : list (value * Z) :=
  match sector_count with
  | [] => [ (sector, 1) ]
  | (k, n) :: rest =>
      if same_key sector k then (k, n + 1) :: rest
      else (k, n) :: count_sector sector rest
  end.

(** [data.get("sector", "Unknown")] *)
Definition sector_of (data : dict) : value :=
  match dict_get "sector" data with
  | Some v => v
  | None => VStr "Unknown"
  end.

Fixpoint theme_sectors_loop (theme_data : list dict) (sector_count : list (value * Z))
  : M (list (value * Z)) :=
  match theme_data with
  | [] => ret sector_count
  | data :: rest =>
      let sector := sector_of data in
      if hashable sector then theme_sectors_loop rest (count_sector sector sector_count)
      else raise (LibraryError "TypeError")
  end.

Definition _analyze_theme_sectors (theme_data : list dict) : M (list (value * Z)) :=
  theme_sectors_loop theme_data [].

(** ** [_analyze_commodity] and [_analyze_individual_stock] *)

Section Analyses.
Variable E : env.

(** the replies of [ticker.financials], [ticker.balance_sheet] and
    [ticker.cashflow] *)
Variable statement_reply : nat -> result value.

Definition ticker_statement : M value := r <- ask statement_reply ;; lift r.

(** lines 1097-1111 *)
Definition _calculate_commodity_metrics (hist : frame) : M value :=
  if (List.length hist =? 0)%nat then ret (VDict [])
  else
    current_price <- iloc_last (closes hist) ;;
    year_start_price <- iloc_first (closes hist) ;;
    let total_return := ((current_price / year_start_price - 1) * 100)%Q in
    let volatility := round2 (np_volatility E (closes hist)) in
    max_drawdown <- call_method E "_calculate_max_drawdown" [ VSeries (closes hist) ] ;;
    ret (VDict [ ("current_price", VNum (round2 current_price));
                 ("total_return", VNum (round2 total_return));
                 ("volatility", VNum volatility);
                 ("max_drawdown", max_drawdown) ]).

(** lines 1199-1213: the same body; [info] is not read *)
Definition _calculate_stock_metrics (hist : frame) (info : dict) : M value :=
  if (List.length hist =? 0)%nat then ret (VDict [])
  else
    current_price <- iloc_last (closes hist) ;;
    year_start_price <- iloc_first (closes hist) ;;
    let total_return := ((current_price / year_start_price - 1) * 100)%Q in
    let volatility := round2 (np_volatility E (closes hist)) in
    max_drawdown <- call_method E "_calculate_max_drawdown" [ VSeries (closes hist) ] ;;
    ret (VDict [ ("current_price", VNum (round2 current_price));
                 ("total_return", VNum (round2 total_return));
                 ("volatility", VNum volatility);
                 ("max_drawdown", max_drawdown) ]).

(** lines 641-666: nothing below 50 rows; the rolling means and the RSI of
    a longer history are left to the library *)
Definition _calculate_technical_indicators (hist : frame) : M value :=
  if (List.length hist <? 50)%nat then ret (VDict [])
  else method_body E "_calculate_technical_indicators" [ VFrame hist ].

(** lines 914-924 and 881-890 *)
Definition _get_fallback_technical_indicators : dict :=
  [ ("sma_20", VInt 0); ("sma_50", VInt 0); ("sma_200", VInt 0); ("rsi", VInt 0);
    ("price_vs_sma_20", VInt 0); ("price_vs_sma_50", VInt 0);
    ("trend", VStr "Unknown") ].

Definition _get_fallback_current_metrics : dict :=
  [ ("current_price", VInt 0); ("daily_change", VInt 0); ("volume", VInt 0);
    ("market_cap", VInt 0); ("52_week_high", VInt 0); ("52_week_low", VInt 0) ].

(** lines 829-844 *)
Definition _get_fallback_commodity_analysis (symbol topic : string) (years : Z)
  : M value :=
  analysis_date <- today E ;;
  ret (VDict
    [ ("topic", VStr topic);
      ("analysis_type", VStr "Commodity Analysis");
      ("symbol", VStr symbol);
      ("price_analysis", VDict []);
      ("supply_demand", VDict []);
      ("seasonal_patterns", VDict []);
      ("correlation_analysis", VDict []);
      ("macro_factors", VDict []);
      ("price_forecast", VDict []);
      ("trading_insights", VDict []);
      ("analysis_date", VStr analysis_date);
      ("period_analyzed", VStr (str_of_Z years ++ " years")) ]).

(** lines 421-456 *)
Definition _analyze_commodity (symbol topic : string) (years : Z) : M value :=
  try_except
    (yf_Ticker E symbol ;;;
     end_date <- datetime_now E ;;
     start_date <- minus_days end_date (years * 365 + 100) ;;
     hist <- fetch_history E symbol start_date end_date ;;
     price_analysis <- _calculate_commodity_metrics hist ;;
     let supply_demand :=
       VDict [ ("supply", VStr "Not available"); ("demand", VStr "Not available") ] in
     let seasonal_patterns := VDict [ ("seasonal_patterns", VStr "Not available") ] in
     let correlation_analysis := VDict [ ("correlations", VStr "Not available") ] in
     let macro_factors := str_list [ "Macroeconomic factors are not available." ] in
     price_forecast <- call_method E "_generate_commodity_forecast" [ VFrame hist ] ;;
     trading_insights <- call_method E "_generate_commodity_insights"
                           [ VFrame hist; VStr symbol ] ;;
     analysis_date <- today E ;;
     ret (VDict
       [ ("topic", VStr topic);
         ("analysis_type", VStr "Commodity Analysis");
         ("symbol", VStr symbol);
         ("price_analysis", price_analysis);
         ("supply_demand", supply_demand);
         ("seasonal_patterns", seasonal_patterns);
         ("correlation_analysis", correlation_analysis);
         ("macro_factors", macro_factors);
         ("price_forecast", price_forecast);
         ("trading_insights", trading_insights);
         ("analysis_date", VStr analysis_date);
         ("period_analyzed", VStr (str_of_Z years ++ " years")) ]))
    (fun e =>
       st_message ("Error analyzing commodity " ++ symbol) ;;;
       _get_fallback_commodity_analysis symbol topic years).

(** lines 803-827 *)
Definition _get_fallback_stock_analysis (symbol topic : string) (years : Z)
  : M value :=
  analysis_date <- today E ;;
  ret (VDict
    [ ("topic", VStr topic);
      ("analysis_type", VStr "Individual Stock Analysis");
      ("symbol", VStr symbol);
      ("company_info", VDict
        [ ("name", VStr symbol); ("sector", VStr "Unknown");
          ("industry", VStr "Unknown"); ("market_cap", VInt 0);
          ("employees", VInt 0) ]);
      ("current_metrics", VDict _get_fallback_current_metrics);
      ("financial_health", VDict []);
      ("valuation_metrics", VDict []);
      ("technical_analysis", VDict _get_fallback_technical_indicators);
      ("peer_comparison", VDict []);
      ("growth_analysis", VDict []);
      ("dividend_analysis", VDict []);
      ("risk_assessment", VDict []);
      ("investment_recommendation", VStr "No recommendation available.");
      ("analysis_date", VStr analysis_date);
      ("period_analyzed", VStr (str_of_Z years ++ " years")) ]).

(** [d.get(k, default)] *)
Definition get_or (k : string) (default : value) (d : dict) : value :=
  match dict_get k d with
  | Some v => v
  | None => default
  end.

(** lines 368-419 *)
Definition _analyze_individual_stock (symbol topic : string) (years : Z) : M value :=
  try_except
    (yf_Ticker E symbol ;;;
     end_date <- datetime_now E ;;
     start_date <- minus_days end_date (years * 365 + 100) ;;
     hist <- fetch_history E symbol start_date end_date ;;
     info <- ticker_info E symbol ;;
     financials <- ticker_statement ;;
     balance_sheet <- ticker_statement ;;
     cash_flow <- ticker_statement ;;
     let company_info :=
       VDict [ ("name", get_or "longName" (VStr symbol) info);
               ("sector", get_or "sector" (VStr "Unknown") info);
               ("industry", get_or "industry" (VStr "Unknown") info);
               ("market_cap", get_or "marketCap" (VInt 0) info);
               ("employees", get_or "fullTimeEmployees" (VInt 0) info) ] in
     current_metrics <- _calculate_stock_metrics hist info ;;
     technical_analysis <- _calculate_technical_indicators hist ;;
     analysis_date <- today E ;;
     ret (VDict
       [ ("topic", VStr topic);
         ("analysis_type", VStr "Individual Stock Analysis");
         ("symbol", VStr symbol);
         ("company_info", company_info);
         ("current_metrics", current_metrics);
         ("financial_health", VDict [ ("financial_health", VStr "Not available") ]);
         ("valuation_metrics", VDict [ ("valuation_metrics", VStr "Not available") ]);
         ("technical_analysis", technical_analysis);
         ("peer_comparison", VDict [ ("peer_comparison", VStr "Not available") ]);
         ("growth_analysis", VDict [ ("growth_trends", VStr "Not available") ]);
         ("dividend_analysis", VDict [ ("dividend_history", VStr "Not available") ]);
         ("risk_assessment", VDict [ ("stock_risks", VStr "Not available") ]);
         ("investment_recommendation",
           VStr "Investment recommendation is not available.");
         ("analysis_date", VStr analysis_date);
         ("period_analyzed", VStr (str_of_Z years ++ " years")) ]))
    (fun e =>
       st_message ("Error analyzing stock " ++ symbol) ;;;
       _get_fallback_stock_analysis symbol topic years).

End Analyses.
End MarketData.

(* ================================================================== *)
(** * services/serpapi_service.py *)
(* ================================================================== *)

Module SerpAPI.
Import PyStr.

(** an entry of the ['results'] list a search returns *)
Record hit : Type := mk_hit {
  hit_title : string;
  hit_snippet : string;
  hit_link : string
}.

Definition or_empty (o : option string) : string :=
  match o with Some s => s | None => EmptyString end.

Section Service.
Variable E : env.

(** lines 68-96 *)
Definition search_financial_topic (topic : string) (num_results : Z)
  : M (list hit) :=
  try_except
    (emit (EvSearch (topic ++ " financial analysis") num_results) ;;;
     r <- ask (serp_reply E) ;;
     data <- lift r ;;
     match organic_results data with
     | Some l =>
         ret (map (fun result =>
                     mk_hit (or_empty (o_title result))
                            (or_empty (o_snippet result))
                            (or_empty (o_link result)))
                  (slice_to num_results l))
     | None => ret []
     end)
    (fun _ => st_message "Error fetching search results" ;;; ret []).

(** lines 98-122 *)
Definition search_images (query : string) (num_results : Z) : M (list string) :=
  try_except
    (emit (EvImages query num_results) ;;;
     r <- ask (serp_reply E) ;;
     data <- lift r ;;
     match images_results data with
     | Some l => ret (map or_empty (slice_to num_results l))
     | None => ret []
     end)
    (fun _ => st_message "Error fetching images" ;;; ret []).
End Service.

Definition financial_keywords : list string :=
  [ "financial"; "analysis"; "performance"; "market"; "stock"; "nifty"; "report" ].

(** [sum(1 for keyword in keywords if keyword in text)] *)
Definition score (keywords : list string) (text : string) : nat :=
  List.length (filter (fun keyword => contains keyword text) keywords).

Definition bullet_mark : string := "•".

(** lines 40-49: the loop over the first two sentences of a snippet; it stops
    once there are four bullets *)
Fixpoint sentences_loop (sentences : list string) (bullets : list string)
  : list string :=
  match sentences with
  | [] => bullets
  | sentence :: rest =>
      if (20 <? String.length (strip sentence))%nat then
        let bullet := strip sentence in
        let bullet := if startswith bullet_mark bullet then bullet
                      else bullet_mark ++ " " ++ bullet in
        let bullets := (List.app bullets [bullet]) in
        if (4 <=? List.length bullets)%nat then bullets
        else sentences_loop rest bullets
      else sentences_loop rest bullets
  end.

(** lines 25-52: the loop over the first five results *)
Fixpoint results_loop (results : list hit) (slide_keywords : list string)
         (bullets : list string) : list string :=
  match results with
  | [] => bullets
  | result :: rest =>
      let snippet := hit_snippet result in
      let title := hit_title result in
      let combined_text := lower (snippet ++ title) in
      let relevance_score := score slide_keywords combined_text in
      let financial_score := score financial_keywords combined_text in
      let bullets :=
        if (0 <? relevance_score)%nat || (1 <? financial_score)%nat
        then sentences_loop (slice_to 2 (split_on ". " snippet)) bullets
        else bullets in
      if (4 <=? List.length bullets)%nat then bullets
      else results_loop rest slide_keywords bullets
  end.

(** lines 55-64: [while len(bullets) < 3]; [missing] is what the length
    lacks to 3 *)
Fixpoint generic_loop (missing : nat) (slide_title : string) (bullets : list string)
  : list string :=
  match missing with
  | O => bullets
  | S missing' =>
      if contains "analysis" (lower slide_title) then
        generic_loop missing' slide_title
          (List.app bullets [ bullet_mark ++ " Comprehensive " ++ lower slide_title
                          ++ " based on current market data" ])
      else if contains "performance" (lower slide_title) then
        generic_loop missing' slide_title
          (List.app bullets [ bullet_mark ++ " Key performance indicators for "
                          ++ lower slide_title ])
      else if contains "overview" (lower slide_title) then
        generic_loop missing' slide_title
          (List.app bullets [ bullet_mark ++ " Strategic overview of "
                          ++ lower slide_title ])
      else
        (List.app bullets [ bullet_mark ++ " Industry insights for "
                        ++ lower slide_title ])
  end.

(** lines 17-66 *)
Definition extract_bullet_points (results : list hit) (slide_title : string)
  : list string :=
  let slide_keywords := split_ws (lower slide_title) in
  let bullets := results_loop (slice_to 5 results) slide_keywords [] in
  let bullets := generic_loop (3 - List.length bullets) slide_title bullets in
  slice_to 6 bullets.

(** a bullet starts with the bullet mark *)
Definition marked (bullet : string) : Prop := startswith bullet_mark bullet = true.

(** whether the title names one of the three kinds of slide the generic
    bullets are written for *)
Definition generic_kind (slide_title : string) : bool :=
  contains "analysis" (lower slide_title) ||
  contains "performance" (lower slide_title) ||
  contains "overview" (lower slide_title).

Section Slides.
Variable E : env.

(** lines 129-136: the loop over the slide titles *)
Fixpoint slide_content_loop (search_results : list hit) (slide_titles : list string)
         (slides : list value) : list value :=
  match slide_titles with
  | [] => slides
  | slide_title :: rest =>
      let bullets := extract_bullet_points search_results slide_title in
      slide_content_loop search_results rest
        (List.app slides
           [ VDict [ ("slide_number", VInt (Z.of_nat (List.length slides) + 1));
                     ("title", VStr slide_title);
                     ("content", str_list bullets) ] ])
  end.

(** lines 124-148 *)
Definition generate_slide_content (topic : string) (slide_titles : list string)
  : M dict :=
  search_results <- search_financial_topic E topic 10 ;;
  let slides := slide_content_loop search_results slide_titles [] in
  ret [ ("presentation_title", VStr ("Financial Analysis: " ++ topic));
        ("executive_summary",
          VStr ("Comprehensive analysis of " ++ topic
                  ++ " based on current market data and industry reports."));
        ("slides", VList slides);
        ("key_recommendations",
          str_list [ "Monitor key market indicators regularly";
                     "Diversify investment portfolio";
                     "Stay informed about industry developments";
                     "Consult financial advisors for personalized advice" ]) ].
End Slides.

End SerpAPI.

(* ================================================================== *)
(** * services/content_generator.py *)
(* ================================================================== *)

Module Content.
Import PyStr.

(** [self.financial_templates] *)
Definition financial_templates : list (string * list string) :=
  [ ("quarterly_analysis",
      [ "Executive Summary & Key Highlights";
        "Financial Performance Overview";
        "Revenue Analysis & Growth Trends";
        "Profitability & Margin Analysis";
        "Cash Flow & Liquidity Position";
        "Balance Sheet Strength";
        "Market Position & Competitive Analysis";
        "Risk Assessment & Mitigation";
        "Strategic Initiatives & Outlook" ]);
    ("investment_proposal",
      [ "Investment Opportunity Overview";
        "Market Analysis & Size";
        "Financial Projections";
        "Revenue Model & Assumptions";
        "Competitive Landscape";
        "Risk Analysis & Mitigation";
        "Management Team & Execution";
        "Financial Requirements";
        "Expected Returns & Exit Strategy" ]);
    ("budget_planning",
      [ "Budget Overview & Objectives";
        "Revenue Forecasting";
        "Operating Expense Planning";
        "Capital Expenditure Analysis";
        "Cash Flow Projections";
        "Variance Analysis";
        "Scenario Planning";
        "Resource Allocation";
        "Performance Metrics" ]) ].

Definition quarterly_slides : list string :=
  match MarketData.assoc_get "quarterly_analysis" financial_templates with
  | Some l => l
  | None => []
  end.

(** [self.financial_templates.get(presentation_type, ...)["slides"]] *)
Definition template_slides (presentation_type : string) : list string :=
  match MarketData.assoc_get presentation_type financial_templates with
  | Some l => l
  | None => quarterly_slides
  end.

(** the truth value of a Python object *)
Definition truthy (v : value) : bool :=
  match v with
  | VNone => false
  | VBool b => b
  | VInt z => negb (z =? 0)
  | VNum q => negb (Qeq_bool q 0)
  | VStr s => negb (String.eqb s EmptyString)
  | VList l => match l with [] => false | _ => true end
  | VDict d => match d with [] => false | _ => true end
  | VFrame _ => true
  | VSeries _ => true
  end.

Definition common_symbols : list string :=
  [ "NIFTY"; "SENSEX"; "AAPL"; "GOOGL"; "MSFT"; "TSLA" ].

(** lines 192-199 *)
Definition _extract_symbols_from_topic (topic : string) : list string :=
  match find (fun symbol => contains symbol (upper topic)) common_symbols with
  | Some symbol => [symbol]
  | None => []
  end.

(** lines 214-222 *)
Definition _get_appendix_suggestions (topic : string) : list string :=
  [ "Detailed financial models and assumptions";
    "Supporting market research and data sources";
    "Risk assessment matrices and scenario analysis";
    "Competitive benchmarking and industry comparisons";
    "Regulatory compliance and legal considerations" ].

(** lines 224-249 *)
Definition _get_fallback_content (topic presentation_type target_audience : string)
           (slide_count : Z) : dict :=
  let slide_titles := slice_to slide_count (template_slides presentation_type) in
  let slides :=
    map (fun it : nat * string =>
           let (i, title) := it in
           VDict [ ("slide_number", VInt (Z.of_nat i));
                   ("title", VStr title);
                   ("content", str_list [ "Key point 1 for " ++ title;
                                          "Key point 2 for " ++ title;
                                          "Key point 3 for " ++ title ]);
                   ("visual_suggestion",
                     VDict [ ("chart_type", VStr "bar");
                             ("data_description", VStr "Sample data") ]);
                   ("data_points", VList []) ])
        (combine (seq 1 (List.length slide_titles)) slide_titles) in
  [ ("presentation_title", VStr ("Financial Presentation: " ++ topic));
    ("executive_summary",
      VStr ("This presentation covers " ++ topic ++ " for " ++ target_audience ++ "."));
    ("slides", VList slides);
    ("key_recommendations",
      str_list [ "Conduct further analysis"; "Monitor key metrics";
                 "Implement recommendations" ]);
    ("appendix_suggestions", str_list [ "Additional data"; "Supporting documents" ]) ].

Section Generator.
Variable E : env.

(** an object inside an f-string *)
Definition fmt (v : value) : string :=
  match v with
  | VStr s => s
  | VInt z => str_of_Z z
  | VNum q => float_repr E q
  | VNone => "None"
  | VBool true => "True"
  | VBool false => "False"
  | _ => "<object>"
  end.

(** lines 125-162 *)
Definition _get_visual_suggestion (title : string) (market_data : dict)
           (topic : string) : dict :=
  let title_lower := lower title in
  let has := fun k => contains k title_lower in
  let image_description :=
    if has "revenue" || has "market share" then
      "professional stock image of business revenue growth and financial success"
    else if has "performance" || has "growth" then
      "professional stock image of business performance and growth trends"
    else if has "financial" || has "projections" then
      "professional stock image of financial planning and business projections"
    else if has "risk" || has "volatility" then
      "professional stock image of business risk management and strategy"
    else if has "cash flow" then
      "professional stock image of cash flow management in business"
    else if has "profitability" || has "margin" then
      "professional stock image of business profitability and financial margins"
    else if has "balance sheet" then
      "professional stock image of financial balance and business stability"
    else if has "market position" then
      "professional stock image of market positioning and competitive business landscape"
    else if has "strategic" || has "outlook" then
      "professional stock image of business strategy and future outlook"
    else
      "professional stock image of " ++ title_lower ++ " in finance and business" in
  let image_description :=
    if truthy (VDict market_data) then
      let symbol := match dict_get "symbol" market_data with
                    | Some v => v
                    | None => VStr EmptyString
                    end in
      if truthy symbol
      then "professional stock image of " ++ fmt symbol ++ " company in business context"
      else image_description
    else image_description in
  [ ("image_type", VStr "stock_image");
    ("image_description", VStr image_description);
    ("key_insight", VStr ("Visual representation of " ++ title));
    ("image_url", VNone) ].

(** lines 164-179 *)
Definition _get_slide_data_points (title : string) (market_data : dict)
  : list string :=
  if truthy (VDict market_data) then
    let title_lower := lower title in
    if contains "performance" title_lower then
      List.app
        match dict_get "current_price" market_data with
        | Some v => [ "Current Price: $" ++ fmt v ]
        | None => []
        end
        match dict_get "total_return" market_data with
        | Some v => [ "1-Year Return: " ++ fmt v ++ "%" ]
        | None => []
        end
    else if contains "risk" title_lower then
      List.app
        match dict_get "volatility" market_data with
        | Some v => [ "Volatility: " ++ fmt v ++ "%" ]
        | None => []
        end
        match dict_get "max_drawdown" market_data with
        | Some v => [ "Max Drawdown: " ++ fmt v ++ "%" ]
        | None => []
        end
    else []
  else [].

(** lines 182-190: what [slide['content']] is after the call *)
Definition _enhance_slide_with_real_data (content : list string) (title : string)
           (market_data : dict) : list string :=
  let title_lower := lower title in
  if contains "overview" title_lower || contains "summary" title_lower then
    match dict_get "current_price" market_data with
    | Some v => ("Current Market Price: $" ++ fmt v) :: content
    | None => content
    end
  else if contains "growth" title_lower then
    match dict_get "total_return" market_data with
    | Some v => (List.app content [ "Growth Rate: " ++ fmt v ++ "% YTD" ])
    | None => content
    end
  else content.

(** lines 90-91: [while len(bullets) < 4]; [missing] is what the length
    lacks to 4 *)
Fixpoint pad_loop (missing : nat) (title : string) (bullets : list string)
  : list string :=
  match missing with
  | O => bullets
  | S missing' =>
      pad_loop missing' title
        (List.app bullets [ SerpAPI.bullet_mark ++ " Additional insight on " ++ lower title ])
  end.

(** lines 83-114: the body of the loop over the slide titles *)
Definition make_slide (topic : string) (include_real_data : bool)
           (market_data : dict) (i : nat) (title : string) : M value :=
  let slide_search := topic ++ " " ++ title in
  slide_results <- SerpAPI.search_financial_topic E slide_search 5 ;;
  let bullets := SerpAPI.extract_bullet_points slide_results title in
  let bullets := pad_loop (4 - List.length bullets) title bullets in
  let bullets := slice_to 6 bullets in
  let visual_suggestion := _get_visual_suggestion title market_data topic in
  let image_query :=
    fmt (match dict_get "image_description" visual_suggestion with
         | Some v => v
         | None => VNone
         end) ++ " finance " ++ topic in
  image_urls <- SerpAPI.search_images E image_query 1 ;;
  let visual_suggestion :=
    match image_urls with
    | url :: _ => MarketData.dict_set "image_url" (VStr url) visual_suggestion
    | [] => visual_suggestion
    end in
  let data_points := _get_slide_data_points title market_data in
  let content :=
    if include_real_data && truthy (VDict market_data)
    then _enhance_slide_with_real_data bullets title market_data
    else bullets in
  ret (VDict [ ("slide_number", VInt (Z.of_nat i + 1));
               ("title", VStr title);
               ("content", str_list content);
               ("visual_suggestion", VDict visual_suggestion);
               ("data_points", str_list data_points) ]).

Fixpoint slides_loop (topic : string) (include_real_data : bool)
         (market_data : dict) (i : nat) (titles : list string) : M (list value) :=
  match titles with
  | [] => ret []
  | title :: rest =>
      slide <- make_slide topic include_real_data market_data i title ;;
      slides <- slides_loop topic include_real_data market_data (S i) rest ;;
      ret (slide :: slides)
  end.

(** lines 74-80 *)
Definition fetch_market_data (topic : string) (include_real_data : bool) : M dict :=
  if include_real_data then
    match _extract_symbols_from_topic topic with
    | symbol :: _ =>
        v <- MarketData.get_comprehensive_analysis E symbol 3 ;;
        match v with
        | VDict d => ret d
        | _ => raise (LibraryError "AttributeError")
        end
    | [] => ret []
    end
  else ret [].

(** lines 60-123 *)
Definition generate_presentation_content
           (topic presentation_type target_audience : string) (slide_count : Z)
           (include_real_data : bool) (content_provider : string) : M dict :=
  if negb (String.eqb content_provider "SerpAPI") then
    ret (_get_fallback_content topic presentation_type target_audience slide_count)
  else
    search_results <- SerpAPI.search_financial_topic E topic 15 ;;
    let slide_titles := slice_to slide_count (template_slides presentation_type) in
    market_data <- fetch_market_data topic include_real_data ;;
    slides <- slides_loop topic include_real_data market_data 0 slide_titles ;;
    let executive_summary :=
      "This presentation provides a comprehensive " ++ presentation_type
        ++ " on " ++ topic ++ " for " ++ target_audience
        ++ ", based on current market data and industry reports from reliable sources." in
    ret [ ("presentation_title",
            VStr (title presentation_type ++ " - " ++ topic));
          ("executive_summary", VStr executive_summary);
          ("slides", VList slides);
          ("appendix_suggestions", str_list (_get_appendix_suggestions topic)) ].

End Generator.

(** the ['content'] list of a slide has between [lo] and [hi] entries *)
Definition content_between (lo hi : nat) (slide : value) : Prop :=
  exists bullets,
    field "content" slide = Some (VList bullets) /\
    (lo <= List.length bullets <= hi)%nat.

(** the slides of a presentation *)
Definition slides_of (content : dict) : list value :=
  match dict_get "slides" content with
  | Some (VList l) => l
  | _ => []
  end.

Definition slide_numbers (content : dict) : list (option value) :=
  map (field "slide_number") (slides_of content).

(** lines 201-212 *)
Definition _get_recommendations (topic : string) (market_data : dict)
  : M (list string) :=
  let recommendations :=
    [ "Monitor key market indicators regularly";
      "Diversify investment portfolio based on risk profile";
      "Stay informed about regulatory changes";
      "Review performance quarterly against benchmarks" ] in
  if truthy (VDict market_data) then
    match dict_get "volatility" market_data with
    | Some volatility =>
        high <- greater volatility 20 ;;
        if high
        then ret ("Consider risk mitigation strategies due to high volatility"
                    :: recommendations)
        else ret recommendations
    | None => ret recommendations
    end
  else ret recommendations.

End Content.

(* ================================================================== *)
(** * services/ppt_generator.py *)
(* ================================================================== *)

Module PPT.
Import PyStr.

Definition rgb (r g b : Z) : value := VList [ VInt r; VInt g; VInt b ].

(** [self.templates] *)
Definition templates : list (string * dict) :=
  [ ("corporate_blue",
      [ ("primary_color", rgb 31 78 121); ("secondary_color", rgb 74 144 226);
        ("accent_color", rgb 123 179 240); ("text_color", rgb 51 51 51);
        ("background_color", rgb 255 255 255); ("success_color", rgb 40 167 69);
        ("warning_color", rgb 255 193 7); ("danger_color", rgb 220 53 69) ]);
    ("financial_green",
      [ ("primary_color", rgb 45 90 39); ("secondary_color", rgb 76 175 80);
        ("accent_color", rgb 129 199 132); ("text_color", rgb 51 51 51);
        ("background_color", rgb 255 255 255); ("success_color", rgb 102 187 106);
        ("warning_color", rgb 255 152 0); ("danger_color", rgb 244 67 54) ]);
    ("modern_orange",
      [ ("primary_color", rgb 230 81 0); ("secondary_color", rgb 255 152 0);
        ("accent_color", rgb 255 183 77); ("text_color", rgb 51 51 51);
        ("background_color", rgb 255 255 255); ("success_color", rgb 76 175 80);
        ("warning_color", rgb 255 193 7); ("danger_color", rgb 244 67 54) ]);
    ("colorful_modern",
      [ ("bar_colors", VList [ rgb 220 53 69; rgb 255 99 132; rgb 40 167 69;
                               rgb 255 193 7 ]);
        ("letter_color", rgb 255 255 255); ("title_color", rgb 0 0 0);
        ("background_color", rgb 255 255 255) ]);
    ("modern_white",
      [ ("primary_color", rgb 0 51 102); ("secondary_color", rgb 173 216 230);
        ("accent_color", rgb 240 248 255); ("text_color", rgb 51 51 51);
        ("background_color", rgb 255 255 255); ("success_color", rgb 144 238 144);
        ("warning_color", rgb 255 228 196); ("danger_color", rgb 255 182 193) ]);
    ("executive_dark",
      [ ("primary_color", rgb 25 25 25); ("secondary_color", rgb 64 64 64);
        ("accent_color", rgb 105 105 105); ("text_color", rgb 255 255 255);
        ("background_color", rgb 18 18 18); ("success_color", rgb 76 175 80);
        ("warning_color", rgb 255 193 7); ("danger_color", rgb 244 67 54) ]) ].

(** the templates with the eight colours of the original design *)
Definition eight_colour_templates : list string :=
  [ "corporate_blue"; "financial_green"; "modern_orange"; "modern_white";
    "executive_dark" ].

(** which method of the class built a slide *)
Inductive builder : Type :=
| TitleSlide | AgendaSlide | ContentSlide | SummarySlide | AppendixSlide.

(** A slide of the deck: its layout, the text of the title, the paragraphs
    of its main text frame, the text boxes added to it, and whether a picture
    was added. *)
Record pslide : Type := mk_pslide {
  built_by : builder;
  layout : nat;
  title_text : string;
  paragraphs : list string;
  boxes : list (list string);
  picture : bool
}.

(** [d.get(k, default)] where a string is expected *)
Definition get_text (k default : string) (d : dict) : M string :=
  match dict_get k d with
  | None => ret default
  | Some (VStr s) => ret s
  | Some _ => raise (LibraryError "TypeError")
  end.

(** [d.get(k, [])] where a list is expected *)
Definition get_items (k : string) (d : dict) : M (list value) :=
  match dict_get k d with
  | None => ret []
  | Some (VList l) => ret l
  | Some _ => raise (LibraryError "TypeError")
  end.

Definition as_text (v : value) : M string :=
  match v with
  | VStr s => ret s
  | _ => raise (LibraryError "AttributeError")
  end.

Definition as_dict (v : value) : M dict :=
  match v with
  | VDict d => ret d
  | _ => raise (LibraryError "AttributeError")
  end.

Fixpoint for_each {A B} (f : A -> M B) (l : list A) : M (list B) :=
  match l with
  | [] => ret []
  | a :: rest => b <- f a ;; bs <- for_each f rest ;; ret (b :: bs)
  end.

Definition bullet_or_space : list string := [ "•"; " " ].

(** line 302 *)
Definition clean_item (item : string) : string :=
  strip (lstrip_set [ "*" ] (lstrip_set [ "*"; " " ]
        (lstrip_set [ "-" ] (lstrip_set [ "-"; " " ]
        (lstrip_set [ "•" ] (lstrip_set bullet_or_space item)))))).

(** line 315 *)
Definition clean_data_point (data_point : string) : string :=
  strip (lstrip_set [ "-" ] (lstrip_set [ "-"; " " ]
        (lstrip_set [ "•" ] (lstrip_set bullet_or_space data_point)))).

Section Generator.
Variable E : env.

(** lines 489-496: the colour of the title is looked up *)
Definition _format_slide_title (colors : dict) : M unit :=
  MarketData.getitem "primary_color" colors ;;; ret tt.

(** lines 147-219 *)
Definition _create_colorful_title_slide (content colors : dict) : M pslide :=
  MarketData.getitem "background_color" colors ;;;
  bar_colors <- MarketData.getitem "bar_colors" colors ;;
  bars <- match bar_colors with
          | VList l => ret (firstn 4 l)
          | _ => raise (LibraryError "TypeError")
          end ;;
  letters <- for_each (fun it : string * value =>
                         MarketData.getitem "letter_color" colors ;;; ret [fst it])
                      (combine [ "D"; "C"; "B"; "A" ] bars) ;;
  title <- get_text "presentation_title" "Financial Analysis" content ;;
  MarketData.getitem "title_color" colors ;;;
  date <- month_year E ;;
  MarketData.getitem "title_color" colors ;;;
  ret (mk_pslide TitleSlide 0 EmptyString []
         (letters ++ [ [ EmptyString; title ];
                       [ EmptyString; "Professional Financial Presentation"; date ] ])
         false).

(** lines 109-144 *)
Definition _create_title_slide (content colors : dict) : M pslide :=
  if dict_has "colorful_modern" colors then
    _create_colorful_title_slide content colors
  else
    MarketData.getitem "background_color" colors ;;;
    title <- get_text "presentation_title" "Financial Analysis" content ;;
    MarketData.getitem "primary_color" colors ;;;
    date <- month_year E ;;
    MarketData.getitem "secondary_color" colors ;;;
    MarketData.getitem "secondary_color" colors ;;;
    ret (mk_pslide TitleSlide 0 title
           [ "Professional Financial Presentation"; date ] [] false).

(** lines 244-250: the agenda items; the first goes into the paragraph
    that [text_frame.clear()] leaves, the others are added *)
Definition agenda_line (i : nat) (d : dict) : string :=
  str_of_Z (Z.of_nat i + 1) ++ ". " ++
  match dict_get "title" d with
  | Some v => Content.fmt E v
  | None => "Section " ++ str_of_Z (Z.of_nat i + 1)
  end.

Fixpoint agenda_loop (colors : dict) (i : nat) (slides_data : list value)
         (paragraphs : list string) : M (list string) :=
  match slides_data with
  | [] => ret paragraphs
  | slide_data :: rest =>
      d <- as_dict slide_data ;;
      let text := agenda_line i d in
      MarketData.getitem "text_color" colors ;;;
      agenda_loop colors (S i) rest
        (if (i =? 0)%nat then [ text ] else (paragraphs ++ [ text ])%list)
  end.

(** lines 221-269 *)
Definition _create_agenda_slide (content colors : dict) : M pslide :=
  MarketData.getitem "background_color" colors ;;;
  _format_slide_title colors ;;;
  slides_data <- get_items "slides" content ;;
  paragraphs <- agenda_loop colors 0 (slice_to 8 slides_data) [ EmptyString ] ;;
  summary <-
    match dict_get "executive_summary" content with
    | None => ret []
    | Some v =>
        if Content.truthy v then
          MarketData.getitem "primary_color" colors ;;;
          text <- as_text v ;;
          MarketData.getitem "text_color" colors ;;;
          ret [ [ "Executive Summary"; take 100 text ++ "..." ] ]
        else ret []
    end ;;
  ret (mk_pslide AgendaSlide 1 "Agenda" paragraphs summary false).

(** lines 332-371: the picture is on the slide when the download and
    [add_picture] go through; any failure is passed over *)
Definition _add_image_to_slide (visual_suggestion : dict) : M bool :=
  match dict_get "image_url" visual_suggestion with
  | Some v =>
      if Content.truthy v then
        try_except
          (url <- as_text v ;;
           emit (EvDownload url) ;;;
           r <- ask (download_reply E) ;;
           lift r ;;;
           ret true)
          (fun _ => ret false)
      else ret false
  | None => ret false
  end.

(** lines 300-309 and 312-323 *)
Definition item_paragraph (colors : dict) (item : value) : M string :=
  text <- as_text item ;;
  MarketData.getitem "text_color" colors ;;;
  ret ("• " ++ clean_item text).

Definition data_point_paragraph (colors : dict) (data_point : value) : M string :=
  text <- as_text data_point ;;
  MarketData.getitem "text_color" colors ;;;
  ret ("  • " ++ clean_data_point text).

(** lines 271-328 *)
Definition _create_content_slide (slide_data : value) (colors : dict) : M pslide :=
  MarketData.getitem "background_color" colors ;;;
  d <- as_dict slide_data ;;
  title <- get_text "title" "Content Slide" d ;;
  _format_slide_title colors ;;;
  content_items <- get_items "content" d ;;
  items <- for_each (item_paragraph colors) content_items ;;
  data_points <- get_items "data_points" d ;;
  points <- for_each (data_point_paragraph colors) data_points ;;
  has_picture <-
    match dict_get "visual_suggestion" d with
    | None => ret false
    | Some v =>
        if Content.truthy v then
          vs <- as_dict v ;;
          match dict_get "image_url" vs with
          | Some url => if Content.truthy url then _add_image_to_slide vs
                        else ret false
          | None => ret false
          end
        else ret false
    end ;;
  ret (mk_pslide ContentSlide 1 title
         (match items with [] => [ EmptyString ] | _ => items end ++ points)
         [] has_picture).

(** lines 373-433 and 435-487: the two builders [create_presentation]
    does not call *)
Definition _create_summary_slide (content colors : dict) : M pslide :=
  MarketData.getitem "background_color" colors ;;;
  _format_slide_title colors ;;;
  recommendations <-
    match dict_get "key_recommendations" content with
    | None => ret [ VStr "Strategic recommendation based on analysis";
                    VStr "Operational improvement opportunity";
                    VStr "Risk mitigation strategy" ]
    | Some (VList l) => ret l
    | Some _ => raise (LibraryError "TypeError")
    end ;;
  texts <- for_each (fun it : nat * value =>
                       MarketData.getitem "text_color" colors ;;;
                       ret (str_of_Z (Z.of_nat (fst it) + 1) ++ ". "
                              ++ Content.fmt E (snd it)))
                    (combine (seq 0 (List.length recommendations)) recommendations) ;;
  MarketData.getitem "primary_color" colors ;;;
  MarketData.getitem "text_color" colors ;;;
  ret (mk_pslide SummarySlide 1 "Key Recommendations"
         (match texts with [] => [ EmptyString ] | l => l end)
         [ [ "Next Steps"; "• Review and validate findings";
             "• Implement priority recommendations";
             "• Monitor key performance indicators";
             "• Schedule follow-up analysis" ] ]
         false).

Definition _create_appendix_slide (content colors : dict) : M pslide :=
  MarketData.getitem "background_color" colors ;;;
  _format_slide_title colors ;;;
  appendix_items <-
    match dict_get "appendix_suggestions" content with
    | None => ret [ VStr "Detailed financial models and assumptions";
                    VStr "Supporting market research and analysis";
                    VStr "Risk assessment matrices and scenarios";
                    VStr "Additional data sources and methodology" ]
    | Some (VList l) => ret l
    | Some _ => raise (LibraryError "TypeError")
    end ;;
  texts <- for_each (fun item =>
                       MarketData.getitem "text_color" colors ;;;
                       ret ("• " ++ Content.fmt E item))
                    appendix_items ;;
  MarketData.getitem "primary_color" colors ;;;
  MarketData.getitem "text_color" colors ;;;
  ret (mk_pslide AppendixSlide 1 "Appendix & Supporting Materials"
         (match texts with [] => [ EmptyString ] | l => l end)
         [ [ "Questions & Discussion";
             "Generated by FinancePPT AI\nProfessional Financial Analysis Platform" ] ]
         false).

(** lines 80-107: the deck that [prs.save] writes out *)
Definition build_deck (content colors : dict) : M (list pslide) :=
  title_slide <- _create_title_slide content colors ;;
  agenda_slide <- _create_agenda_slide content colors ;;
  slides_data <- get_items "slides" content ;;
  content_slides <- for_each (fun slide_data =>
                                _create_content_slide slide_data colors)
                             slides_data ;;
  ret (title_slide :: agenda_slide :: content_slides).

Definition create_presentation (content : dict) (template : string)
  : M (list pslide) :=
  colors <- match MarketData.assoc_get template templates with
            | Some colors => ret colors
            | None => raise (KeyError template)
            end ;;
  build_deck content colors.

(** the lines of the agenda for the slides from number [i] on *)
Fixpoint agenda_items (i : nat) (slides_data : list value) : list string :=
  match slides_data with
  | [] => []
  | slide_data :: rest =>
      match slide_data with
      | VDict d => agenda_line i d
      | _ => EmptyString
      end :: agenda_items (S i) rest
  end.

End Generator.

(** ** Content dictionaries of the shape the content generator produces *)

Definition text_or_missing (o : option value) : bool :=
  match o with
  | None | Some (VStr _) => true
  | Some _ => false
  end.

Definition texts_or_missing (o : option value) : bool :=
  match o with
  | None => true
  | Some (VList l) => forallb (fun v => match v with VStr _ => true | _ => false end) l
  | Some _ => false
  end.

Definition visual_ok (o : option value) : bool :=
  match o with
  | None => true
  | Some (VDict vs) =>
      match dict_get "image_url" vs with
      | None | Some VNone | Some (VStr _) => true
      | Some _ => false
      end
  | Some _ => false
  end.

Definition slide_ok (slide_data : value) : bool :=
  match slide_data with
  | VDict d =>
      text_or_missing (dict_get "title" d) &&
      texts_or_missing (dict_get "content" d) &&
      texts_or_missing (dict_get "data_points" d) &&
      visual_ok (dict_get "visual_suggestion" d)
  | _ => false
  end.

(** the colours every builder of the original design looks up *)
Definition has_colours (colors : dict) : bool :=
  dict_has "background_color" colors && dict_has "primary_color" colors &&
  dict_has "secondary_color" colors && dict_has "text_color" colors &&
  negb (dict_has "colorful_modern" colors).

Definition content_ok (content : dict) : bool :=
  text_or_missing (dict_get "presentation_title" content) &&
  text_or_missing (dict_get "executive_summary" content) &&
  match dict_get "slides" content with
  | None => true
  | Some (VList l) => forallb slide_ok l
  | Some _ => false
  end.

End PPT.

(** a slide as [generate_presentation_content] writes it with the SerpAPI
    provider *)
Definition searched_slide (i : nat) (title : string) (slide : value) : Prop :=
  exists bullets vs,
    slide = VDict [ ("slide_number", VInt (Z.of_nat i + 1));
                    ("title", VStr title);
                    ("content", str_list bullets);
                    ("visual_suggestion", VDict vs);
                    ("data_points", VList []) ] /\
    List.length bullets = 4%nat /\
    Forall SerpAPI.marked bullets /\
    PPT.visual_ok (Some (VDict vs)) = true.

(* ================================================================== *)
(** * services/security_manager.py *)
(* ================================================================== *)

Module Security.
Import PyStr.

(** what the manager reads of the host: which paths exist, and the
    environment variables *)
Record host : Type := mk_host {
  path_exists : string -> bool;           (* Path(p).exists() *)
  getenv : string -> option string        (* os.getenv(name) *)
}.

(** the truth value of [os.getenv(name)] *)
Definition configured (o : option string) : bool :=
  match o with
  | Some s => negb (String.eqb s EmptyString)
  | None => false
  end.

(** lines 22-39 *)
Definition validate_environment (h : host) : dict :=
  let validation_results :=
    [ ("env_file_exists", VBool (path_exists h ".env"));
      ("api_keys_configured", VBool false);
      ("secure_setup", VBool true) ] in
  let api_keys :=
    [ getenv h "OPENAI_API_KEY"; getenv h "GEMINI_API_KEY";
      getenv h "ANTHROPIC_API_KEY" ] in
  MarketData.dict_set "api_keys_configured" (VBool (existsb configured api_keys))
    validation_results.

(** lines 41-49 *)
Definition check_api_key_security (h : host) : dict :=
  [ ("storage", VStr (if path_exists h ".env" then "secure" else "missing"));
    ("git_protection",
      VStr (if path_exists h ".gitignore" then "protected" else "vulnerable"));
    ("environment_isolation", VStr "isolated") ].

(** lines 51-59 *)
Definition mask_api_key (api_key : option string) : string :=
  match api_key with
  | None => "Not configured"
  | Some key =>
      if String.eqb key EmptyString then "Not configured"
      else if (String.length key <? 8)%nat then "Invalid key"
      else take 4 key ++ "..." ++ drop (String.length key - 4) key
  end.

(** lines 77-90 *)
Definition _get_security_recommendations (env_status key_status : dict)
  : M (list string) :=
  let recommendations := [] in
  env_file_exists <- MarketData.getitem "env_file_exists" env_status ;;
  let recommendations :=
    if negb (Content.truthy env_file_exists)
    then (recommendations ++ [ "Create .env file for secure API key storage" ])%list
    else recommendations in
  api_keys_configured <- MarketData.getitem "api_keys_configured" env_status ;;
  let recommendations :=
    if negb (Content.truthy api_keys_configured)
    then (recommendations ++ [ "Configure at least one AI provider API key" ])%list
    else recommendations in
  git_protection <- MarketData.getitem "git_protection" key_status ;;
  let recommendations :=
    if negb (eq_string git_protection "protected")
    then (recommendations ++ [ "Ensure .gitignore includes .env file" ])%list
    else recommendations in
  ret recommendations.

(** lines 65-75; [session_token] is the token [__init__] has drawn *)
Definition get_security_status (h : host) (session_token : string) : M dict :=
  let env_validation := validate_environment h in
  let key_security := check_api_key_security h in
  recommendations <- _get_security_recommendations env_validation key_security ;;
  ret [ ("environment", VDict env_validation);
        ("api_security", VDict key_security);
        ("session_valid", VBool (negb (String.eqb session_token EmptyString)));
        ("recommendations", str_list recommendations) ].

End Security.

(* ================================================================== *)
(** * app.py *)
(* ================================================================== *)

Module App.
Import PyStr.

Definition char (n : nat) : string := String (ascii_of_nat n) EmptyString.

(** line 222 *)
Definition sanitize (topic : string) : string :=
  replace "|" "_" (replace ">" "_" (replace "<" "_" (replace (char 34) "_"
  (replace "?" "_" (replace "*" "_" (replace ":" "_" (replace (char 92) "_"
  (replace "/" "_" (replace " " "_" (replace (char 13) EmptyString
  (replace (char 10) EmptyString (strip topic)))))))))))).

(** the characters line 222 takes out: line feed, carriage return, the
    space, and the nine characters a file name must not have *)
Definition taken_out : list nat :=
  [ 10; 13; 32; 47; 92; 58; 42; 63; 34; 60; 62; 124 ]%nat.

(** [c] does not occur in [s] *)
Definition free_of (c : ascii) (s : string) : bool :=
  all_chars (fun x => negb (Ascii.eqb x c)) s.

(** line 93: the templates the user can select *)
Definition template_options : list string :=
  [ "financial_green"; "corporate_blue"; "modern_white" ].

(** line 82: whether [main] stops at the check of the environment *)
Definition environment_incomplete (h : Security.host) : bool :=
  negb (Content.truthy (VDict (Security.validate_environment h))).

Section Main.
Variable E : env.

(** [datetime.now().strftime('%Y%m%d_%H%M%S')] *)
Variable timestamp : nat -> string.

(** lines 186-223 and 242-244 of [generate_presentation]: the content, the
    deck and the name of the file; [None] is a [return] without a
    presentation.  Writing the file and the session state are left out. *)
Definition generate_presentation (topic : string) (slide_count : Z)
           (include_real_data : bool) (template_key : string)
  : M (option (list PPT.pslide * string)) :=
  try_except
    (content <- Content.generate_presentation_content E topic "quarterly_analysis"
                  "Executive Leadership" slide_count include_real_data "SerpAPI" ;;
     if negb (Content.truthy (VDict content)) then
       st_message "Failed to generate presentation content. Please try again." ;;;
       ret None
     else
       let formatted_template := replace " " "_" (lower template_key) in
       ppt <- PPT.create_presentation E content formatted_template ;;
       let sanitized_topic := sanitize topic in
       stamp <- ask timestamp ;;
       let filename := sanitized_topic ++ "_" ++ stamp ++ ".pptx" in
       ret (Some (ppt, filename)))
    (fun e =>
       st_message "An error occurred" ;;;
       st_message "Please check your API keys and try again." ;;;
       ret None).
End Main.

End App.

(* ================================================================== *)
(** * test_market_data.py *)
(* ================================================================== *)

Module TestMarketData.
Import PyStr.

(** lines 20-25 *)
Definition test_cases : list (string * string) :=
  [ ("^NSEI", "Nifty 50"); ("^GSPC", "S&P 500"); ("^DJI", "Dow Jones");
    ("^IXIC", "NASDAQ") ].

(** [d.get(k, {}).get(k', 0)] *)
Definition nested_get (k k' : string) (analysis : dict) : M value :=
  match dict_get k analysis with
  | None => ret (VInt 0)
  | Some (VDict d) =>
      match dict_get k' d with
      | Some v => ret v
      | None => ret (VInt 0)
      end
  | Some _ => raise (LibraryError "AttributeError")
  end.

(** [f"{v:.2f}"]: only a number can be formatted *)
Definition format_float (v : value) : M unit :=
  match num_of v with
  | Some _ => ret tt
  | None => raise (LibraryError "TypeError")
  end.

(** lines 36-91: what [results[symbol]] is set to for an analysis *)
Definition check_analysis (analysis : value) : M bool :=
  match analysis with
  | VDict analysis =>
      let missing_keys :=
        filter (fun key => negb (dict_has key analysis)) MarketData.required_keys in
      match missing_keys with
      | _ :: _ => ret false
      | [] =>
          let data_quality := match dict_get "data_quality" analysis with
                              | Some v => v
                              | None => VNone
                              end in
          if eq_string data_quality "high" || eq_string data_quality "medium" then
            current_price <- nested_get "current_data" "current_price" analysis ;;
            positive <- greater current_price 0 ;;
            if positive then
              format_float current_price ;;;
              one_year <- nested_get "historical_performance" "1_year" analysis ;;
              if negb (eq_number one_year 0) then
                format_float one_year ;;;
                volatility <- nested_get "risk_metrics" "volatility" analysis ;;
                positive <- greater volatility 0 ;;
                if positive then format_float volatility ;;; ret true
                else ret false
              else ret false
            else ret false
          else ret false
      end
  | _ => raise (LibraryError "TypeError")
  end.

Section Test.
Variable E : env.

(** lines 33-97: one test case; an exception is a failure *)
Definition run_case (symbol name : string) : M bool :=
  try_except
    (analysis <- MarketData._analyze_index E symbol (name ++ " Analysis") 3 ;;
     check_analysis analysis)
    (fun _ => ret false).

(** lines 29-97: the loop over the test cases *)
Fixpoint cases_loop (cases : list (string * string)) (results : list (string * bool))
  : M (list (string * bool)) :=
  match cases with
  | [] => ret results
  | (symbol, name) :: rest =>
      passed <- run_case symbol name ;;
      cases_loop rest
        (match MarketData.assoc_get symbol results with
         | Some _ => map (fun it : string * bool =>
                            if String.eqb symbol (fst it) then (fst it, passed) else it)
                         results
         | None => (results ++ [ (symbol, passed) ])%list
         end)
  end.

(** lines 13-121 *)
Definition test_enhanced_retry_logic : M bool :=
  results <- cases_loop test_cases [] ;;
  let passed := List.length (filter (fun it : string * bool => snd it) results) in
  let total := List.length results in
  ret (passed =? total)%nat.
End Test.

End TestMarketData.

(* ================================================================== *)
(** * A sample environment *)
(* ================================================================== *)

(** The network is down, the generator returns one half and zero. *)
Definition offline : env :=
  mk_env (fun _ => 1 # 2)
         (fun _ _ => 0)
         (fun _ => 739000)
         (fun _ => "2024-05-01")
         (fun _ => "May 2024")
         (fun _ => Raise (LibraryError "ConnectionError"))
         (fun _ => Raise (LibraryError "ConnectionError"))
         (fun _ => Raise (LibraryError "ConnectionError"))
         (fun _ => Ok (mk_serp None None))
         (fun _ => Raise (LibraryError "ConnectionError"))
         (fun _ => "0.0")
         (fun _ => 0%Q)
         (fun _ _ => raise (LibraryError "NotImplementedError")).

Definition start : world := mk_world 0 0 [].

Definition flat_row : row := mk_row "2024-05-01" 100 101 99 (Some 1000%Q).

Definition sample_content : dict :=
  Content._get_fallback_content "Budget" "budget_planning" "Board" 3.

(* ================================================================== *)
(** * Part II.  The properties *)
(* ================================================================== *)

(** ** The topic classifier *)

Section TopicFacts.
Import PyStr Topic.






Lemma digit_not_space (c : ascii) : is_digit c = true -> is_space c = false.
Proof.
  unfold is_digit, is_space. cbv zeta. intros H.
  apply andb_prop in H. destruct H as [H1 H2].
  apply Nat.leb_le in H1. apply Nat.leb_le in H2.
  apply orb_false_iff. split; apply andb_false_iff.
  - right. apply Nat.leb_gt. lia.
  - right. apply Nat.leb_gt. lia.
Qed.

(** A greedy run over a block of characters of the class stops at the end of
    the block when what follows does not start with one of the class and the
    rest of the pattern accepts there. *)
Lemma plus_block {R} (p : ascii -> bool) (d rest : string)
      (k : string -> option R) (r : R) :
  all_chars p d = true -> d <> EmptyString ->
  match rest with EmptyString => true | String c _ => negb (p c) end = true ->
  k rest = Some r ->
  Re.plus p (d ++ rest) k = Some r.
Proof.
  intros Hd Hne Hrest Hk. induction d as [|c d IH]; [congruence|].
  simpl in Hd. apply andb_prop in Hd. destruct Hd as [Hc Hd].
  simpl. rewrite Hc.
  destruct d as [|c' d'].
  - simpl. destruct rest as [|c0 rest0]; simpl.
    + exact Hk.
    + apply negb_true_iff in Hrest. rewrite Hrest. exact Hk.
  - rewrite IH; [reflexivity | exact Hd | discriminate].
Qed.

Lemma take_app_length (d rest : string) :
  take (String.length (d ++ rest) - String.length rest) (d ++ rest) = d.
Proof.
  assert (Hlen : forall a b, String.length (a ++ b)
                             = (String.length a + String.length b)%nat).
  { induction a as [|c a IH]; intros b; simpl; [reflexivity|]. now rewrite IH. }
  rewrite Hlen.
  replace (String.length d + String.length rest - String.length rest)%nat
    with (String.length d) by lia.
  induction d as [|c d IH]; simpl.
  - destruct rest; reflexivity.
  - now rewrite IH.
Qed.

Lemma search_at_start (r : Re.regex) (s : string) (caps : Re.captures) :
  Re.run r s [] (fun _ c => Some c) = Some caps -> Re.search r s = Some caps.
Proof. intros H. destruct s; simpl; rewrite H; reflexivity. Qed.

Lemma run_after_word {R} (B : Re.regex) (pre rest : string)
      (k : string -> Re.captures -> option R) (x : R) :
  In pre [ "last"; "over"; "past" ] ->
  Re.run B rest [] k = Some x ->
  Re.run (Re.Seq (Re.Alt (Re.Lit "last") (Re.Alt (Re.Lit "over") (Re.Lit "past"))) B)
         (pre ++ rest) [] k = Some x.
Proof.
  intros Hpre HB. simpl in Hpre.
  destruct Hpre as [<-|[<-|[<-|[]]]]; simpl; rewrite HB; reflexivity.
Qed.

(** The phrase "last N years" (or "over", "past") gives N, capped at 10. *)
Lemma years_of_phrase (w d : string) :
  In w [ "last"; "over"; "past" ] ->
  all_chars is_digit d = true -> d <> EmptyString ->
  years_of (w ++ " " ++ d ++ " years") = Z.min (int_of_digits d) 10.
Proof.
  intros Hw Hd Hne.
  assert (Hm : Re.search years_pattern (w ++ " " ++ d ++ " years")
               = Some [ (2%nat, "years"); (1%nat, d) ]).
  { assert (Hsp : forall (k : string -> option Re.captures),
               Re.plus is_space (String " " (d ++ " years")) k = k (d ++ " years")).
    { intros k. simpl. destruct d as [|c d']; [congruence|].
      simpl in Hd. apply andb_prop in Hd. destruct Hd as [Hc _].
      simpl. rewrite (digit_not_space c Hc). reflexivity. }
    assert (Hrun : forall pre, In pre [ "last"; "over"; "past" ] ->
               Re.run years_pattern (pre ++ " " ++ d ++ " years") []
                 (fun _ caps => Some caps)
               = Some [ (2%nat, "years"); (1%nat, d) ]).
    { intros pre Hpre.
      assert (Htail :
        Re.run (Re.Seq (Re.Plus is_space)
               (Re.Seq (Re.Group 1 (Re.Plus is_digit))
               (Re.Seq (Re.Plus is_space)
               (Re.Seq (Re.Group 2 (Re.Alt (Re.Lit "year")
                                   (Re.Seq (Re.Lit "year") (Re.Opt (Re.Lit "s")))))
                       (Re.Alt (Re.Class is_space) Re.Eos)))))
               (String " " (d ++ " years")) [] (fun _ caps => Some caps)
        = Some [ (2%nat, "years"); (1%nat, d) ]).
      { cbn [Re.run]. rewrite Hsp.
        apply plus_block; [exact Hd | exact Hne | reflexivity |].
        rewrite take_app_length. reflexivity. }
      unfold years_pattern. apply run_after_word; [exact Hpre | exact Htail]. }
    apply search_at_start, Hrun, Hw. }
  unfold years_of. rewrite Hm. reflexivity.
Qed.







(** A second reading that fails: "share risk green" has a stock indicator and
    a theme keyword, names no listed company, and is a theme. *)
Lemma share_risk_green_is_theme :
  keyword_list_matches "stock" (lower "share risk green") = true /\
  keyword_list_matches "theme" (lower "share risk green") = true /\
  type_of (_parse_topic "share risk green") = Some (VStr "theme").
Proof. repeat split; vm_compute; reflexivity. Qed.

End TopicFacts.

(** ** Rounding and the random draws *)

Section NumberFacts.

Lemma round_half_even_bounds (q : Q) (n m : Z) :
  (inject_Z n <= q)%Q -> (q <= inject_Z m)%Q ->
  n <= round_half_even q <= m.
Proof.
  intros Hn Hm.
  pose proof (Qfloor_resp_le _ _ Hn) as Hfn. rewrite Qfloor_Z in Hfn.
  pose proof (Qfloor_resp_le _ _ Hm) as Hfm. rewrite Qfloor_Z in Hfm.
  assert (Hup : Qcompare (q - inject_Z (Qfloor q)) (1 # 2) <> Lt -> Qfloor q + 1 <= m).
  { intros Hc.
    destruct (Z.eq_dec (Qfloor q) m) as [He|Hne]; [|lia].
    exfalso. apply Hc. rewrite <- Qlt_alt. rewrite He. lra. }
  unfold round_half_even.
  destruct (Qcompare (q - inject_Z (Qfloor q)) (1 # 2)) eqn:Hc.
  - destruct (Z.even (Qfloor q)); [lia|].
    split; [lia | apply Hup; discriminate].
  - lia.
  - split; [lia | apply Hup; discriminate].
Qed.

(** [round(x, 2)] stays between two bounds that are hundredths *)
Lemma round2_bounds (x : Q) (n m : Z) :
  (n # 100 <= x)%Q -> (x <= m # 100)%Q ->
  (n # 100 <= round2 x)%Q /\ (round2 x <= m # 100)%Q.
Proof.
  intros Hn Hm.
  assert (H : n <= round_half_even (x * 100) <= m).
  { apply round_half_even_bounds.
    - unfold Qle in *. simpl in *. lia.
    - unfold Qle in *. simpl in *. lia. }
  unfold round2, Qle. simpl. lia.
Qed.

End NumberFacts.


(** ** The fallback synthesizer *)

Section FallbackFacts.
Import MarketData.
Variable E : env.
Hypothesis contract : generator_contract E.

Lemma round2_range (x lo hi : Q) :
  Qeq_bool (lo * 100) (inject_Z (Qfloor (lo * 100))) = true ->
  Qeq_bool (hi * 100) (inject_Z (Qfloor (hi * 100))) = true ->
  (lo <= x)%Q -> (x <= hi)%Q ->
  (lo <= round2 x)%Q /\ (round2 x <= hi)%Q.
Proof.
  intros Hlo Hhi H1 H2.
  apply Qeq_bool_iff in Hlo. apply Qeq_bool_iff in Hhi.
  destruct (round2_bounds x (Qfloor (lo * 100)) (Qfloor (hi * 100))) as [A B].
  - assert (Qfloor (lo * 100) # 100 == lo)%Q.
    { rewrite (Qmake_Qdiv _ 100). rewrite <- Hlo. field. }
    lra.
  - assert (Qfloor (hi * 100) # 100 == hi)%Q.
    { rewrite (Qmake_Qdiv _ 100). rewrite <- Hhi. field. }
    lra.
  - assert (Qfloor (lo * 100) # 100 == lo)%Q.
    { rewrite (Qmake_Qdiv _ 100). rewrite <- Hlo. field. }
    assert (Qfloor (hi * 100) # 100 == hi)%Q.
    { rewrite (Qmake_Qdiv _ 100). rewrite <- Hhi. field. }
    lra.
Qed.

Lemma unit_lo (k : nat) : (0 <= random_unit E k)%Q.
Proof. apply contract. Qed.

Lemma unit_hi (k : nat) : (random_unit E k <= 1)%Q.
Proof. apply Qlt_le_weak, contract. Qed.

Lemma float_div_pos (a b : Q) (w : world) :
  (0 < b)%Q -> float_div a b w = (Ok (a / b)%Q, w).
Proof.
  intros Hb. unfold float_div.
  destruct (Qeq_bool b 0) eqn:Hz; [|reflexivity].
  apply Qeq_bool_iff in Hz. lra.
Qed.

Lemma product_range (x a b u : Q) :
  (1000 <= x)%Q -> (x <= 50000)%Q -> (0 < a)%Q -> (a <= b)%Q ->
  (0 <= u)%Q -> (u <= 1)%Q ->
  (1000 * a <= x * (a + (b - a) * u))%Q /\ (x * (a + (b - a) * u) <= 50000 * b)%Q.
Proof.
  intros Hx1 Hx2 Ha Hab Hu0 Hu1.
  assert (Hv : (a <= a + (b - a) * u)%Q /\ (a + (b - a) * u <= b)%Q) by (split; nra).
  destruct Hv as [Hv1 Hv2].
  set (v := (a + (b - a) * u)%Q) in *.
  split; nra.
Qed.

(** turn the draws a goal mentions into variables between 0 and 1 *)
Ltac with_units :=
  repeat match goal with
         | |- context [random_unit E ?k] =>
             generalize (unit_lo k) (unit_hi k);
             generalize (random_unit E k); intros ? ? ?
         end.

Ltac lookup :=
  cbv [path field dict_get String.eqb Ascii.eqb Bool.eqb in_range is_number
       forallb andb fst snd range_of].

Ltac in_bounds :=
  apply round2_range; [reflexivity | reflexivity | |]; with_units; lra.

Ltac in_product_bounds H1 H2 :=
  apply round2_range; [reflexivity | reflexivity | |];
  match goal with
  | |- context [(?x * (?a + (?b - ?a) * random_unit E ?k))%Q] =>
      let Ha := fresh in let Hb := fresh in
      assert (Ha : (0 < a)%Q) by reflexivity;
      assert (Hb : (a <= b)%Q) by discriminate;
      generalize (product_range x a b (random_unit E k) H1 H2 Ha Hb
                    (unit_lo k) (unit_hi k))
  end; with_units; lra.

(** What one run of the fallback returns: a dictionary with every key and
    every metric in place, the drawn metrics within the ranges of the
    source, and 38 calls of the generator. *)
Lemma fallback_run (symbol topic : string) (years : Z) (w : world) :
  exists v,
    _get_complete_fallback_index_analysis E symbol topic years w
      = (Ok v, mk_world (38 + rng w) (S (io w)) (trace w)) /\
    forallb (fun k => match field k v with Some _ => true | None => false end)
            required_keys = true /\
    forallb (fun p => is_number (path p v)) metric_paths = true /\
    Forall (fun r => in_range (snd (fst r)) (snd r) (path (fst (fst r)) v))
           drawn_ranges /\
    path [ "risk_metrics"; "volatility" ] v
      = Some (VNum (round2 (10 + (35 - 10) * random_unit E (14 + rng w)))) /\
    path [ "technical_indicators"; "rsi" ] v
      = Some (VNum (round2 (30 + (70 - 30) * random_unit E (21 + rng w)))) /\
    exists d, v = VDict d /\ dict_keys d = fallback_index_keys.
Proof.
  destruct w as [r i t].
  unfold _get_complete_fallback_index_analysis.
  cbv [bind uniform randint today ask ret rng io trace dict_set
       String.eqb Ascii.eqb Bool.eqb Nat.add].
  destruct contract as [_ Hbelow].
  pose proof (Hbelow (2 + r)%nat (10000000 - 100000 + 1) eq_refl) as Hvol.
  pose proof (Hbelow (3 + r)%nat (1000000000000 - 1000000000 + 1) eq_refl) as Hcap.
  cbv [Nat.add] in Hvol, Hcap. clear Hbelow.
  match goal with
  | |- context [float_div ?a _ _] => set (current_price := a) in *
  end.
  assert (Hcp : (1000 <= current_price)%Q /\ (current_price <= 50000)%Q)
    by (subst current_price; in_bounds).
  destruct Hcp as [Hcp1 Hcp2].
  match goal with
  | |- context [float_div current_price ?b ?w0] =>
      rewrite (float_div_pos current_price b w0)
  end.
  2:{ match goal with
      | |- (0 < round2 ?x)%Q =>
          assert (Hb : (1000 * (95 # 100) <= round2 x)%Q /\
                       (round2 x <= 50000 * (105 # 100))%Q)
            by in_product_bounds Hcp1 Hcp2
      end.
      revert Hb. generalize (round2 (current_price * (0.95 + (1.05 - 0.95) *
        random_unit E (19 + r)))). intros q Hb. lra. }
  match goal with
  | |- context [float_div current_price ?b ?w0] =>
      rewrite (float_div_pos current_price b w0)
  end.
  2:{ match goal with
      | |- (0 < round2 ?x)%Q =>
          assert (Hb : (1000 * (90 # 100) <= round2 x)%Q /\
                       (round2 x <= 50000 * (110 # 100))%Q)
            by in_product_bounds Hcp1 Hcp2
      end.
      revert Hb. generalize (round2 (current_price * (0.90 + (1.10 - 0.90) *
        random_unit E (20 + r)))). intros q Hb. lra. }
  eexists. split; [reflexivity|].
  split; [reflexivity|].
  split; [reflexivity|].
  split; [|split; [reflexivity|split; [reflexivity|]]].
  2:{ eexists. split; reflexivity. }
  clearbody current_price.
  unfold drawn_ranges.
  repeat (apply Forall_cons; [lookup|]); try apply Forall_nil.
  1: (split; assumption).
  all: try in_bounds.
  all: try in_product_bounds Hcp1 Hcp2.
  - split; [change 100000%Q with (inject_Z 100000)
           | change 10000000%Q with (inject_Z 10000000)];
      rewrite <- Zle_Qle; lia.
  - split; [change 1000000000%Q with (inject_Z 1000000000)
           | change 1000000000000%Q with (inject_Z 1000000000000)];
      rewrite <- Zle_Qle; lia.
Qed.

End FallbackFacts.

(** ** [_analyze_index] *)

Section IndexFacts.
Import MarketData.
Variable E : env.

Lemma no_max_drawdown : has_attribute "_calculate_max_drawdown" = false.
Proof. reflexivity. Qed.

Ltac events_before tr t :=
  lazymatch tr with
  | t => constr:(@nil event)
  | ?e :: ?tr' => let p := events_before tr' t in constr:(e :: p)
  end.

Ltac close_run t :=
  lazymatch goal with
  | |- exists new w', (_, mk_world _ _ ?tr) = (_, w') /\ _ =>
      let p := events_before tr t in
      exists p; eexists; split; [reflexivity|];
      cbn [rng io trace tickers sleeps history_requests flat_map app rev List.length];
      repeat split; try reflexivity; try lia
  end.

(** One attempt never returns an analysis: it contacts the ticker once, asks
    for the history at most twice, does not sleep and does not draw. *)
Lemma index_attempt_effect (sym topic : string) (years : Z) (w : world) :
  exists new w',
    try_except (index_attempt E sym topic years) (fun _ => ret None) w
      = (Ok None, w') /\
    rng w' = rng w /\
    trace w' = (new ++ trace w)%list /\
    tickers (rev new) = [sym] /\
    sleeps (rev new) = [] /\
    (List.length (history_requests (rev new)) <= 2)%nat.
Proof.
  destruct w as [r i t].
  unfold try_except, index_attempt, index_live_branch, fetch_history, call_method.
  rewrite no_max_drawdown.
  unfold yf_Ticker, ticker_history, ticker_info, datetime_now, minus_days,
    iloc_last, iloc_first, try_except, bind, emit, ask, lift, ret, raise.
  cbn [rng io trace].
  repeat first
    [ progress cbn [rng io trace]
    | close_run t
    | match goal with
      | |- context [ticker_reply E ?k] => destruct (ticker_reply E k)
      | |- context [history_reply E ?k] => destruct (history_reply E k)
      | |- context [info_reply E ?k] => destruct (info_reply E k)
      | |- context [if ?b then _ else _] => destruct b
      | |- context [match rev (closes ?h) with _ => _ end] =>
          destruct (rev (closes h))
      | |- context [match closes ?h with _ => _ end] => destruct (closes h)
      end ].
Qed.

Lemma tickers_app (a b : list event) : tickers (a ++ b) = (tickers a ++ tickers b)%list.
Proof. apply flat_map_app. Qed.

Lemma sleeps_app (a b : list event) : sleeps (a ++ b) = (sleeps a ++ sleeps b)%list.
Proof. apply flat_map_app. Qed.

Lemma history_requests_app (a b : list event) :
  history_requests (a ++ b) = (history_requests a ++ history_requests b)%list.
Proof. apply flat_map_app. Qed.

(** The loop over the candidate symbols falls through: one attempt for each
    symbol, in order. *)
Lemma index_symbols_loop_effect (syms : list string) (topic : string) (years : Z) :
  forall w, exists new w',
    index_symbols_loop E syms topic years w = (Ok None, w') /\
    rng w' = rng w /\
    trace w' = (new ++ trace w)%list /\
    tickers (rev new) = syms /\
    sleeps (rev new) = [] /\
    (List.length (history_requests (rev new)) <= 2 * List.length syms)%nat.
Proof.
  induction syms as [|sym rest IH]; intros w.
  - exists [], w. repeat split; simpl; lia.
  - destruct (index_attempt_effect sym topic years w)
      as (n1 & w1 & Hrun1 & Hrng1 & Htr1 & Htk1 & Hsl1 & Hh1).
    destruct (IH w1) as (n2 & w2 & Hrun2 & Hrng2 & Htr2 & Htk2 & Hsl2 & Hh2).
    exists (n2 ++ n1)%list, w2.
    cbn [index_symbols_loop]. unfold bind at 1. rewrite Hrun1, Hrun2.
    rewrite rev_app_distr, tickers_app, sleeps_app, history_requests_app,
      length_app, Htk1, Htk2, Hsl1, Hsl2, Htr2, Htr1, <- app_assoc.
    repeat split; try reflexivity; try congruence.
    cbn [List.length]. lia.
Qed.

(** [_analyze_index] as a whole: two rounds over the first two candidate
    symbols, one sleep between them, and then the fallback. *)
Lemma analyze_index_run (symbol topic : string) (years : Z) (w : world) :
  exists new w1,
    _analyze_index E symbol topic years w
      = _get_complete_fallback_index_analysis E symbol topic years w1 /\
    rng w1 = S (rng w) /\
    trace w1 = (new ++ trace w)%list /\
    tickers (rev new)
      = (firstn 2 (symbols_to_try symbol) ++ firstn 2 (symbols_to_try symbol))%list /\
    sleeps (rev new)
      = [ Qmin (base_delay * inject_Z (2 ^ 0)
                + (0 + ((5 # 10) - 0) * random_unit E (rng w))) 2 ] /\
    (List.length (history_requests (rev new)) <= 8)%nat.
Proof.
  set (syms := firstn 2 (symbols_to_try symbol)).
  assert (Hlen : (List.length syms <= 2)%nat) by apply firstn_le_length.
  destruct (index_symbols_loop_effect syms topic years w)
    as (n1 & w1 & Hrun1 & Hrng1 & Htr1 & Htk1 & Hsl1 & Hh1).
  set (w2 := mk_world (S (rng w1)) (io w1)
               (EvSleep (Qmin (base_delay * inject_Z (2 ^ 0)
                               + (0 + ((5 # 10) - 0) * random_unit E (rng w1))) 2)
                  :: trace w1)).
  destruct (index_symbols_loop_effect syms topic years w2)
    as (n3 & w3 & Hrun3 & Hrng3 & Htr3 & Htk3 & Hsl3 & Hh3).
  exists (n3 ++ EvSleep (Qmin (base_delay * inject_Z (2 ^ 0)
                              + (0 + ((5 # 10) - 0) * random_unit E (rng w))) 2)
             :: n1)%list, w3.
  split.
  { unfold _analyze_index. unfold bind at 1.
    change (range (Z.to_nat max_retries)) with [0; 1].
    cbn [index_attempts_loop]. fold syms.
    unfold bind at 1. rewrite Hrun1.
    unfold bind at 1. unfold backoff at 1.
    change (0 <? max_retries - 1) with true. cbv iota.
    unfold bind at 1, uniform at 1, time_sleep, emit. cbn [rng io trace].
    fold w2.
    unfold bind at 1. rewrite Hrun3.
    unfold bind at 1. unfold backoff.
    change (1 <? max_retries - 1) with false. cbv iota.
    unfold ret at 1. unfold ret at 1. reflexivity. }
  rewrite Hrng3, Htr3. subst w2. cbn [rng trace]. rewrite Hrng1, Htr1.
  split; [reflexivity|].
  split; [rewrite <- app_assoc; reflexivity|].
  rewrite rev_app_distr. cbn [rev].
  rewrite !tickers_app, !sleeps_app, !history_requests_app, !length_app.
  rewrite Htk1, Htk3, Hsl1, Hsl3.
  cbn [tickers sleeps history_requests flat_map app List.length].
  rewrite !app_nil_r.
  repeat split; try reflexivity.
  lia.
Qed.







(** C1.  [_analyze_index] returns what the fallback returns, whatever the
    network answers: the live branch raises AttributeError at the lookup of
    [_calculate_max_drawdown], an attempt wrapped in the blanket [except]
    therefore never returns an analysis, and the result of the call is that
    of [_get_complete_fallback_index_analysis] after the one draw of the
    backoff. *)
Theorem analyze_index_always_fallback (symbol topic : string) (years : Z) (w : world) :
  (forall sym hist info w0,
      (30 <= List.length hist)%nat ->
      index_live_branch E sym topic years hist info w0
        = (Raise (AttributeError "_calculate_max_drawdown"), w0)) /\
  (forall sym w0, exists w',
      try_except (index_attempt E sym topic years) (fun _ => ret None) w0
        = (Ok None, w')) /\
  exists w1,
    _analyze_index E symbol topic years w
      = _get_complete_fallback_index_analysis E symbol topic years w1 /\
    rng w1 = S (rng w).
Proof.
  split; [|split].
  - intros sym hist info w0 Hlen.
    unfold index_live_branch, call_method. rewrite no_max_drawdown.
    unfold iloc_last, iloc_first, closes, bind.
    destruct hist as [|r0 hist]; [simpl in Hlen; lia|].
    rewrite <- map_rev.
    destruct (rev (r0 :: hist)) as [|r1 l] eqn:Hrev.
    + apply (f_equal (@List.length row)) in Hrev.
      rewrite length_rev in Hrev. discriminate Hrev.
    + reflexivity.
  - intros sym w0.
    destruct (index_attempt_effect sym topic years w0) as (new & w' & H & _).
    exists w'. exact H.
  - destruct (analyze_index_run symbol topic years w) as (new & w1 & H1 & H2 & _).
    exists w1. split; assumption.
Qed.

End IndexFacts.

Lemma analyze_index_always_fallback_witness :
  MarketData.index_live_branch offline "^NSEI" "Nifty 50" 3 (repeat flat_row 30) [] start
    = (Raise (AttributeError "_calculate_max_drawdown"), start) /\
  exists w1,
    MarketData._analyze_index offline "^NSEI" "Nifty 50" 3 start
      = MarketData._get_complete_fallback_index_analysis offline "^NSEI" "Nifty 50" 3 w1.
Proof.
  destruct (analyze_index_always_fallback offline "^NSEI" "Nifty 50" 3 start)
    as [Hlive [_ [w1 [Hrun _]]]].
  split.
  - apply Hlive. simpl. lia.
  - exists w1. exact Hrun.
Defined.

Lemma offline_contract : MarketData.generator_contract offline.
Proof.
  split.
  - intros k. simpl. split; lra.
  - intros k n Hn. simpl. lia.
Qed.

(** ** The claims on the fallback, the retries and the dispatcher *)

Section ServiceClaims.
Import MarketData.
Variable E : env.
Hypothesis contract : generator_contract E.



(** C9.  [get_comprehensive_analysis] returns a value for every topic and
    every number of years, whatever the network and the methods it
    dispatches to do: what the dispatched analysis returns when it returns,
    and otherwise the fallback general analysis, whose primary market is the
    fabricated index analysis. *)
Theorem get_comprehensive_analysis_total (topic : string) (years : Z) (w : world) :
  exists v w',
    get_comprehensive_analysis E topic years w = (Ok v, w') /\
    match dispatch E topic years w with
    | (Ok a, w0) => v = a /\ w' = w0
    | (Raise _, w0) =>
        field "analysis_type" v = Some (VStr "General Market Analysis") /\
        exists pm,
          field "primary_market" v = Some pm /\
          forallb (fun k => match field k pm with Some _ => true | None => false end)
                  required_keys = true
    end.
Proof.
  unfold get_comprehensive_analysis, try_except.
  destruct (dispatch E topic years w) as [[a|e] w0].
  - exists a, w0. repeat split.
  - unfold bind at 1, st_message, emit.
    unfold _get_fallback_general_analysis, bind.
    match goal with
    | |- context [_get_complete_fallback_index_analysis E ?s ?t ?y ?w1] =>
        destruct (fallback_run E contract s t y w1) as (pm & Hfb & Hkeys & _);
        rewrite Hfb
    end.
    unfold today, ask, ret. cbn [rng io trace].
    eexists. eexists. split; [reflexivity|].
    split; [reflexivity|].
    exists pm. split; [reflexivity | exact Hkeys].
Qed.

End ServiceClaims.



Lemma get_comprehensive_analysis_total_witness :
  exists v w',
    MarketData.get_comprehensive_analysis offline "Sensex outlook" 3 start = (Ok v, w').
Proof.
  destruct (get_comprehensive_analysis_total offline offline_contract
              "Sensex outlook" 3 start) as (v & w' & Hrun & _).
  exists v, w'. exact Hrun.
Defined.

(** ** The content generator *)

Section ContentFacts.
Import PyStr MarketData Content.
Variable E : env.
Hypothesis contract : generator_contract E.

Lemma dict_get_outside (k : string) (d : dict) :
  existsb (String.eqb k) (dict_keys d) = false -> dict_get k d = None.
Proof.
  induction d as [|[k' v] d IH]; simpl; [reflexivity|].
  destruct (String.eqb k k'); [discriminate | exact IH].
Qed.

Lemma global_loop_returns (indices : list string) (years : Z) :
  forall gp w, exists gp' w', global_loop E indices years gp w = (Ok gp', w').
Proof.
  induction indices as [|idx rest IH]; intros gp w.
  - exists gp, w. reflexivity.
  - cbn [global_loop]. unfold bind at 1, try_except at 1.
    destruct (global_attempt E idx years w) as [[[q|]|e] w1]; cbv [ret];
      apply IH.
Qed.

(** The general analysis returns a dictionary with the twelve general keys,
    on its live and on its fallback path. *)
Lemma general_market_shape (topic : string) (years : Z) (w : world) :
  exists d w',
    _analyze_general_market E topic years w = (Ok (VDict d), w') /\
    dict_keys d = general_keys.
Proof.
  unfold _analyze_general_market, try_except.
  unfold bind at 1.
  destruct (analyze_index_run E "^NSEI" "Nifty 50" years w)
    as (new & w1 & Hrun & _).
  destruct (fallback_run E contract "^NSEI" "Nifty 50" years w1) as (v & Hfb & _).
  rewrite Hrun, Hfb.
  unfold bind at 1.
  match goal with
  | |- context [global_loop E ?l ?y ?gp ?w0] =>
      destruct (global_loop_returns l y gp w0) as (gp' & w2 & Hloop); rewrite Hloop
  end.
  unfold bind, today, ask, ret.
  eexists. eexists. split; reflexivity.
Qed.

(** What the content generator gets from the market service: a dictionary
    without the top-level keys that would add a bullet. *)
Lemma fetch_market_data_plain (topic : string) (include_real_data : bool) (w : world) :
  exists d w',
    fetch_market_data E topic include_real_data w = (Ok d, w') /\
    dict_get "current_price" d = None /\
    dict_get "total_return" d = None.
Proof.
  unfold fetch_market_data.
  destruct include_real_data; [|exists [], w; repeat split].
  unfold _extract_symbols_from_topic.
  destruct (find _ common_symbols) as [symbol|] eqn:Hfind;
    [|exists [], w; repeat split].
  apply find_some in Hfind. destruct Hfind as [Hin _].
  assert (Hcase :
    dispatch E symbol 3 = _analyze_general_market E symbol 3 \/
    dispatch E symbol 3 = _analyze_index E "^BSESN" symbol 3).
  { simpl in Hin.
    destruct Hin as [<-|[<-|[<-|[<-|[<-|[<-|[]]]]]]];
      ((left; reflexivity) || (right; reflexivity)). }
  unfold bind at 1, get_comprehensive_analysis, try_except.
  destruct Hcase as [-> | ->].
  - destruct (general_market_shape symbol 3 w) as (d & w' & Hrun & Hkeys).
    rewrite Hrun. exists d, w'.
    split; [reflexivity|].
    split; apply dict_get_outside; rewrite Hkeys; reflexivity.
  - destruct (analyze_index_run E "^BSESN" symbol 3 w) as (new & w1 & Hrun & _).
    destruct (fallback_run E contract "^BSESN" symbol 3 w1)
      as (v & Hfb & _ & _ & _ & _ & _ & d & -> & Hkeys).
    rewrite Hrun, Hfb. eexists d, _.
    split; [reflexivity|].
    split; apply dict_get_outside; rewrite Hkeys; reflexivity.
Qed.

Lemma search_returns (topic : string) (n : Z) (w : world) :
  exists hits w', SerpAPI.search_financial_topic E topic n w = (Ok hits, w').
Proof.
  unfold SerpAPI.search_financial_topic, try_except, bind, emit, ask, lift,
    st_message, emit, ret.
  cbn [rng io trace].
  destruct (serp_reply E (io w)) as [data|e]; [|eexists; eexists; reflexivity].
  destruct (organic_results data); eexists; eexists; reflexivity.
Qed.

Lemma images_return (query : string) (n : Z) (w : world) :
  exists urls w', SerpAPI.search_images E query n w = (Ok urls, w').
Proof.
  unfold SerpAPI.search_images, try_except, bind, emit, ask, lift,
    st_message, emit, ret.
  cbn [rng io trace].
  destruct (serp_reply E (io w)) as [data|e]; [|eexists; eexists; reflexivity].
  destruct (images_results data); eexists; eexists; reflexivity.
Qed.

Lemma pad_loop_length (n : nat) (title : string) :
  forall bullets,
    List.length (pad_loop n title bullets) = (List.length bullets + n)%nat.
Proof.
  induction n as [|n IH]; intros bullets; simpl; [lia|].
  rewrite IH, length_app. simpl. lia.
Qed.

Lemma slice_to_length {A} (n : Z) (l : list A) :
  0 <= n ->
  Z.of_nat (List.length (slice_to n l)) = Z.min n (Z.of_nat (List.length l)).
Proof.
  intros Hn. unfold slice_to.
  destruct (0 <=? n) eqn:H0; [|apply Z.leb_gt in H0; lia].
  rewrite length_firstn. lia.
Qed.

(** lines 90-92: after the padding and the cut there are 4 to 6 bullets *)
Lemma padded_bullets (title : string) (bullets : list string) :
  (4 <= List.length (slice_to 6 (pad_loop (4 - List.length bullets) title bullets))
   <= 6)%nat.
Proof.
  pose proof (slice_to_length 6
                (pad_loop (4 - List.length bullets) title bullets)) as H.
  rewrite pad_loop_length in *. lia.
Qed.

Lemma enhance_plain (content : list string) (title : string) (market_data : dict) :
  dict_get "current_price" market_data = None ->
  dict_get "total_return" market_data = None ->
  _enhance_slide_with_real_data E content title market_data = content.
Proof.
  intros H1 H2. unfold _enhance_slide_with_real_data. rewrite H1, H2.
  destruct (_ || _); [reflexivity|].
  destruct (contains "growth" _); reflexivity.
Qed.

Lemma make_slide_effect (topic : string) (include_real_data : bool)
      (market_data : dict) (i : nat) (title : string) (w : world) :
  dict_get "current_price" market_data = None ->
  dict_get "total_return" market_data = None ->
  exists slide w',
    make_slide E topic include_real_data market_data i title w = (Ok slide, w') /\
    field "slide_number" slide = Some (VInt (Z.of_nat (S i))) /\
    content_between 4 6 slide.
Proof.
  intros H1 H2. unfold make_slide.
  unfold bind at 1.
  destruct (search_returns (topic ++ " " ++ title) 5 w) as (hits & w1 & Hs).
  rewrite Hs.
  unfold bind at 1.
  match goal with
  | |- context [SerpAPI.search_images E ?q ?n ?w0] =>
      destruct (images_return q n w0) as (urls & w2 & Hi); rewrite Hi
  end.
  unfold ret. eexists. eexists. split; [reflexivity|].
  split.
  - cbn [field dict_get String.eqb Ascii.eqb Bool.eqb]. do 2 f_equal. lia.
  - eexists. split; [reflexivity|].
    unfold str_list. rewrite length_map, (enhance_plain _ _ _ H1 H2).
    destruct (include_real_data && _); apply padded_bullets.
Qed.

Lemma slides_loop_effect (topic : string) (include_real_data : bool)
      (market_data : dict) (titles : list string) :
  dict_get "current_price" market_data = None ->
  dict_get "total_return" market_data = None ->
  forall i w, exists slides w',
    slides_loop E topic include_real_data market_data i titles w = (Ok slides, w') /\
    List.length slides = List.length titles /\
    Forall (content_between 4 6) slides /\
    map (field "slide_number") slides
      = map (fun j => Some (VInt (Z.of_nat j))) (seq (S i) (List.length titles)).
Proof.
  intros H1 H2. induction titles as [|title rest IH]; intros i w.
  - exists [], w. repeat split. constructor.
  - destruct (make_slide_effect topic include_real_data market_data i title w H1 H2)
      as (slide & w1 & Hm & Hnum & Hc).
    destruct (IH (S i) w1) as (slides & w2 & Hl & Hlen & Hall & Hnums).
    exists (slide :: slides), w2.
    cbn [slides_loop]. unfold bind at 1. rewrite Hm.
    unfold bind at 1. rewrite Hl. unfold ret.
    split; [reflexivity|].
    split; [simpl; lia|].
    split; [constructor; assumption|].
    cbn [map List.length seq]. rewrite Hnum, Hnums. reflexivity.
Qed.

Lemma template_has_nine (presentation_type : string) :
  List.length (template_slides presentation_type) = 9%nat.
Proof.
  unfold template_slides, financial_templates. cbn [assoc_get].
  repeat match goal with
         | |- context [String.eqb ?a ?b] => destruct (String.eqb a b)
         end; reflexivity.
Qed.

Lemma fallback_content_slides (topic presentation_type target_audience : string)
      (slide_count : Z) :
  let titles := slice_to slide_count (template_slides presentation_type) in
  let content := _get_fallback_content topic presentation_type target_audience
                                       slide_count in
  List.length (slides_of content) = List.length titles /\
  Forall (content_between 3 3) (slides_of content) /\
  slide_numbers content
    = map (fun j => Some (VInt (Z.of_nat j))) (seq 1 (List.length titles)).
Proof.
  intros titles content. subst content.
  unfold slide_numbers, slides_of, _get_fallback_content.
  cbn [dict_get String.eqb Ascii.eqb Bool.eqb]. fold titles.
  set (three := 3%nat).
  generalize 1%nat. induction titles as [|title rest IH]; intros i.
  - repeat split. constructor.
  - destruct (IH (S i)) as (Hlen & Hall & Hnum).
    cbn [List.length seq combine map]. rewrite Hlen, Hnum.
    split; [reflexivity|]. split; [|reflexivity].
    constructor; [|exact Hall].
    eexists. split; [reflexivity|]. subst three. simpl. lia.
Qed.

(** The run of [generate_presentation_content] on either path. *)
Lemma generate_run (topic presentation_type target_audience : string)
      (slide_count : Z) (include_real_data : bool) (content_provider : string)
      (w : world) :
  let titles := slice_to slide_count (template_slides presentation_type) in
  exists content w',
    generate_presentation_content E topic presentation_type target_audience
      slide_count include_real_data content_provider w = (Ok content, w') /\
    List.length (slides_of content) = List.length titles /\
    slide_numbers content
      = map (fun j => Some (VInt (Z.of_nat j))) (seq 1 (List.length titles)) /\
    (if String.eqb content_provider "SerpAPI"
     then Forall (content_between 4 6) (slides_of content)
     else Forall (content_between 3 3) (slides_of content)).
Proof.
  intros titles. unfold generate_presentation_content.
  destruct (String.eqb content_provider "SerpAPI"); cbn [negb].
  - unfold bind at 1.
    destruct (search_returns topic 15 w) as (hits & w1 & Hs). rewrite Hs.
    unfold bind at 1.
    destruct (fetch_market_data_plain topic include_real_data w1)
      as (md & w2 & Hmd & Hp & Hr).
    rewrite Hmd. unfold bind at 1. fold titles.
    destruct (slides_loop_effect topic include_real_data md titles Hp Hr 0%nat w2)
      as (slides & w3 & Hl & Hlen & Hall & Hnums).
    rewrite Hl. unfold ret. eexists. eexists. split; [reflexivity|].
    unfold slide_numbers, slides_of. cbn [dict_get String.eqb Ascii.eqb Bool.eqb].
    repeat split; assumption.
  - destruct (fallback_content_slides topic presentation_type target_audience
                slide_count) as (Hlen & Hall & Hnum).
    unfold ret. eexists. eexists. split; [reflexivity|].
    repeat split; assumption.
Qed.

(** C6, as the code has it.  For a slide count [n] that is not negative the
    presentation has exactly min(n, L) slides, L the length of the selected
    template, which is 9 for every template, and the slides are numbered
    1, 2, ... in order. *)
Theorem slide_count_is_min (topic presentation_type target_audience : string)
        (slide_count : Z) (include_real_data : bool) (content_provider : string)
        (w : world) :
  0 <= slide_count ->
  exists content w',
    generate_presentation_content E topic presentation_type target_audience
      slide_count include_real_data content_provider w = (Ok content, w') /\
    Z.of_nat (List.length (slides_of content))
      = Z.min slide_count (Z.of_nat (List.length (template_slides presentation_type))) /\
    List.length (template_slides presentation_type) = 9%nat /\
    slide_numbers content
      = map (fun j => Some (VInt (Z.of_nat j)))
            (seq 1 (List.length (slides_of content))).
Proof.
  intros Hn.
  destruct (generate_run topic presentation_type target_audience slide_count
              include_real_data content_provider w)
    as (content & w' & Hrun & Hlen & Hnum & _).
  exists content, w'. split; [exact Hrun|].
  split; [rewrite Hlen; apply slice_to_length, Hn|].
  split; [apply template_has_nine|].
  rewrite Hlen. exact Hnum.
Qed.

(** C2, as the code has it.  With the SerpAPI provider every slide has 4 to
    6 bullets, also when real market data is asked for, since no analysis
    the market service hands over has the keys that would add a bullet; with
    any other provider the fallback content gives every slide exactly 3. *)
Theorem slide_bullets_bounded (topic presentation_type target_audience : string)
        (slide_count : Z) (include_real_data : bool) (content_provider : string)
        (w : world) :
  exists content w',
    generate_presentation_content E topic presentation_type target_audience
      slide_count include_real_data content_provider w = (Ok content, w') /\
    (if String.eqb content_provider "SerpAPI"
     then Forall (content_between 4 6) (slides_of content)
     else Forall (content_between 3 3) (slides_of content)).
Proof.
  destruct (generate_run topic presentation_type target_audience slide_count
              include_real_data content_provider w)
    as (content & w' & Hrun & _ & _ & Hall).
  exists content, w'. split; assumption.
Qed.

End ContentFacts.

Lemma slide_count_is_min_witness :
  exists content w',
    Content.generate_presentation_content offline "Sensex growth"
      "budget_planning" "Board" 12 true "SerpAPI" start = (Ok content, w') /\
    List.length (Content.slides_of content) = 9%nat.
Proof.
  destruct (slide_count_is_min offline offline_contract "Sensex growth"
              "budget_planning" "Board" 12 true "SerpAPI" start)
    as (content & w' & Hrun & Hlen & Hnine & _).
  - lia.
  - exists content, w'. split; [exact Hrun|]. rewrite Hnine in Hlen. lia.
Defined.

Lemma slide_bullets_bounded_witness :
  exists content w',
    Content.generate_presentation_content offline "Sensex growth"
      "quarterly_analysis" "Board" 9 true "SerpAPI" start = (Ok content, w') /\
    Forall (Content.content_between 4 6) (Content.slides_of content).
Proof.
  destruct (slide_bullets_bounded offline offline_contract "Sensex growth"
              "quarterly_analysis" "Board" 9 true "SerpAPI" start)
    as (content & w' & Hrun & Hall).
  exists content, w'. split; [exact Hrun | exact Hall].
Defined.

(** C6, counterexample: a slide count of -1 gives the template without its
    last title, 8 slides, on both paths. *)
Lemma slide_count_negative :
  List.length (Content.slides_of
                 (Content._get_fallback_content "Budget" "budget_planning" "Board" (-1)))
    = 8%nat /\
  (exists content w',
      Content.generate_presentation_content offline "Budget" "budget_planning"
        "Board" (-1) false "SerpAPI" start = (Ok content, w') /\
      List.length (Content.slides_of content) = 8%nat) /\
  Z.of_nat 8 <> Z.min (-1) 9.
Proof.
  split; [vm_compute; reflexivity|].
  split; [|vm_compute; discriminate].
  eexists. eexists. split; vm_compute; reflexivity.
Qed.

(** C2, counterexample: on the fallback content path (any provider but
    SerpAPI) a slide has 3 bullets. *)
Lemma fallback_slide_has_three :
  exists content w' slide,
    Content.generate_presentation_content offline "Budget" "budget_planning"
      "Board" 5 false "Gemini" start = (Ok content, w') /\
    In slide (Content.slides_of content) /\
    ~ Content.content_between 4 6 slide.
Proof.
  eexists. eexists. eexists.
  split; [vm_compute; reflexivity|].
  split; [left; reflexivity|].
  intros (bullets & Hf & Hlen).
  vm_compute in Hf. injection Hf as <-. simpl in Hlen. lia.
Qed.

(** ** The deck *)

Section DeckFacts.
Import PyStr MarketData PPT.
Variable E : env.

Lemma getitem_present (k : string) (d : dict) :
  dict_has k d = true -> exists v, getitem k d = ret v.
Proof.
  unfold dict_has, getitem. destruct (dict_get k d) as [v|]; [|discriminate].
  intros _. exists v. reflexivity.
Qed.

Lemma returns_ret {A} (a : A) (P : A -> Prop) : P a -> returns (ret a) P.
Proof. intros H w. exists a, w. split; [reflexivity | exact H]. Qed.

Lemma returns_bind {A B} (m : M A) (k : A -> M B) (P : A -> Prop) (Q : B -> Prop) :
  returns m P -> (forall a, P a -> returns (k a) Q) -> returns (bind m k) Q.
Proof.
  intros Hm Hk w. destruct (Hm w) as (a & w1 & Ha & HP).
  destruct (Hk a HP w1) as (b & w2 & Hb & HQ).
  exists b, w2. unfold bind. rewrite Ha. split; assumption.
Qed.

Section WithColours.
Variable colors : dict.
Hypothesis colours : has_colours colors = true.

Lemma colour_facts :
  (exists v, getitem "background_color" colors = ret v) /\
  (exists v, getitem "primary_color" colors = ret v) /\
  (exists v, getitem "secondary_color" colors = ret v) /\
  (exists v, getitem "text_color" colors = ret v) /\
  dict_has "colorful_modern" colors = false.
Proof.
  unfold has_colours in colours.
  repeat (apply andb_prop in colours; destruct colours as [colours ?]).
  repeat split; try (apply getitem_present; assumption).
  now apply negb_true_iff.
Qed.

Lemma title_slide_run (content : dict) (w : world) :
  text_or_missing (dict_get "presentation_title" content) = true ->
  exists ps w',
    _create_title_slide E content colors w = (Ok ps, w') /\
    built_by ps = TitleSlide.
Proof.
  intros Ht.
  destruct colour_facts as ((bg & Hbg) & (pc & Hpc) & (sc & Hsc) & _ & Hno).
  unfold _create_title_slide, get_text. rewrite Hno, Hbg, Hpc, Hsc.
  destruct (dict_get "presentation_title" content) as [[]|];
    try discriminate Ht; eexists; eexists; split; reflexivity.
Qed.

Lemma agenda_loop_run (slides_data : list value) :
  forallb slide_ok slides_data = true ->
  forall i paragraphs w,
    agenda_loop E colors i slides_data paragraphs w
      = (Ok (match slides_data with
             | [] => paragraphs
             | _ => ((if (i =? 0)%nat then [] else paragraphs)
                       ++ agenda_items E i slides_data)%list
             end), w).
Proof.
  destruct colour_facts as (_ & _ & _ & (tc & Htc) & _).
  induction slides_data as [|slide_data rest IH]; intros Hok i paragraphs w.
  - reflexivity.
  - cbn [forallb] in Hok. apply andb_prop in Hok. destruct Hok as [Hs Hrest].
    destruct slide_data as [| | | | | |d| |]; try discriminate Hs.
    cbn [agenda_loop as_dict]. rewrite Htc.
    change (agenda_loop E colors (S i) rest
              (if (i =? 0)%nat then [agenda_line E i d]
               else (paragraphs ++ [agenda_line E i d])%list) w
            = (Ok ((if (i =? 0)%nat then [] else paragraphs)
                     ++ agenda_items E i (VDict d :: rest))%list, w)).
    rewrite (IH Hrest). cbn [agenda_items Nat.eqb].
    destruct rest as [|r rest'].
    + destruct (i =? 0)%nat; reflexivity.
    + destruct (i =? 0)%nat; [reflexivity|].
      rewrite <- app_assoc. reflexivity.
Qed.

Lemma agenda_items_length (slides_data : list value) :
  forall i, List.length (agenda_items E i slides_data) = List.length slides_data.
Proof.
  induction slides_data as [|s rest IH]; intros i; simpl; [reflexivity|].
  now rewrite IH.
Qed.

Lemma forallb_firstn {A} (f : A -> bool) (n : nat) (l : list A) :
  forallb f l = true -> forallb f (firstn n l) = true.
Proof.
  revert n. induction l as [|a l IH]; intros [|n] H; try reflexivity.
  simpl in *. apply andb_prop in H. destruct H as [-> H]. simpl. now apply IH.
Qed.

Lemma colour_returns (k : string) :
  dict_has k colors = true -> returns (getitem k colors) (fun _ => True).
Proof.
  intros H w. destruct (getitem_present k colors H) as (v & ->).
  exists v, w. split; [reflexivity | exact I].
Qed.

Lemma background_returns : returns (getitem "background_color" colors) (fun _ => True).
Proof.
  apply colour_returns. unfold has_colours in colours.
  repeat (apply andb_prop in colours; destruct colours as [colours ?]). assumption.
Qed.

Lemma primary_returns : returns (getitem "primary_color" colors) (fun _ => True).
Proof.
  apply colour_returns. unfold has_colours in colours.
  repeat (apply andb_prop in colours; destruct colours as [colours ?]). assumption.
Qed.

Lemma text_colour_returns : returns (getitem "text_color" colors) (fun _ => True).
Proof.
  apply colour_returns. unfold has_colours in colours.
  repeat (apply andb_prop in colours; destruct colours as [colours ?]). assumption.
Qed.

Lemma format_title_returns : returns (_format_slide_title colors) (fun _ => True).
Proof.
  unfold _format_slide_title. eapply returns_bind; [apply primary_returns|].
  intros _ _. now apply returns_ret.
Qed.

Lemma get_text_returns (k default : string) (d : dict) :
  text_or_missing (dict_get k d) = true ->
  returns (get_text k default d) (fun _ => True).
Proof.
  unfold get_text. destruct (dict_get k d) as [[]|]; intros H;
    try discriminate H; now apply returns_ret.
Qed.

Lemma get_items_returns (k : string) (d : dict) (ok : value -> bool) :
  match dict_get k d with
  | None => true
  | Some (VList l) => forallb ok l
  | Some _ => false
  end = true ->
  returns (get_items k d)
          (fun l => forallb ok l = true /\
                    l = match dict_get k d with Some (VList l0) => l0 | _ => [] end).
Proof.
  unfold get_items. destruct (dict_get k d) as [[]|]; intros H;
    try discriminate H; apply returns_ret; split; auto.
Qed.

Lemma agenda_slide_returns (content : dict) :
  content_ok content = true ->
  returns (_create_agenda_slide E content colors)
    (fun ps =>
       built_by ps = AgendaSlide /\
       paragraphs ps = match firstn 8 (Content.slides_of content) with
                       | [] => [ EmptyString ]
                       | l => agenda_items E 0 l
                       end).
Proof.
  intros Hok. unfold content_ok in Hok.
  apply andb_prop in Hok. destruct Hok as [Hok Hslides].
  apply andb_prop in Hok. destruct Hok as [_ Hsum].
  unfold _create_agenda_slide.
  eapply returns_bind; [apply background_returns|]. intros _ _.
  eapply returns_bind; [apply format_title_returns|]. intros _ _.
  eapply returns_bind; [apply (get_items_returns _ _ slide_ok), Hslides|].
  intros slides_data [Hall Heq].
  change (slice_to 8 slides_data) with (firstn 8 slides_data).
  eapply returns_bind
    with (P := fun ps => ps = match firstn 8 slides_data with
                              | [] => [ EmptyString ]
                              | _ => agenda_items E 0 (firstn 8 slides_data)
                              end).
  { intros w. eexists. eexists.
    split; [apply agenda_loop_run, forallb_firstn, Hall | reflexivity]. }
  intros ps ->.
  eapply returns_bind with (P := fun _ => True).
  { destruct (dict_get "executive_summary" content) as [[]|];
      try discriminate Hsum; try now apply returns_ret.
    destruct (Content.truthy _); [|now apply returns_ret].
    eapply returns_bind; [apply primary_returns|]. intros _ _.
    eapply returns_bind with (P := fun _ => True); [now apply returns_ret|].
    intros text _.
    eapply returns_bind; [apply text_colour_returns|]. intros _ _.
    now apply returns_ret. }
  intros boxes _. apply returns_ret. split; [reflexivity|].
  cbn [paragraphs]. unfold Content.slides_of. rewrite <- Heq.
  destruct (firstn 8 slides_data); reflexivity.
Qed.

Lemma add_image_returns (vs : dict) :
  returns (_add_image_to_slide E vs) (fun _ => True).
Proof.
  intros w. unfold _add_image_to_slide.
  destruct (dict_get "image_url" vs) as [v|]; [|eexists; eexists; split; [reflexivity|exact I]].
  destruct (Content.truthy v); [|eexists; eexists; split; [reflexivity|exact I]].
  unfold try_except, bind, as_text, emit, ask, lift, ret, raise.
  destruct v; try (eexists; eexists; split; [reflexivity|exact I]).
  cbn [rng io trace].
  destruct (download_reply E (io w)); eexists; eexists; split; try reflexivity; exact I.
Qed.

Lemma paragraphs_return (f : dict -> value -> M string) (l : list value) :
  (forall s, returns (f colors (VStr s)) (fun _ => True)) ->
  forallb (fun v => match v with VStr _ => true | _ => false end) l = true ->
  returns (for_each (f colors) l) (fun _ => True).
Proof.
  intros Hf. induction l as [|v rest IH]; intros Hl.
  - now apply returns_ret.
  - cbn [forallb] in Hl. apply andb_prop in Hl. destruct Hl as [Hv Hrest].
    destruct v; try discriminate Hv. cbn [for_each].
    eapply returns_bind; [apply Hf|]. intros t _.
    eapply returns_bind; [apply IH, Hrest|]. intros ts _.
    now apply returns_ret.
Qed.

Lemma content_slide_returns (slide_data : value) :
  slide_ok slide_data = true ->
  returns (_create_content_slide E slide_data colors)
          (fun ps => built_by ps = ContentSlide).
Proof.
  intros Hok.
  destruct slide_data as [| | | | | |d| |]; try discriminate Hok.
  cbn [slide_ok] in Hok.
  apply andb_prop in Hok. destruct Hok as [Hok Hvis].
  apply andb_prop in Hok. destruct Hok as [Hok Hpoints].
  apply andb_prop in Hok. destruct Hok as [Htitle Hitems].
  unfold _create_content_slide.
  eapply returns_bind; [apply background_returns|]. intros _ _.
  eapply returns_bind with (P := fun d0 => d0 = d); [now apply returns_ret|].
  intros d0 ->.
  eapply returns_bind; [apply get_text_returns, Htitle|]. intros title _.
  eapply returns_bind; [apply format_title_returns|]. intros _ _.
  eapply returns_bind;
    [apply (get_items_returns _ _
              (fun v => match v with VStr _ => true | _ => false end)), Hitems|].
  intros content_items [Hci _].
  eapply returns_bind.
  { apply (paragraphs_return item_paragraph); [|exact Hci].
    intros s. unfold item_paragraph.
    eapply returns_bind with (P := fun _ => True); [now apply returns_ret|].
    intros t _.
    eapply returns_bind; [apply text_colour_returns|]. intros _ _.
    now apply returns_ret. }
  intros items _.
  eapply returns_bind;
    [apply (get_items_returns _ _
              (fun v => match v with VStr _ => true | _ => false end)), Hpoints|].
  intros data_points [Hdp _].
  eapply returns_bind.
  { apply (paragraphs_return data_point_paragraph); [|exact Hdp].
    intros s. unfold data_point_paragraph.
    eapply returns_bind with (P := fun _ => True); [now apply returns_ret|].
    intros t _.
    eapply returns_bind; [apply text_colour_returns|]. intros _ _.
    now apply returns_ret. }
  intros points _.
  eapply returns_bind with (P := fun _ => True).
  { destruct (dict_get "visual_suggestion" d) as [[| | | | | |vs| |]|];
      try discriminate Hvis; try now apply returns_ret.
    destruct (Content.truthy (VDict vs)); [|now apply returns_ret].
    eapply returns_bind with (P := fun vs0 => vs0 = vs); [now apply returns_ret|].
    intros vs0 ->.
    destruct (dict_get "image_url" vs) as [url|]; [|now apply returns_ret].
    destruct (Content.truthy url); [|now apply returns_ret].
    apply add_image_returns. }
  intros has_picture _. now apply returns_ret.
Qed.

Lemma for_each_slides (l : list value) :
  forallb slide_ok l = true ->
  returns (for_each (fun slide_data => _create_content_slide E slide_data colors) l)
          (fun deck => map built_by deck = repeat ContentSlide (List.length l)).
Proof.
  induction l as [|sd rest IH]; intros Hl.
  - now apply returns_ret.
  - cbn [forallb] in Hl. apply andb_prop in Hl. destruct Hl as [Hsd Hrest].
    cbn [for_each].
    eapply returns_bind; [apply content_slide_returns, Hsd|]. intros ps Hps.
    eapply returns_bind; [apply IH, Hrest|]. intros deck Hdeck.
    apply returns_ret. simpl. now rewrite Hps, Hdeck.
Qed.

(** The deck for a template with the eight colours and a well-formed
    content: a title slide, the agenda, one slide for each entry. *)
Lemma build_deck_returns (content : dict) :
  content_ok content = true ->
  returns (build_deck E content colors)
    (fun deck =>
       map built_by deck
         = TitleSlide :: AgendaSlide
             :: repeat ContentSlide (List.length (Content.slides_of content)) /\
       exists agenda,
         nth_error deck 1 = Some agenda /\
         paragraphs agenda = match firstn 8 (Content.slides_of content) with
                             | [] => [ EmptyString ]
                             | l => agenda_items E 0 l
                             end).
Proof.
  intros Hok. pose proof Hok as Hok'. unfold content_ok in Hok'.
  apply andb_prop in Hok'. destruct Hok' as [Hok' Hslides].
  apply andb_prop in Hok'. destruct Hok' as [Htitle _].
  unfold build_deck.
  eapply returns_bind.
  { intros w. destruct (title_slide_run content w Htitle) as (ps & w' & H1 & H2).
    exists ps, w'. split; [exact H1 | exact H2]. }
  intros title_slide Ht.
  eapply returns_bind; [apply agenda_slide_returns, Hok|].
  intros agenda_slide [Ha Hp].
  eapply returns_bind; [apply (get_items_returns _ _ slide_ok), Hslides|].
  intros slides_data [Hall Heq].
  eapply returns_bind; [apply for_each_slides, Hall|].
  intros content_slides Hc.
  apply returns_ret. split.
  - cbn [map]. rewrite Ht, Ha, Hc. unfold Content.slides_of. rewrite <- Heq.
    reflexivity.
  - exists agenda_slide. split; [reflexivity | exact Hp].
Qed.

End WithColours.

Lemma repeat_not_in {A} (a b : A) (n : nat) : a <> b -> ~ In a (repeat b n).
Proof. intros Hab Hin. apply repeat_spec in Hin. contradiction. Qed.

(** C10, as the code has it.  For a well-formed content dictionary and one of
    the five templates with the eight colours, [create_presentation] builds
    2 + len(content['slides']) slides: the title slide, the agenda with a line
    for each of the first 8 entries at most, and one content slide for each
    entry; no slide is built by the summary or the appendix builder. *)
Theorem create_presentation_deck (content : dict) (template : string) (w : world) :
  In template eight_colour_templates ->
  content_ok content = true ->
  exists deck w',
    create_presentation E content template w = (Ok deck, w') /\
    List.length deck = (2 + List.length (Content.slides_of content))%nat /\
    map built_by deck
      = TitleSlide :: AgendaSlide
          :: repeat ContentSlide (List.length (Content.slides_of content)) /\
    ~ In SummarySlide (map built_by deck) /\
    ~ In AppendixSlide (map built_by deck) /\
    exists agenda,
      nth_error deck 1 = Some agenda /\
      paragraphs agenda = match firstn 8 (Content.slides_of content) with
                          | [] => [ EmptyString ]
                          | l => agenda_items E 0 l
                          end /\
      (List.length (paragraphs agenda) <= 8)%nat.
Proof.
  intros Hin Hok.
  assert (Hcol : exists colors,
             assoc_get template templates = Some colors /\
             has_colours colors = true).
  { simpl in Hin.
    destruct Hin as [<-|[<-|[<-|[<-|[<-|[]]]]]];
      eexists; split; reflexivity. }
  destruct Hcol as (colors & Hget & Hcolours).
  destruct (build_deck_returns colors Hcolours content Hok w)
    as (deck & w' & Hrun & Hmap & agenda & Hnth & Hpar).
  exists deck, w'.
  split.
  { unfold create_presentation. rewrite Hget. exact Hrun. }
  split.
  { rewrite <- (length_map built_by), Hmap. simpl. now rewrite repeat_length. }
  split; [exact Hmap|].
  split.
  { rewrite Hmap. intros [H|[H|H]]; try discriminate H.
    revert H. apply repeat_not_in. discriminate. }
  split.
  { rewrite Hmap. intros [H|[H|H]]; try discriminate H.
    revert H. apply repeat_not_in. discriminate. }
  exists agenda. split; [exact Hnth|]. split; [exact Hpar|].
  rewrite Hpar.
  pose proof (firstn_le_length 8 (Content.slides_of content)) as Hle.
  destruct (firstn 8 (Content.slides_of content)) as [|v l] eqn:Hf.
  - simpl. lia.
  - rewrite agenda_items_length. exact Hle.
Qed.

End DeckFacts.

Lemma create_presentation_deck_witness :
  exists deck w',
    PPT.create_presentation offline sample_content "corporate_blue" start
      = (Ok deck, w') /\
    List.length deck = 5%nat.
Proof.
  destruct (create_presentation_deck offline sample_content "corporate_blue" start)
    as (deck & w' & Hrun & Hlen & _).
  - simpl. tauto.
  - reflexivity.
  - exists deck, w'. split; [exact Hrun | exact Hlen].
Defined.

(** C10, counterexample: a name that is not a template is a KeyError, and
    there is no deck. *)
Lemma create_presentation_unknown_template :
  PPT.create_presentation offline sample_content "neon" start
    = (Raise (KeyError "neon"), start) /\
  ~ exists deck w',
      PPT.create_presentation offline sample_content "neon" start = (Ok deck, w').
Proof.
  split; [reflexivity|].
  intros (deck & w' & H). vm_compute in H. discriminate H.
Qed.

(** The template "colorful_modern" has no key "colorful_modern" among its
    colours, so the title slide takes the branch of the original design and
    stops at the colour it lacks. *)
Lemma colorful_modern_title_key_error :
  PPT.create_presentation offline sample_content "colorful_modern" start
    = (Raise (KeyError "primary_color"), start).
Proof. reflexivity. Qed.

(* ================================================================== *)
(** * Part III.  Further properties of the code *)
(* ================================================================== *)

(** ** The classifier, once more *)

Section ClassifierFacts.
Import PyStr Topic MarketData.

Lemma commodity_hit_index_hit (topic_lower : string) (item : string * string) :
  commodity_hit topic_lower item = true -> index_hit topic_lower item = true.
Proof.
  unfold commodity_hit, index_hit. intros H.
  apply andb_prop in H. destruct H as [_ H]. now rewrite H.
Qed.

Lemma find_none_weaker {A} (f g : A -> bool) (l : list A) :
  (forall a, g a = true -> f a = true) -> find f l = None -> find g l = None.
Proof.
  intros Hfg. induction l as [|a l IH]; simpl; [reflexivity|].
  destruct (f a) eqn:Hf; [discriminate|]. intros H.
  destruct (g a) eqn:Hg; [rewrite (Hfg a Hg) in Hf; discriminate|].
  now apply IH.
Qed.

(** The five commodity keys are keys of [market_symbols] too, and the loop
    over the indices tests every key with a test the commodity loop repeats:
    a topic that would be a commodity has been returned as an index already.
    The classifier never answers "commodity". *)
Theorem parse_topic_never_commodity (topic : string) :
  type_of (_parse_topic topic) <> Some (VStr "commodity").
Proof.
  unfold type_of, _parse_topic.
  destruct (negb _); [simpl; discriminate|].
  destruct (find (index_hit _) market_symbols) as [[key symbol]|] eqn:Hi;
    [simpl; discriminate|].
  rewrite (find_none_weaker _ (commodity_hit (lower topic)) _
             (commodity_hit_index_hit _) Hi).
  destruct (find (sector_hit _) sector_keywords) as [[]|]; [simpl; discriminate|].
  destruct (if any_in stock_indicators _ then _ else _) as [[]|];
    [simpl; discriminate|].
  destruct (any_in commodity_keywords _);
    destruct (find (sector_hit _) sector_themes) as [[]|]; simpl; discriminate.
Qed.






Section Dispatch.
Variable E : env.


End Dispatch.
End ClassifierFacts.



(** ** The search service *)

Section SearchFacts.
Import PyStr SerpAPI.

Lemma startswith_app (p s : string) : startswith p (p ++ s) = true.
Proof.
  induction p as [|c p IH]; simpl; [reflexivity|].
  now rewrite Ascii.eqb_refl, IH.
Qed.

Lemma marked_bullet (sentence : string) :
  marked (if startswith bullet_mark sentence then sentence
          else bullet_mark ++ " " ++ sentence).
Proof.
  unfold marked. destruct (startswith bullet_mark sentence) eqn:H;
    [exact H | apply startswith_app].
Qed.

Lemma Forall_snoc {A} (P : A -> Prop) (l : list A) (a : A) :
  Forall P l -> P a -> Forall P (l ++ [a])%list.
Proof. intros Hl Ha. apply Forall_app. split; [exact Hl | now constructor]. Qed.

Lemma sentences_loop_shape (sentences : list string) :
  forall bullets,
    (List.length bullets < 4)%nat -> Forall marked bullets ->
    (List.length bullets <= List.length (sentences_loop sentences bullets) <= 4)%nat /\
    Forall marked (sentences_loop sentences bullets).
Proof.
  induction sentences as [|sentence rest IH]; intros bullets Hlen Hall.
  - simpl. split; [lia | exact Hall].
  - cbn [sentences_loop].
    destruct (20 <? String.length (strip sentence))%nat; [|now apply IH].
    set (bullet := if startswith bullet_mark (strip sentence) then strip sentence
                   else bullet_mark ++ " " ++ strip sentence).
    assert (Hb : Forall marked (bullets ++ [bullet])%list)
      by (apply Forall_snoc; [exact Hall | apply marked_bullet]).
    assert (Hl : List.length (bullets ++ [bullet])%list = S (List.length bullets))
      by (rewrite length_app; simpl; lia).
    destruct (4 <=? List.length (bullets ++ [bullet])%list)%nat eqn:H4.
    + split; [lia | exact Hb].
    + apply Nat.leb_gt in H4.
      destruct (IH (bullets ++ [bullet])%list H4 Hb) as [Hr Hm].
      split; [lia | exact Hm].
Qed.

Lemma results_loop_shape (results : list hit) (slide_keywords : list string) :
  forall bullets,
    (List.length bullets < 4)%nat -> Forall marked bullets ->
    (List.length bullets
       <= List.length (results_loop results slide_keywords bullets) <= 4)%nat /\
    Forall marked (results_loop results slide_keywords bullets).
Proof.
  induction results as [|result rest IH]; intros bullets Hlen Hall.
  - simpl. split; [lia | exact Hall].
  - cbn [results_loop].
    set (bullets' :=
           if (_ || _)%bool
           then sentences_loop (slice_to 2 (split_on ". " (hit_snippet result))) bullets
           else bullets).
    assert (H' : (List.length bullets <= List.length bullets' <= 4)%nat /\
                 Forall marked bullets').
    { subst bullets'. destruct (_ || _)%bool.
      - now apply sentences_loop_shape.
      - split; [lia | exact Hall]. }
    destruct H' as [Hl' Hm'].
    destruct (4 <=? List.length bullets')%nat eqn:H4.
    + split; [lia | exact Hm'].
    + apply Nat.leb_gt in H4.
      destruct (IH bullets' H4 Hm') as [Hr Hm]. split; [lia | exact Hm].
Qed.

Lemma generic_loop_shape (slide_title : string) (missing : nat) :
  forall bullets,
    Forall marked bullets ->
    let r := generic_loop missing slide_title bullets in
    Forall marked r /\
    (List.length r <= List.length bullets + missing)%nat /\
    (List.length bullets + (if generic_kind slide_title then missing
                            else Nat.min missing 1) <= List.length r)%nat.
Proof.
  unfold generic_kind.
  induction missing as [|missing IH]; intros bullets Hall; cbn [generic_loop].
  - split; [exact Hall|]. destruct (_ || _)%bool; simpl; lia.
  - destruct (contains "analysis" (lower slide_title)).
    { match goal with
      | |- context [generic_loop missing slide_title ?l] =>
          destruct (IH l) as (Hm & Hle & Hge)
      end.
      - apply Forall_snoc; [exact Hall | apply startswith_app].
      - cbn [orb] in *. rewrite length_app in *. cbn [List.length] in *.
        split; [exact Hm | lia]. }
    destruct (contains "performance" (lower slide_title)).
    { match goal with
      | |- context [generic_loop missing slide_title ?l] =>
          destruct (IH l) as (Hm & Hle & Hge)
      end.
      - apply Forall_snoc; [exact Hall | apply startswith_app].
      - cbn [orb] in *. rewrite length_app in *. cbn [List.length] in *.
        split; [exact Hm | lia]. }
    destruct (contains "overview" (lower slide_title)).
    { match goal with
      | |- context [generic_loop missing slide_title ?l] =>
          destruct (IH l) as (Hm & Hle & Hge)
      end.
      - apply Forall_snoc; [exact Hall | apply startswith_app].
      - cbn [orb] in *. rewrite length_app in *. cbn [List.length] in *.
        split; [exact Hm | lia]. }
    cbn [orb]. rewrite length_app. cbn [List.length].
    split; [apply Forall_snoc; [exact Hall | apply startswith_app] | lia].
Qed.

Lemma extract_bullet_points_shape (results : list hit) (slide_title : string) :
  let bullets := extract_bullet_points results slide_title in
  ((if generic_kind slide_title then 3 else 1) <= List.length bullets <= 4)%nat /\
  Forall marked bullets.
Proof.
  unfold extract_bullet_points.
  set (found := results_loop _ _ []).
  destruct (results_loop_shape (slice_to 5 results)
              (split_ws (lower slide_title)) []) as [Hl Hm];
    [simpl; lia | constructor |].
  fold found in Hl, Hm.
  destruct (generic_loop_shape slide_title (3 - List.length found) found Hm)
    as (Hgm & Hle & Hge).
  set (r := generic_loop _ _ found) in *.
  assert (Hr : (List.length r <= 4)%nat) by lia.
  assert (Hcut : slice_to 6 r = r).
  { unfold slice_to. cbn [Z.leb Z.to_nat Pos.to_nat Pos.iter_op Nat.add].
    apply firstn_all2. change (Z.to_nat 6) with 6%nat. lia. }
  rewrite Hcut. split; [|exact Hgm].
  destruct (generic_kind slide_title); lia.
Qed.

(** A slide gets between one and four bullets from the search results (the
    cut at six never removes one), at least three when its title speaks of an
    analysis, a performance or an overview, and every bullet starts with the
    bullet mark. *)
Theorem extract_bullet_points_bounds (results : list hit) (slide_title : string) :
  let bullets := extract_bullet_points results slide_title in
  ((if generic_kind slide_title then 3 else 1) <= List.length bullets <= 4)%nat /\
  Forall marked bullets.
Proof. apply extract_bullet_points_shape. Qed.

Section Service.
Variable E : env.

Lemma slice_to_bound {A} (n : Z) (l : list A) :
  0 <= n -> Z.of_nat (List.length (slice_to n l)) <= n.
Proof.
  intros Hn. unfold slice_to. destruct (0 <=? n) eqn:H0; [|lia].
  rewrite length_firstn. lia.
Qed.

Lemma search_effect (topic : string) (num_results : Z) (w : world) :
  0 <= num_results ->
  exists hits new,
    search_financial_topic E topic num_results w
      = (Ok hits, mk_world (rng w) (S (io w)) (new ++ trace w)%list) /\
    Z.of_nat (List.length hits) <= num_results /\
    contacts new = 1%nat /\ sleeps new = [] /\
    match serp_reply E (io w) with
    | Ok data =>
        List.length hits
          = List.length (slice_to num_results
                           (match organic_results data with
                            | Some l => l
                            | None => []
                            end)) /\
        new = [ EvSearch (topic ++ " financial analysis") num_results ]
    | Raise _ =>
        hits = [] /\
        new = [ EvUi "Error fetching search results";
                EvSearch (topic ++ " financial analysis") num_results ]
    end.
Proof.
  intros Hn.
  unfold search_financial_topic, try_except, bind, emit, ask, lift, st_message,
    emit, ret.
  cbn [rng io trace].
  destruct (serp_reply E (io w)) as [data|e].
  - destruct (organic_results data) as [l|].
    + eexists. exists [ EvSearch (topic ++ " financial analysis") num_results ].
      split; [reflexivity|]. rewrite length_map.
      split; [now apply slice_to_bound|]. repeat split.
    + exists [], [ EvSearch (topic ++ " financial analysis") num_results ].
      split; [reflexivity|]. split; [simpl; lia|].
      repeat split. unfold slice_to. destruct (0 <=? num_results);
        now rewrite firstn_nil.
  - exists [], [ EvUi "Error fetching search results";
                 EvSearch (topic ++ " financial analysis") num_results ].
    split; [reflexivity|]. split; [simpl; lia|]. repeat split.
Qed.

(** A search never raises.  It sends one request; when the request fails, or
    the reply cannot be read, the user is told and the result is empty; else
    the result has one entry for each organic result, [num_results] of them
    at most. *)
Theorem search_financial_topic_total (topic : string) (num_results : Z) (w : world) :
  0 <= num_results ->
  exists hits new,
    search_financial_topic E topic num_results w
      = (Ok hits, mk_world (rng w) (S (io w)) (new ++ trace w)%list) /\
    Z.of_nat (List.length hits) <= num_results /\
    contacts new = 1%nat /\ sleeps new = [] /\
    match serp_reply E (io w) with
    | Ok data =>
        List.length hits
          = List.length (slice_to num_results
                           (match organic_results data with
                            | Some l => l
                            | None => []
                            end)) /\
        new = [ EvSearch (topic ++ " financial analysis") num_results ]
    | Raise _ =>
        hits = [] /\
        new = [ EvUi "Error fetching search results";
                EvSearch (topic ++ " financial analysis") num_results ]
    end.
Proof. apply search_effect. Qed.

(** The same for the image search: one request, no exception, one address
    for each image of the reply and [num_results] of them at most. *)
Theorem search_images_total (query : string) (num_results : Z) (w : world) :
  0 <= num_results ->
  exists urls new,
    search_images E query num_results w
      = (Ok urls, mk_world (rng w) (S (io w)) (new ++ trace w)%list) /\
    Z.of_nat (List.length urls) <= num_results /\
    contacts new = 1%nat /\ sleeps new = [] /\
    match serp_reply E (io w) with
    | Ok data =>
        new = [ EvImages query num_results ]
    | Raise _ =>
        urls = [] /\
        new = [ EvUi "Error fetching images"; EvImages query num_results ]
    end.
Proof.
  intros Hn.
  unfold search_images, try_except, bind, emit, ask, lift, st_message, emit, ret.
  cbn [rng io trace].
  destruct (serp_reply E (io w)) as [data|e].
  - destruct (images_results data) as [l|].
    + eexists. exists [ EvImages query num_results ].
      split; [reflexivity|]. rewrite length_map.
      split; [now apply slice_to_bound|]. repeat split.
    + exists [], [ EvImages query num_results ].
      split; [reflexivity|]. split; [simpl; lia|]. repeat split.
  - exists [], [ EvUi "Error fetching images"; EvImages query num_results ].
    split; [reflexivity|]. split; [simpl; lia|]. repeat split.
Qed.

Lemma slide_content_loop_shape (search_results : list hit) (slide_titles : list string) :
  forall slides,
    let r := slide_content_loop search_results slide_titles slides in
    map (field "slide_number") r
      = (map (field "slide_number") slides
           ++ map (fun j => Some (VInt (Z.of_nat j)))
                  (seq (S (List.length slides)) (List.length slide_titles)))%list /\
    map (field "title") r
      = (map (field "title") slides
           ++ map (fun t => Some (VStr t)) slide_titles)%list /\
    (Forall (Content.content_between 1 4) slides ->
     Forall (Content.content_between 1 4) r) /\
    (forallb PPT.slide_ok slides = true -> forallb PPT.slide_ok r = true).
Proof.
  induction slide_titles as [|slide_title rest IH]; intros slides; cbn zeta.
  - cbn [slide_content_loop List.length seq map]. rewrite !app_nil_r. auto.
  - cbn [slide_content_loop].
    match goal with
    | |- context [slide_content_loop _ _ ?l] =>
        destruct (IH l) as (Hn & Ht & Hc & Hok)
    end.
    cbn zeta in *. rewrite Hn, Ht. clear Hn Ht.
    rewrite !map_app, !length_app, <- !app_assoc.
    cbn [map List.length seq app field dict_get String.eqb Ascii.eqb Bool.eqb].
    split; [|split; [|split]].
    + rewrite Nat.add_1_r. f_equal. f_equal. f_equal. f_equal. lia.
    + reflexivity.
    + intros Hall. apply Hc. apply Forall_app. split; [exact Hall|].
      constructor; [|constructor].
      eexists. split; [reflexivity|].
      unfold str_list. rewrite length_map.
      destruct (extract_bullet_points_shape search_results slide_title) as [Hb _].
      destruct (generic_kind slide_title); lia.
    + intros Hall. apply Hok. rewrite forallb_app, Hall.
      cbn [forallb PPT.slide_ok dict_get String.eqb Ascii.eqb Bool.eqb
           PPT.text_or_missing PPT.texts_or_missing PPT.visual_ok andb].
      unfold str_list. rewrite !andb_true_r.
      apply forallb_forall. intros v Hv. apply in_map_iff in Hv.
      destruct Hv as (s & <- & _). reflexivity.
Qed.

(** [generate_slide_content] searches once and writes one slide for each
    title it is given, in their order and numbered from 1, each with one to
    four bullets; the deck builder accepts what it returns. *)
Theorem generate_slide_content_shape (topic : string) (slide_titles : list string)
        (w : world) :
  exists content new,
    generate_slide_content E topic slide_titles w
      = (Ok content, mk_world (rng w) (S (io w)) (new ++ trace w)%list) /\
    contacts new = 1%nat /\
    Content.slide_numbers content
      = map (fun j => Some (VInt (Z.of_nat j))) (seq 1 (List.length slide_titles)) /\
    map (field "title") (Content.slides_of content)
      = map (fun t => Some (VStr t)) slide_titles /\
    Forall (Content.content_between 1 4) (Content.slides_of content) /\
    PPT.content_ok content = true.
Proof.
  unfold generate_slide_content.
  destruct (search_effect topic 10 w) as (hits & new & Hs & _ & Hc & _);
    [lia|].
  unfold bind. rewrite Hs. unfold ret.
  destruct (slide_content_loop_shape hits slide_titles [])
    as (Hn & Ht & Hb & Hok).
  eexists. exists new. split; [reflexivity|]. split; [exact Hc|].
  unfold Content.slide_numbers, Content.slides_of, PPT.content_ok.
  cbn [dict_get String.eqb Ascii.eqb Bool.eqb PPT.text_or_missing andb].
  repeat split.
  - exact Hn.
  - exact Ht.
  - apply Hb. constructor.
  - apply Hok. reflexivity.
Qed.

End Service.
End SearchFacts.

Lemma search_financial_topic_total_witness :
  exists hits new,
    SerpAPI.search_financial_topic offline "Nifty" 5 start
      = (Ok hits, mk_world 0 1 (new ++ trace start)%list) /\
    Z.of_nat (List.length hits) <= 5.
Proof.
  destruct (search_financial_topic_total offline "Nifty" 5 start)
    as (hits & new & Hrun & Hlen & _); [lia|].
  exists hits, new. split; [exact Hrun | exact Hlen].
Defined.

Lemma search_images_total_witness :
  exists urls new,
    SerpAPI.search_images offline "chart" 1 start
      = (Ok urls, mk_world 0 1 (new ++ trace start)%list) /\
    Z.of_nat (List.length urls) <= 1.
Proof.
  destruct (search_images_total offline "chart" 1 start)
    as (urls & new & Hrun & Hlen & _); [lia|].
  exists urls, new. split; [exact Hrun | exact Hlen].
Defined.

(** ** The content generator, slide by slide *)

Section GeneratorFacts.
Import PyStr MarketData Content.
Variable E : env.
Hypothesis contract : generator_contract E.

(** What the market service hands to the content generator: nothing, a
    general analysis, or the fallback of an index analysis. *)
Lemma fetch_market_data_keys (topic : string) (include_real_data : bool) (w : world) :
  exists d w',
    fetch_market_data E topic include_real_data w = (Ok d, w') /\
    (d = [] \/ dict_keys d = general_keys \/ dict_keys d = fallback_index_keys).
Proof.
  unfold fetch_market_data.
  destruct include_real_data; [|exists [], w; split; [reflexivity | now left]].
  unfold _extract_symbols_from_topic.
  destruct (find _ common_symbols) as [symbol|] eqn:Hfind;
    [|exists [], w; split; [reflexivity | now left]].
  apply find_some in Hfind. destruct Hfind as [Hin _].
  assert (Hcase :
    dispatch E symbol 3 = _analyze_general_market E symbol 3 \/
    dispatch E symbol 3 = _analyze_index E "^BSESN" symbol 3).
  { simpl in Hin.
    destruct Hin as [<-|[<-|[<-|[<-|[<-|[<-|[]]]]]]];
      ((left; reflexivity) || (right; reflexivity)). }
  unfold bind at 1, get_comprehensive_analysis, try_except.
  destruct Hcase as [-> | ->].
  - destruct (general_market_shape E contract symbol 3 w) as (d & w' & Hrun & Hkeys).
    rewrite Hrun. exists d, w'. split; [reflexivity|]. right. now left.
  - destruct (analyze_index_run E "^BSESN" symbol 3 w) as (new & w1 & Hrun & _).
    destruct (fallback_run E contract "^BSESN" symbol 3 w1)
      as (v & Hfb & _ & _ & _ & _ & _ & d & -> & Hkeys).
    rewrite Hrun, Hfb. eexists d, _. split; [reflexivity|]. right. now right.
Qed.

Lemma outside_market_data (k : string) (d : dict) :
  d = [] \/ dict_keys d = general_keys \/ dict_keys d = fallback_index_keys ->
  existsb (String.eqb k) general_keys = false ->
  existsb (String.eqb k) fallback_index_keys = false ->
  dict_get k d = None.
Proof.
  intros [-> | [H | H]] Hg Hf; [reflexivity| |];
    apply dict_get_outside; rewrite H; assumption.
Qed.

Lemma pad_loop_marked (n : nat) (title : string) :
  forall bullets,
    Forall SerpAPI.marked bullets -> Forall SerpAPI.marked (pad_loop n title bullets).
Proof.
  induction n as [|n IH]; intros bullets Hall; [exact Hall|].
  cbn [pad_loop]. apply IH, Forall_snoc; [exact Hall | apply startswith_app].
Qed.

(** lines 87-92: the bullets of a slide before market data is looked at *)
Lemma four_bullets (hits : list SerpAPI.hit) (title : string) :
  let bullets := SerpAPI.extract_bullet_points hits title in
  let padded := slice_to 6 (pad_loop (4 - List.length bullets) title bullets) in
  List.length padded = 4%nat /\ Forall SerpAPI.marked padded.
Proof.
  cbn zeta.
  destruct (extract_bullet_points_shape hits title) as [Hlen Hm].
  set (bullets := SerpAPI.extract_bullet_points hits title) in *.
  assert (Hl : List.length (pad_loop (4 - List.length bullets) title bullets) = 4%nat).
  { rewrite pad_loop_length. destruct (SerpAPI.generic_kind title); lia. }
  assert (Hcut : slice_to 6 (pad_loop (4 - List.length bullets) title bullets)
                 = pad_loop (4 - List.length bullets) title bullets).
  { unfold slice_to. cbn [Z.leb]. apply firstn_all2.
    change (Z.to_nat 6) with 6%nat. lia. }
  rewrite Hcut. split; [exact Hl | now apply pad_loop_marked].
Qed.

Lemma make_slide_exact (topic : string) (include_real_data : bool)
      (market_data : dict) (i : nat) (title : string) (w : world) :
  market_data = [] \/ dict_keys market_data = general_keys
    \/ dict_keys market_data = fallback_index_keys ->
  exists slide w',
    make_slide E topic include_real_data market_data i title w = (Ok slide, w') /\
    searched_slide i title slide.
Proof.
  intros Hmd.
  pose proof (outside_market_data "current_price" _ Hmd eq_refl eq_refl) as H1.
  pose proof (outside_market_data "total_return" _ Hmd eq_refl eq_refl) as H2.
  pose proof (outside_market_data "volatility" _ Hmd eq_refl eq_refl) as H3.
  pose proof (outside_market_data "max_drawdown" _ Hmd eq_refl eq_refl) as H4.
  unfold make_slide.
  unfold bind at 1.
  destruct (search_returns E (topic ++ " " ++ title) 5 w) as (hits & w1 & Hs).
  rewrite Hs.
  unfold bind at 1.
  match goal with
  | |- context [SerpAPI.search_images E ?q ?n ?w0] =>
      destruct (images_return E q n w0) as (urls & w2 & Hi); rewrite Hi
  end.
  unfold ret. eexists. eexists. split; [reflexivity|].
  destruct (four_bullets hits title) as [Hlen Hm].
  eexists. eexists. split; [|split; [|split]].
  - f_equal. f_equal. f_equal. f_equal. f_equal. f_equal.
    unfold _get_slide_data_points. rewrite H1, H2, H3, H4.
    destruct (truthy _); [|reflexivity].
    destruct (contains "performance" _); [reflexivity|].
    destruct (contains "risk" _); reflexivity.
  - rewrite (enhance_plain E _ _ _ H1 H2).
    destruct (include_real_data && _); exact Hlen.
  - rewrite (enhance_plain E _ _ _ H1 H2).
    destruct (include_real_data && _); exact Hm.
  - destruct urls as [|url urls]; reflexivity.
Qed.

Lemma slides_loop_exact (topic : string) (include_real_data : bool)
      (market_data : dict) (titles : list string) :
  market_data = [] \/ dict_keys market_data = general_keys
    \/ dict_keys market_data = fallback_index_keys ->
  forall i w, exists slides w',
    slides_loop E topic include_real_data market_data i titles w = (Ok slides, w') /\
    Forall2 (fun it slide => searched_slide (fst it) (snd it) slide)
            (combine (seq i (List.length titles)) titles) slides.
Proof.
  intros Hmd. induction titles as [|title rest IH]; intros i w.
  - exists [], w. split; [reflexivity | constructor].
  - destruct (make_slide_exact topic include_real_data market_data i title w Hmd)
      as (slide & w1 & Hm & Hs).
    destruct (IH (S i) w1) as (slides & w2 & Hl & Hall).
    exists (slide :: slides), w2.
    cbn [slides_loop]. unfold bind at 1. rewrite Hm.
    unfold bind at 1. rewrite Hl. unfold ret.
    split; [reflexivity|]. cbn [List.length seq combine].
    constructor; [exact Hs | exact Hall].
Qed.

Lemma searched_slides_facts (titles : list string) (slides : list value) :
  forall i,
    Forall2 (fun it slide => searched_slide (fst it) (snd it) slide)
            (combine (seq i (List.length titles)) titles) slides ->
    map (field "title") slides = map (fun t => Some (VStr t)) titles /\
    Forall (fun slide => field "data_points" slide = Some (VList [])) slides /\
    Forall (fun slide => exists bullets,
              field "content" slide = Some (str_list bullets) /\
              List.length bullets = 4%nat /\ Forall SerpAPI.marked bullets) slides /\
    forallb PPT.slide_ok slides = true.
Proof.
  revert slides. induction titles as [|title rest IH]; intros slides i H.
  - inversion H. subst. repeat split; constructor.
  - cbn [List.length seq combine] in H. inversion H as [|it slide its slides' Hs Hrest].
    subst. destruct (IH _ _ Hrest) as (Ht & Hd & Hb & Hok).
    destruct Hs as (bullets & vs & -> & Hlen & Hm & Hvis).
    cbn [fst snd] in *.
    split; [cbn [map field dict_get String.eqb Ascii.eqb Bool.eqb]; now rewrite Ht|].
    split; [constructor; [reflexivity | exact Hd]|].
    split.
    + constructor; [|exact Hb]. exists bullets. repeat split; assumption.
    + cbn [forallb]. rewrite Hok, andb_true_r.
      cbn [PPT.slide_ok dict_get String.eqb Ascii.eqb Bool.eqb
           PPT.text_or_missing PPT.texts_or_missing andb forallb].
      rewrite Hvis, !andb_true_r. unfold str_list.
      apply forallb_forall. intros v Hv. apply in_map_iff in Hv.
      destruct Hv as (s & <- & _). reflexivity.
Qed.

Lemma fallback_slides_facts (titles : list string) :
  forall i,
    let slides :=
      map (fun it : nat * string =>
             let (i, title) := it in
             VDict [ ("slide_number", VInt (Z.of_nat i));
                     ("title", VStr title);
                     ("content", str_list [ "Key point 1 for " ++ title;
                                            "Key point 2 for " ++ title;
                                            "Key point 3 for " ++ title ]);
                     ("visual_suggestion",
                       VDict [ ("chart_type", VStr "bar");
                               ("data_description", VStr "Sample data") ]);
                     ("data_points", VList []) ])
          (combine (seq i (List.length titles)) titles) in
    map (field "title") slides = map (fun t => Some (VStr t)) titles /\
    Forall (fun slide => field "data_points" slide = Some (VList [])) slides /\
    forallb PPT.slide_ok slides = true.
Proof.
  induction titles as [|title rest IH]; intros i; cbn zeta.
  - repeat split. constructor.
  - destruct (IH (S i)) as (Ht & Hd & Hok). cbn zeta in *.
    cbn [List.length seq combine map].
    split; [|split].
    + cbn [field dict_get String.eqb Ascii.eqb Bool.eqb]. now rewrite Ht.
    + constructor; [reflexivity | exact Hd].
    + cbn [forallb]. rewrite Hok. reflexivity.
Qed.

(** The run of [generate_presentation_content] on either path, slide by
    slide. *)
Lemma generate_exact (topic presentation_type target_audience : string)
      (slide_count : Z) (include_real_data : bool) (content_provider : string)
      (w : world) :
  let titles := slice_to slide_count (template_slides presentation_type) in
  exists content w',
    generate_presentation_content E topic presentation_type target_audience
      slide_count include_real_data content_provider w = (Ok content, w') /\
    map (field "title") (slides_of content) = map (fun t => Some (VStr t)) titles /\
    Forall (fun slide => field "data_points" slide = Some (VList []))
           (slides_of content) /\
    PPT.content_ok content = true /\
    truthy (VDict content) = true /\
    (String.eqb content_provider "SerpAPI" = true ->
     Forall (fun slide => exists bullets,
               field "content" slide = Some (str_list bullets) /\
               List.length bullets = 4%nat /\ Forall SerpAPI.marked bullets)
            (slides_of content) /\
     dict_get "key_recommendations" content = None).
Proof.
  intros titles. unfold generate_presentation_content.
  destruct (String.eqb content_provider "SerpAPI"); cbn [negb].
  - unfold bind at 1.
    destruct (search_returns E topic 15 w) as (hits & w1 & Hs). rewrite Hs.
    unfold bind at 1.
    destruct (fetch_market_data_keys topic include_real_data w1)
      as (md & w2 & Hmd & Hkeys).
    rewrite Hmd. unfold bind at 1. fold titles.
    destruct (slides_loop_exact topic include_real_data md titles Hkeys 0%nat w2)
      as (slides & w3 & Hl & Hall).
    rewrite Hl. unfold ret. eexists. eexists. split; [reflexivity|].
    destruct (searched_slides_facts titles slides 0%nat Hall) as (Ht & Hd & Hb & Hok).
    unfold slides_of, PPT.content_ok.
    cbn [dict_get String.eqb Ascii.eqb Bool.eqb PPT.text_or_missing andb].
    repeat split; assumption.
  - unfold ret. eexists. eexists. split; [reflexivity|].
    destruct (fallback_slides_facts titles 1%nat) as (Ht & Hd & Hok).
    unfold slides_of, PPT.content_ok, _get_fallback_content. fold titles.
    cbn [dict_get String.eqb Ascii.eqb Bool.eqb PPT.text_or_missing andb].
    cbn zeta in *.
    split; [exact Ht|]. split; [exact Hd|]. split; [exact Hok|].
    split; [reflexivity|].
    intros H. discriminate H.
Qed.

(** With the SerpAPI provider every slide has exactly four bullets, each
    starting with the bullet mark: the search gives four at most, the padding
    fills up to four, the cut at six removes nothing, and no market data the
    service can return adds a line. *)
Theorem searched_slides_have_four_bullets
        (topic presentation_type target_audience : string)
        (slide_count : Z) (include_real_data : bool) (w : world) :
  exists content w',
    generate_presentation_content E topic presentation_type target_audience
      slide_count include_real_data "SerpAPI" w = (Ok content, w') /\
    Forall (fun slide => exists bullets,
              field "content" slide = Some (str_list bullets) /\
              List.length bullets = 4%nat /\ Forall SerpAPI.marked bullets)
           (slides_of content).
Proof.
  destruct (generate_exact topic presentation_type target_audience slide_count
              include_real_data "SerpAPI" w)
    as (content & w' & Hrun & _ & _ & _ & _ & Hb).
  exists content, w'. split; [exact Hrun | now apply Hb].
Qed.

(** No slide carries a data point, with or without real data: the analyses
    the market service returns have their metrics in nested dictionaries and
    the generator reads the top level. *)
Theorem slides_carry_no_data_points
        (topic presentation_type target_audience : string)
        (slide_count : Z) (include_real_data : bool) (content_provider : string)
        (w : world) :
  exists content w',
    generate_presentation_content E topic presentation_type target_audience
      slide_count include_real_data content_provider w = (Ok content, w') /\
    Forall (fun slide => field "data_points" slide = Some (VList []))
           (slides_of content).
Proof.
  destruct (generate_exact topic presentation_type target_audience slide_count
              include_real_data content_provider w)
    as (content & w' & Hrun & _ & Hd & _).
  exists content, w'. split; assumption.
Qed.

(** The titles of the slides are the titles of the template, in their order,
    whatever the topic and the search results are. *)
Theorem slide_titles_follow_template
        (topic presentation_type target_audience : string)
        (slide_count : Z) (include_real_data : bool) (content_provider : string)
        (w : world) :
  exists content w',
    generate_presentation_content E topic presentation_type target_audience
      slide_count include_real_data content_provider w = (Ok content, w') /\
    map (field "title") (slides_of content)
      = map (fun t => Some (VStr t))
            (slice_to slide_count (template_slides presentation_type)).
Proof.
  destruct (generate_exact topic presentation_type target_audience slide_count
              include_real_data content_provider w)
    as (content & w' & Hrun & Ht & _).
  exists content, w'. split; assumption.
Qed.

End GeneratorFacts.

(** ** The deck, slide by slide *)

Section RenderFacts.
Import PyStr MarketData PPT.

Lemma length_drop (n : nat) :
  forall s, String.length (drop n s) = (String.length s - n)%nat.
Proof.
  induction n as [|n IH]; intros s; simpl; [lia|].
  destruct s as [|c s]; simpl; [reflexivity | apply IH].
Qed.

Lemma find_prefix_of_empty (tokens : list string) :
  Forall (fun t => t <> EmptyString) tokens ->
  find (fun t => startswith t EmptyString) tokens = None.
Proof.
  induction 1 as [|t tokens Ht _ IH]; [reflexivity|].
  simpl. destruct t; [congruence | exact IH].
Qed.

(** [lstrip] needs no more steps than the string has characters *)
Lemma lstrip_set_go_enough (tokens : list string) :
  Forall (fun t => t <> EmptyString) tokens ->
  forall n s fuel,
    (String.length s <= n)%nat -> (String.length s <= fuel)%nat ->
    lstrip_set_go fuel tokens s = lstrip_set_go (String.length s) tokens s.
Proof.
  intros Htok. induction n as [|n IH]; intros s fuel Hn Hf.
  - destruct s; simpl in Hn; [|lia].
    destruct fuel; simpl; [reflexivity|].
    now rewrite find_prefix_of_empty.
  - destruct s as [|c s'].
    + destruct fuel; simpl; [reflexivity|]. now rewrite find_prefix_of_empty.
    + destruct fuel as [|fuel]; [simpl in Hf; lia|].
      cbn [lstrip_set_go String.length].
      destruct (find _ tokens) as [t|] eqn:Hfind; [|reflexivity].
      apply find_some in Hfind. destruct Hfind as [Hin _].
      assert (Ht : t <> EmptyString)
        by (rewrite Forall_forall in Htok; now apply Htok).
      assert (Hl : (String.length (drop (String.length t) (String c s'))
                    <= String.length s')%nat).
      { rewrite length_drop. destruct t; [congruence|]. simpl. lia. }
      simpl in Hn, Hf.
      rewrite (IH _ fuel), (IH _ (String.length s')); try lia. reflexivity.
Qed.

Lemma lstrip_set_go_step (fuel : nat) (tokens : list string) (t s : string) :
  find (fun t => startswith t s) tokens = Some t ->
  lstrip_set_go (S fuel) tokens s = lstrip_set_go fuel tokens (drop (String.length t) s).
Proof. intros H. cbn [lstrip_set_go]. now rewrite H. Qed.

Lemma lstrip_set_mark (s : string) :
  lstrip_set bullet_or_space (SerpAPI.bullet_mark ++ " " ++ s)
    = lstrip_set bullet_or_space s.
Proof.
  unfold lstrip_set.
  change (String.length (SerpAPI.bullet_mark ++ " " ++ s))
    with (S (S (S (S (String.length s))))).
  rewrite (lstrip_set_go_step _ _ SerpAPI.bullet_mark) by reflexivity.
  change (drop (String.length SerpAPI.bullet_mark) (SerpAPI.bullet_mark ++ " " ++ s))
    with (String " " s).
  rewrite (lstrip_set_go_step _ _ " ") by reflexivity.
  change (drop (String.length " ") (String " " s)) with s.
  apply (lstrip_set_go_enough _) with (n := String.length s); try lia.
  repeat constructor; discriminate.
Qed.

(** The deck builder removes the mark the content generator has put before
    a bullet: a bullet with the mark and the bare text are rendered as the
    same paragraph. *)
Theorem clean_item_removes_mark (s : string) :
  clean_item (SerpAPI.bullet_mark ++ " " ++ s) = clean_item s /\
  clean_data_point (SerpAPI.bullet_mark ++ " " ++ s) = clean_data_point s.
Proof.
  unfold clean_item, clean_data_point. now rewrite lstrip_set_mark.
Qed.

(** No template has a key "colorful_modern" among its colours: the title
    slide never takes the branch of [_create_colorful_title_slide]. *)
Lemma colorful_branch_is_dead (template : string) (colors : dict) :
  assoc_get template templates = Some colors ->
  dict_has "colorful_modern" colors = false.
Proof.
  unfold templates. cbn [assoc_get].
  repeat (destruct (String.eqb template _);
          [intros H; injection H as <-; reflexivity|]).
  discriminate.
Qed.

Section Generator.
Variable E : env.

(** The template "colorful_modern" builds no deck, whatever the content: its
    colours lack "primary_color", the title slide of the original design
    asks for it, and nothing has been requested or written by then. *)
Theorem colorful_modern_never_builds (content : dict) (w : world) :
  (forall template colors,
     assoc_get template templates = Some colors ->
     dict_has "colorful_modern" colors = false) /\
  exists e,
    create_presentation E content "colorful_modern" w = (Raise e, w) /\
    (text_or_missing (dict_get "presentation_title" content) = true ->
     e = KeyError "primary_color").
Proof.
  split; [apply colorful_branch_is_dead|].
  unfold create_presentation, build_deck, _create_title_slide, get_text.
  cbn [assoc_get templates String.eqb Ascii.eqb Bool.eqb].
  unfold bind at 1, ret at 1.
  cbn [dict_has dict_get String.eqb Ascii.eqb Bool.eqb getitem].
  destruct (dict_get "presentation_title" content) as [[]|];
    eexists; (split; [reflexivity|]); intros H;
    first [reflexivity | discriminate H].
Qed.

Lemma for_each_length {A B} (f : A -> M B) (l : list A) :
  (forall a, In a l -> returns (f a) (fun _ => True)) ->
  returns (for_each f l) (fun r => List.length r = List.length l).
Proof.
  induction l as [|a rest IH]; intros Hf.
  - now apply returns_ret.
  - cbn [for_each].
    eapply returns_bind; [apply Hf; now left|]. intros b _.
    eapply returns_bind; [apply IH; intros a' Ha'; apply Hf; now right|].
    intros bs Hbs. apply returns_ret. simpl. now rewrite Hbs.
Qed.

Lemma strings_in (l : list value) (v : value) :
  forallb (fun v => match v with VStr _ => true | _ => false end) l = true ->
  In v l -> exists s, v = VStr s.
Proof.
  intros Hl Hin. rewrite forallb_forall in Hl. specialize (Hl v Hin).
  destruct v; try discriminate Hl. eexists. reflexivity.
Qed.

Variable colors : dict.
Hypothesis colours : has_colours colors = true.

(** A content slide has one paragraph for each bullet, one at least, and one
    more for each data point; its title is the title of the entry. *)
Theorem content_slide_paragraphs (d : dict) :
  slide_ok (VDict d) = true ->
  returns (_create_content_slide E (VDict d) colors)
    (fun ps =>
       title_text ps = match dict_get "title" d with
                       | Some (VStr s) => s
                       | _ => "Content Slide"
                       end /\
       List.length (paragraphs ps)
         = (Nat.max 1 (List.length (match dict_get "content" d with
                                    | Some (VList l) => l
                                    | _ => []
                                    end))
            + List.length (match dict_get "data_points" d with
                           | Some (VList l) => l
                           | _ => []
                           end))%nat).
Proof.
  intros Hok. cbn [slide_ok] in Hok.
  apply andb_prop in Hok. destruct Hok as [Hok Hvis].
  apply andb_prop in Hok. destruct Hok as [Hok Hpoints].
  apply andb_prop in Hok. destruct Hok as [Htitle Hitems].
  unfold _create_content_slide.
  eapply returns_bind; [apply (background_returns colors colours)|]. intros _ _.
  eapply returns_bind with (P := fun d0 => d0 = d); [now apply returns_ret|].
  intros d0 ->.
  eapply returns_bind
    with (P := fun t => t = match dict_get "title" d with
                            | Some (VStr s) => s
                            | _ => "Content Slide"
                            end).
  { unfold get_text. destruct (dict_get "title" d) as [[]|];
      try discriminate Htitle; now apply returns_ret. }
  intros title ->.
  eapply returns_bind; [apply (format_title_returns colors colours)|]. intros _ _.
  eapply returns_bind;
    [apply (get_items_returns _ _
              (fun v => match v with VStr _ => true | _ => false end)), Hitems|].
  intros content_items [Hci ->].
  eapply returns_bind.
  { apply for_each_length. intros v Hv.
    destruct (strings_in _ _ Hci Hv) as (s & ->). unfold item_paragraph.
    eapply returns_bind with (P := fun _ => True); [now apply returns_ret|].
    intros t _.
    eapply returns_bind; [apply (text_colour_returns colors colours)|]. intros _ _.
    now apply returns_ret. }
  intros items Hil.
  eapply returns_bind;
    [apply (get_items_returns _ _
              (fun v => match v with VStr _ => true | _ => false end)), Hpoints|].
  intros data_points [Hdp ->].
  eapply returns_bind.
  { apply for_each_length. intros v Hv.
    destruct (strings_in _ _ Hdp Hv) as (s & ->). unfold data_point_paragraph.
    eapply returns_bind with (P := fun _ => True); [now apply returns_ret|].
    intros t _.
    eapply returns_bind; [apply (text_colour_returns colors colours)|]. intros _ _.
    now apply returns_ret. }
  intros points Hpl.
  eapply returns_bind with (P := fun _ => True).
  { destruct (dict_get "visual_suggestion" d) as [[| | | | | |vs| |]|];
      try discriminate Hvis; try now apply returns_ret.
    destruct (Content.truthy (VDict vs)); [|now apply returns_ret].
    eapply returns_bind with (P := fun vs0 => vs0 = vs); [now apply returns_ret|].
    intros vs0 ->.
    destruct (dict_get "image_url" vs) as [url|]; [|now apply returns_ret].
    destruct (Content.truthy url); [|now apply returns_ret].
    apply add_image_returns. }
  intros has_picture _. apply returns_ret. split; [reflexivity|].
  cbn [paragraphs]. rewrite length_app, Hpl, <- Hil.
  destruct items; simpl; lia.
Qed.

End Generator.
End RenderFacts.

Lemma content_slide_paragraphs_witness :
  returns (PPT._create_content_slide offline
             (VDict [ ("title", VStr "Outlook");
                      ("content", str_list [ "one"; "two" ]);
                      ("data_points", str_list [ "three" ]) ])
             [ ("primary_color", PPT.rgb 0 0 0); ("secondary_color", PPT.rgb 0 0 0);
               ("text_color", PPT.rgb 0 0 0); ("background_color", PPT.rgb 0 0 0) ])
    (fun ps => PPT.title_text ps = "Outlook" /\ List.length (PPT.paragraphs ps) = 3%nat).
Proof.
  apply (content_slide_paragraphs offline
           [ ("primary_color", PPT.rgb 0 0 0); ("secondary_color", PPT.rgb 0 0 0);
             ("text_color", PPT.rgb 0 0 0); ("background_color", PPT.rgb 0 0 0) ]
           eq_refl
           [ ("title", VStr "Outlook");
             ("content", str_list [ "one"; "two" ]);
             ("data_points", str_list [ "three" ]) ]
           eq_refl).
Defined.

(** ** The analyses of a commodity, of a stock and of a theme *)

Section AnalysisFacts.
Import PyStr MarketData.

Lemma raises_bind_l {A B} (m : M A) (k : A -> M B) : raises m -> raises (bind m k).
Proof.
  intros Hm w. destruct (Hm w) as (e & w' & H). exists e, w'.
  unfold bind. now rewrite H.
Qed.

Lemma raises_bind_r {A B} (m : M A) (k : A -> M B) :
  (forall a, raises (k a)) -> raises (bind m k).
Proof.
  intros Hk w. unfold bind. destruct (m w) as [[a|e] w1].
  - apply Hk.
  - exists e, w1. reflexivity.
Qed.

Lemma ensures_raises {A} (m : M A) (P : A -> Prop) : raises m -> ensures m P.
Proof.
  intros Hm w a w' H. destruct (Hm w) as (e & w1 & H1). congruence.
Qed.

Lemma ensures_bind {A B} (m : M A) (k : A -> M B) (Q : B -> Prop) :
  (forall a, ensures (k a) Q) -> ensures (bind m k) Q.
Proof.
  intros Hk w b w' H. unfold bind in H. destruct (m w) as [[a|e] w1].
  - exact (Hk a w1 b w' H).
  - discriminate H.
Qed.

Lemma try_except_raises {A} (m : M A) (h : exn -> M A) (w : world) :
  raises m -> exists e w1, try_except m h w = h e w1.
Proof.
  intros Hm. destruct (Hm w) as (e & w1 & H). exists e, w1.
  unfold try_except. now rewrite H.
Qed.

Section Analyses.
Variable E : env.
Variable statement_reply : nat -> result value.

Lemma call_missing (name : string) (args : list value) :
  has_attribute name = false -> raises (call_method E name args).
Proof.
  intros H w. unfold call_method. rewrite H. eexists. eexists. reflexivity.
Qed.

Lemma metrics_of_prices_raise (r : row) (hist : frame) (info : dict) :
  raises (_calculate_commodity_metrics E (r :: hist)) /\
  raises (_calculate_stock_metrics E (r :: hist) info).
Proof.
  unfold _calculate_commodity_metrics, _calculate_stock_metrics.
  cbn [List.length Nat.eqb].
  split; apply raises_bind_r; intros current_price; apply raises_bind_r;
    intros year_start_price; apply raises_bind_l; now apply call_missing.
Qed.

(** [_analyze_commodity] always ends in its [except] branch: with prices in
    hand the metrics ask for [_calculate_max_drawdown], without them the
    dictionary asks for [_generate_commodity_forecast], and the class has
    neither.  The user is warned and the analysis is the fallback, in which
    every part is empty. *)
Theorem analyze_commodity_always_fallback (symbol topic : string) (years : Z)
        (w : world) :
  exists w0,
    _analyze_commodity E symbol topic years w
      = (Ok (VDict
               [ ("topic", VStr topic);
                 ("analysis_type", VStr "Commodity Analysis");
                 ("symbol", VStr symbol);
                 ("price_analysis", VDict []);
                 ("supply_demand", VDict []);
                 ("seasonal_patterns", VDict []);
                 ("correlation_analysis", VDict []);
                 ("macro_factors", VDict []);
                 ("price_forecast", VDict []);
                 ("trading_insights", VDict []);
                 ("analysis_date", VStr (clock_ymd E (io w0)));
                 ("period_analyzed", VStr (str_of_Z years ++ " years")) ]),
         mk_world (rng w0) (S (io w0))
                  (EvUi ("Error analyzing commodity " ++ symbol) :: trace w0)).
Proof.
  unfold _analyze_commodity.
  match goal with
  | |- context [try_except ?m ?h w] =>
      destruct (try_except_raises m h w) as (e & w0 & ->)
  end.
  - apply raises_bind_r. intros _.
    apply raises_bind_r. intros end_date.
    apply raises_bind_r. intros start_date.
    apply raises_bind_r. intros hist.
    apply raises_bind_r. intros price_analysis.
    apply raises_bind_l. now apply call_missing.
  - exists w0. reflexivity.
Qed.

(** [_analyze_individual_stock] always returns, and never with a figure
    taken from the prices: a history with rows ends in the [except] branch
    (the metrics ask for [_calculate_max_drawdown]) and gives the fallback;
    the analysis of the [try] is returned only for an empty history, with
    empty metrics and empty indicators. *)
Theorem analyze_stock_never_priced (symbol topic : string) (years : Z) (w : world) :
  exists v w',
    _analyze_individual_stock E statement_reply symbol topic years w = (Ok v, w') /\
    field "symbol" v = Some (VStr symbol) /\
    ((field "current_metrics" v = Some (VDict []) /\
      field "technical_analysis" v = Some (VDict [])) \/
     (field "current_metrics" v = Some (VDict _get_fallback_current_metrics) /\
      field "technical_analysis" v = Some (VDict _get_fallback_technical_indicators))).
Proof.
  unfold _analyze_individual_stock.
  match goal with
  | |- context [try_except ?m ?h w] =>
      assert (Hm : ensures m
                (fun v => field "symbol" v = Some (VStr symbol) /\
                          field "current_metrics" v = Some (VDict []) /\
                          field "technical_analysis" v = Some (VDict [])))
  end.
  { apply ensures_bind. intros _.
    apply ensures_bind. intros end_date.
    apply ensures_bind. intros start_date.
    apply ensures_bind. intros hist.
    apply ensures_bind. intros info.
    apply ensures_bind. intros financials.
    apply ensures_bind. intros balance_sheet.
    apply ensures_bind. intros cash_flow.
    destruct hist as [|r hist].
    - intros w1 v w2 H.
      cbv [_calculate_stock_metrics _calculate_technical_indicators List.length
           Nat.eqb Nat.ltb Nat.leb bind ret today ask] in H.
      injection H as <- _. repeat split.
    - apply ensures_raises, raises_bind_l.
      apply (metrics_of_prices_raise r hist info). }
  unfold try_except.
  match goal with
  | |- context [match ?m w with _ => _ end] => destruct (m w) as [[v|e] w1] eqn:Hrun
  end.
  - exists v, w1. split; [reflexivity|].
    destruct (Hm w v w1 Hrun) as (Hs & Hc & Ht). split; [exact Hs|]. now left.
  - eexists. eexists. split; [reflexivity|]. split; [reflexivity|]. now right.
Qed.

End Analyses.

(** the sum of the counts *)
Lemma count_sector_total (sector : value) (sector_count : list (value * Z)) :
  fold_right Z.add 0 (map snd (count_sector sector sector_count))
    = fold_right Z.add 0 (map snd sector_count) + 1.
Proof.
  induction sector_count as [|[k n] rest IH]; simpl; [reflexivity|].
  destruct (same_key sector k); simpl; lia.
Qed.

Lemma count_sector_positive (sector : value) (sector_count : list (value * Z)) :
  Forall (fun it => 1 <= snd it) sector_count ->
  Forall (fun it => 1 <= snd it) (count_sector sector sector_count).
Proof.
  induction 1 as [|[k n] rest Hn Hrest IH]; simpl.
  - constructor; [simpl; lia | constructor].
  - destruct (same_key sector k); constructor; simpl in *; try lia; assumption.
Qed.

Lemma count_sector_keeps (sector : value) (sector_count : list (value * Z)) (k : value) :
  existsb (fun it => same_key k (fst it)) sector_count = true ->
  existsb (fun it => same_key k (fst it)) (count_sector sector sector_count) = true.
Proof.
  induction sector_count as [|[k' n] rest IH]; simpl; [discriminate|].
  destruct (same_key sector k'); simpl; [auto|].
  destruct (same_key k k'); simpl; auto.
Qed.

Lemma count_sector_has (sector : value) (sector_count : list (value * Z)) :
  same_key sector sector = true ->
  existsb (fun it => same_key sector (fst it)) (count_sector sector sector_count) = true.
Proof.
  intros Hrefl. induction sector_count as [|[k' n] rest IH]; simpl.
  - now rewrite Hrefl.
  - destruct (same_key sector k') eqn:Hk; simpl; rewrite Hk; [reflexivity | exact IH].
Qed.

Lemma same_key_refl (v : value) : hashable v = true -> same_key v v = true.
Proof.
  destruct v; try discriminate; intros _; unfold same_key; simpl;
    try reflexivity.
  - destruct b; reflexivity.
  - apply Qeq_bool_iff. reflexivity.
  - apply Qeq_bool_iff. reflexivity.
  - apply String.eqb_refl.
Qed.

Lemma theme_sectors_loop_counts (theme_data : list dict) :
  Forall (fun data => hashable (sector_of data) = true) theme_data ->
  forall sector_count w,
    Forall (fun it => 1 <= snd it) sector_count ->
    exists counts,
      theme_sectors_loop theme_data sector_count w = (Ok counts, w) /\
      fold_right Z.add 0 (map snd counts)
        = fold_right Z.add 0 (map snd sector_count) + Z.of_nat (List.length theme_data) /\
      Forall (fun it => 1 <= snd it) counts /\
      (forall k, existsb (fun it => same_key k (fst it)) sector_count = true ->
                 existsb (fun it => same_key k (fst it)) counts = true) /\
      Forall (fun data =>
                existsb (fun it => same_key (sector_of data) (fst it)) counts = true)
             theme_data.
Proof.
  induction 1 as [|data rest Hd _ IH]; intros sector_count w Hpos.
  - exists sector_count. cbn [theme_sectors_loop List.length].
    repeat split; auto. simpl. lia.
  - cbn [theme_sectors_loop]. rewrite Hd.
    destruct (IH (count_sector (sector_of data) sector_count) w
                 (count_sector_positive _ _ Hpos))
      as (counts & Hrun & Hsum & Hp & Hkeep & Hall).
    exists counts. split; [exact Hrun|].
    split; [rewrite Hsum, count_sector_total; cbn [List.length]; lia|].
    split; [exact Hp|].
    split; [intros k Hk; apply Hkeep, count_sector_keeps, Hk|].
    constructor; [|exact Hall].
    apply Hkeep, count_sector_has, same_key_refl, Hd.
Qed.

(** The breakdown of a theme by sector counts every entry once: the counts
    add up to the number of entries, no count is below 1, and the sector of
    every entry is a key.  (A sector that cannot be a key of a dictionary is
    a TypeError.) *)
Theorem analyze_theme_sectors_counts (theme_data : list dict) (w : world) :
  Forall (fun data => hashable (sector_of data) = true) theme_data ->
  exists counts,
    _analyze_theme_sectors theme_data w = (Ok counts, w) /\
    fold_right Z.add 0 (map snd counts) = Z.of_nat (List.length theme_data) /\
    Forall (fun it => 1 <= snd it) counts /\
    Forall (fun data =>
              existsb (fun it => same_key (sector_of data) (fst it)) counts = true)
           theme_data.
Proof.
  intros Hall.
  destruct (theme_sectors_loop_counts theme_data Hall [] w (Forall_nil _))
    as (counts & Hrun & Hsum & Hp & _ & Hk).
  exists counts. repeat split; assumption.
Qed.

Lemma assoc_get_in {A} (k : string) (d : list (string * A)) (v : A) :
  assoc_get k d = Some v -> In v (map snd d).
Proof.
  induction d as [|[k' v'] d IH]; simpl; [discriminate|].
  destruct (String.eqb k k'); [intros H; injection H as ->; now left|].
  intros H. right. now apply IH.
Qed.

(** The stocks of a sector analysis: for each of the eight sectors the
    classifier can name, the five or six stocks of the sector's own list, and
    for any other name the first ten large caps; for each theme, five stocks
    of its own or the ten technology stocks of the US table. *)
Theorem stocks_of_sector_and_theme (name : string) :
  (5 <= List.length (sector_stocks name) <= 10)%nat /\
  (In name (map fst Topic.sector_keywords) ->
   (List.length (sector_stocks name) <= 6)%nat /\
   sector_stocks name <> slice_to 10 (stocks_of "indian_stocks" "large_cap")) /\
  (List.length (theme_stocks name) = 5%nat \/
   theme_stocks name = stocks_of "us_stocks" "technology").
Proof.
  split; [|split].
  - unfold sector_stocks.
    destruct (existsb (String.eqb name) _) eqn:Hown.
    + apply existsb_exists in Hown. destruct Hown as (x & Hin & Heq).
      apply String.eqb_eq in Heq. subst x. simpl in Hin.
      destruct Hin as [<-|[<-|[<-|[<-|[<-|[]]]]]]; vm_compute; lia.
    + unfold _get_stocks_for_sector.
      match goal with
      | |- context [assoc_get name ?d] =>
          destruct (assoc_get name d) as [stocks|] eqn:Hget;
            [apply assoc_get_in in Hget;
             assert (Hall : Forall (fun l : list string =>
                                      (5 <= List.length (slice_to 10 l) <= 10)%nat)
                                   (map snd d))
               by (repeat constructor; vm_compute; lia);
             rewrite Forall_forall in Hall; now apply Hall
            | vm_compute; lia]
      end.
  - intros Hin. simpl in Hin.
    destruct Hin as [<-|[<-|[<-|[<-|[<-|[<-|[<-|[<-|[]]]]]]]]];
      (split; [vm_compute; lia | vm_compute; discriminate]).
  - unfold theme_stocks, _get_stocks_for_theme.
    match goal with
    | |- context [assoc_get name ?d] =>
        destruct (assoc_get name d) as [stocks|] eqn:Hget;
          [left; apply assoc_get_in in Hget;
           assert (Hall : Forall (fun l : list string =>
                                    List.length (slice_to 15 l) = 5%nat)
                                 (map snd d))
             by (repeat constructor);
           rewrite Forall_forall in Hall; now apply Hall
          | right; reflexivity]
    end.
Qed.

End AnalysisFacts.

Lemma analyze_theme_sectors_counts_witness :
  exists counts,
    MarketData._analyze_theme_sectors
      [ [ ("symbol", VStr "NVDA"); ("sector", VStr "Technology") ];
        [ ("symbol", VStr "TCS.NS") ];
        [ ("symbol", VStr "MSFT"); ("sector", VStr "Technology") ] ] start
      = (Ok counts, start) /\
    fold_right Z.add 0 (map snd counts) = 3.
Proof.
  destruct (analyze_theme_sectors_counts
              [ [ ("symbol", VStr "NVDA"); ("sector", VStr "Technology") ];
                [ ("symbol", VStr "TCS.NS") ];
                [ ("symbol", VStr "MSFT"); ("sector", VStr "Technology") ] ] start)
    as (counts & Hrun & Hsum & _).
  - repeat constructor.
  - exists counts. split; [exact Hrun | exact Hsum].
Defined.

(** ** The index and the general analysis, once more *)

Section MarketFacts.
Import PyStr MarketData.
Variable E : env.
Hypothesis contract : generator_contract E.


Lemma fallback_names (symbol topic : string) (years : Z) (w : world) :
  match _get_complete_fallback_index_analysis E symbol topic years w with
  | (Ok v, _) =>
      field "symbol" v = Some (VStr symbol) /\ field "topic" v = Some (VStr topic)
  | (Raise _, _) => True
  end.
Proof.
  destruct w as [r i t].
  unfold _get_complete_fallback_index_analysis.
  cbv [bind uniform randint today ask ret rng io trace dict_set
       String.eqb Ascii.eqb Bool.eqb Nat.add].
  unfold float_div.
  repeat match goal with
         | |- context [Qeq_bool ?a 0] => destruct (Qeq_bool a 0)
         end; cbv [raise ret]; try exact I; split; reflexivity.
Qed.

Lemma dict_set_keys (k : string) (v : value) (d : dict) :
  incl (dict_keys (dict_set k v d)) (k :: dict_keys d).
Proof.
  induction d as [|[k' v'] d IH]; simpl.
  - intros x Hx. exact Hx.
  - destruct (String.eqb k k') eqn:Hk; intros x Hx; simpl in *.
    + apply String.eqb_eq in Hk. subst. destruct Hx as [<-|Hx]; auto.
    + destruct Hx as [<-|Hx]; [auto|].
      destruct (IH x Hx) as [<-|H]; auto.
Qed.

Lemma global_loop_keys (indices : list string) (years : Z) :
  forall gp w, exists gp' w',
    global_loop E indices years gp w = (Ok gp', w') /\
    incl (dict_keys gp') (dict_keys gp ++ indices)%list.
Proof.
  induction indices as [|idx rest IH]; intros gp w.
  - exists gp, w. split; [reflexivity|]. rewrite app_nil_r. apply incl_refl.
  - cbn [global_loop]. unfold bind at 1, try_except at 1.
    destruct (global_attempt E idx years w) as [[[q|]|e] w1]; cbv [ret].
    + destruct (IH (dict_set idx (VNum q) gp) w1) as (gp' & w' & Hrun & Hincl).
      exists gp', w'. split; [exact Hrun|].
      intros x Hx. apply Hincl in Hx. apply in_app_or in Hx.
      destruct Hx as [Hx|Hx].
      * apply dict_set_keys in Hx. destruct Hx as [<-|Hx].
        -- apply in_or_app. right. now left.
        -- apply in_or_app. now left.
      * apply in_or_app. right. now right.
    + destruct (IH gp w1) as (gp' & w' & Hrun & Hincl).
      exists gp', w'. split; [exact Hrun|].
      intros x Hx. apply Hincl in Hx. apply in_app_or in Hx.
      apply in_or_app. destruct Hx; [now left | right; now right].
    + destruct (IH gp w1) as (gp' & w' & Hrun & Hincl).
      exists gp', w'. split; [exact Hrun|].
      intros x Hx. apply Hincl in Hx. apply in_app_or in Hx.
      apply in_or_app. destruct Hx; [now left | right; now right].
Qed.

(** A general analysis always comes from the [try] branch, and what it calls
    the primary market is the synthesized analysis of the Nifty 50: the
    twelve keys of the fallback, the symbol ^NSEI, and no mark of the quality
    of the data.  The global context has a return for those of the four
    global indices that answered, and nothing else. *)
Theorem general_analysis_provenance (topic : string) (years : Z) (w : world) :
  exists d w' primary_market global_context,
    _analyze_general_market E topic years w = (Ok (VDict d), w') /\
    dict_keys d = general_keys /\
    dict_get "primary_market" d = Some (VDict primary_market) /\
    dict_keys primary_market = fallback_index_keys /\
    dict_get "symbol" primary_market = Some (VStr "^NSEI") /\
    dict_get "topic" primary_market = Some (VStr "Nifty 50") /\
    dict_get "data_quality" primary_market = None /\
    dict_get "global_context" d = Some (VDict global_context) /\
    incl (dict_keys global_context) global_indices /\
    dict_get "market_overview" d = Some (VStr (_generate_market_overview topic years)).
Proof.
  unfold _analyze_general_market, try_except.
  unfold bind at 1.
  destruct (analyze_index_run E "^NSEI" "Nifty 50" years w)
    as (new & w1 & Hrun & _).
  pose proof (fallback_names "^NSEI" "Nifty 50" years w1) as Hnames.
  destruct (fallback_run E contract "^NSEI" "Nifty 50" years w1)
    as (v & Hfb & _ & _ & _ & _ & _ & pm & -> & Hkeys).
  rewrite Hfb in Hnames. destruct Hnames as [Hsym Htopic].
  rewrite Hrun, Hfb.
  unfold bind at 1.
  match goal with
  | |- context [global_loop E ?l ?y ?gp ?w0] =>
      destruct (global_loop_keys l y gp w0) as (gc & w2 & Hloop & Hincl);
        rewrite Hloop
  end.
  unfold bind, today, ask, ret.
  eexists. eexists. exists pm, gc. split; [reflexivity|].
  split; [reflexivity|]. split; [reflexivity|]. split; [exact Hkeys|].
  split; [exact Hsym|]. split; [exact Htopic|].
  split; [apply dict_get_outside; rewrite Hkeys; reflexivity|].
  split; [reflexivity|]. split; [exact Hincl | reflexivity].
Qed.

(** The recommendations never open with the warning about a high
    volatility: no analysis the market service hands to the content
    generator has a volatility at its top level. *)
Theorem recommendations_never_warn (topic : string) (include_real_data : bool)
        (w : world) :
  exists market_data w1,
    Content.fetch_market_data E topic include_real_data w = (Ok market_data, w1) /\
    forall w2,
      Content._get_recommendations topic market_data w2
        = (Ok [ "Monitor key market indicators regularly";
                "Diversify investment portfolio based on risk profile";
                "Stay informed about regulatory changes";
                "Review performance quarterly against benchmarks" ], w2).
Proof.
  destruct (fetch_market_data_keys E contract topic include_real_data w)
    as (d & w1 & Hrun & Hkeys).
  exists d, w1. split; [exact Hrun|]. intros w2.
  unfold Content._get_recommendations.
  rewrite (outside_market_data "volatility" d Hkeys eq_refl eq_refl).
  destruct (Content.truthy (VDict d)); reflexivity.
Qed.

(** ** The test of the retry logic *)

Lemma check_fallback_fails (d : dict) (w : world) :
  dict_keys d = fallback_index_keys ->
  TestMarketData.check_analysis (VDict d) w = (Ok false, w).
Proof.
  intros Hkeys. unfold TestMarketData.check_analysis.
  destruct (filter _ required_keys); [|reflexivity].
  rewrite (dict_get_outside "data_quality" d) by (rewrite Hkeys; reflexivity).
  reflexivity.
Qed.

Lemma run_case_fails (symbol name : string) (w : world) :
  exists w', TestMarketData.run_case E symbol name w = (Ok false, w').
Proof.
  unfold TestMarketData.run_case, try_except, bind.
  destruct (analyze_index_run E symbol (name ++ " Analysis") 3 w)
    as (new & w1 & Hrun & _).
  destruct (fallback_run E contract symbol (name ++ " Analysis") 3 w1)
    as (v & Hfb & _ & _ & _ & _ & _ & d & -> & Hkeys).
  rewrite Hrun, Hfb, (check_fallback_fails d _ Hkeys).
  eexists. reflexivity.
Qed.

(** The test of the repository fails on every case, whatever the network
    does: it asks the analysis for the mark "data_quality", which only the
    live branch of [_analyze_index] writes, and that branch never returns.
    All four results are [False] and the test returns [False]. *)
Theorem test_enhanced_retry_logic_fails (w : world) :
  (forall symbol name w0, exists w1,
     TestMarketData.run_case E symbol name w0 = (Ok false, w1)) /\
  exists w',
    TestMarketData.cases_loop E TestMarketData.test_cases [] w
      = (Ok [ ("^NSEI", false); ("^GSPC", false); ("^DJI", false); ("^IXIC", false) ],
         w') /\
    TestMarketData.test_enhanced_retry_logic E w = (Ok false, w').
Proof.
  split; [apply run_case_fails|].
  unfold TestMarketData.test_enhanced_retry_logic, TestMarketData.test_cases.
  cbn [TestMarketData.cases_loop].
  destruct (run_case_fails "^NSEI" "Nifty 50" w) as (w1 & H1).
  destruct (run_case_fails "^GSPC" "S&P 500" w1) as (w2 & H2).
  destruct (run_case_fails "^DJI" "Dow Jones" w2) as (w3 & H3).
  destruct (run_case_fails "^IXIC" "NASDAQ" w3) as (w4 & H4).
  exists w4.
  unfold bind. rewrite H1. cbn [assoc_get app]. rewrite H2.
  cbn [assoc_get app String.eqb Ascii.eqb Bool.eqb]. rewrite H3.
  cbn [assoc_get app String.eqb Ascii.eqb Bool.eqb]. rewrite H4.
  cbn [assoc_get app String.eqb Ascii.eqb Bool.eqb].
  split; reflexivity.
Qed.

End MarketFacts.

(** ** The security manager and the application *)

Section HostFacts.
Import PyStr.

(** [main] never stops at the check of the environment: the check tests the
    dictionary [validate_environment] returns, which has three entries
    whatever the host is like, and not the values in it. *)
Theorem environment_check_never_stops (h : Security.host) :
  App.environment_incomplete h = false /\
  List.length (Security.validate_environment h) = 3%nat.
Proof. split; reflexivity. Qed.

(** The security status never fails to be computed, and it recommends one
    step for each of three things that is missing: the file .env, a key of an
    AI provider, the file .gitignore.  There is no recommendation exactly
    when none is missing. *)
Theorem security_recommendations_count (h : Security.host) (session_token : string)
        (w : world) :
  let missing (b : bool) : nat := if b then 0%nat else 1%nat in
  let env_file := Security.path_exists h ".env" in
  let api_key :=
    existsb Security.configured
      [ Security.getenv h "OPENAI_API_KEY"; Security.getenv h "GEMINI_API_KEY";
        Security.getenv h "ANTHROPIC_API_KEY" ] in
  let gitignore := Security.path_exists h ".gitignore" in
  exists status recommendations,
    Security.get_security_status h session_token w = (Ok status, w) /\
    dict_get "recommendations" status = Some (str_list recommendations) /\
    List.length recommendations
      = (missing env_file + missing api_key + missing gitignore)%nat /\
    (recommendations = [] <-> env_file && api_key && gitignore = true).
Proof.
  cbn zeta.
  unfold Security.get_security_status, Security._get_security_recommendations,
    Security.validate_environment, Security.check_api_key_security.
  destruct (Security.path_exists h ".env"),
           (existsb Security.configured _),
           (Security.path_exists h ".gitignore");
    eexists; eexists; (split; [reflexivity|]); (split; [reflexivity|]);
    (split; [reflexivity|]); split; intros H; try reflexivity; discriminate H.
Qed.

Lemma length_append (a b : string) :
  String.length (a ++ b) = (String.length a + String.length b)%nat.
Proof. induction a as [|c a IH]; simpl; [reflexivity | now rewrite IH]. Qed.

Lemma length_take (n : nat) :
  forall s, (n <= String.length s)%nat -> String.length (take n s) = n.
Proof.
  induction n as [|n IH]; intros s Hn; [destruct s; reflexivity|].
  destruct s as [|c s]; simpl in *; [lia|]. rewrite IH; lia.
Qed.

Lemma take_append_exact (a b : string) : take (String.length a) (a ++ b) = a.
Proof. induction a as [|c a IH]; simpl; [destruct b; reflexivity | now rewrite IH]. Qed.

Lemma drop_append_exact (a b : string) : drop (String.length a) (a ++ b) = b.
Proof. induction a as [|c a IH]; simpl; [reflexivity | exact IH]. Qed.

Lemma take_drop (n : nat) : forall s, take n s ++ drop n s = s.
Proof.
  induction n as [|n IH]; intros s; [destruct s; reflexivity|].
  destruct s as [|c s]; simpl; [reflexivity | now rewrite IH].
Qed.

Lemma append_assoc (a b c : string) : (a ++ b) ++ c = a ++ (b ++ c).
Proof. induction a as [|x a IH]; simpl; [reflexivity | now rewrite IH]. Qed.

(** The mask of a key of eight characters or more has eleven characters: the
    first four of the key, three dots, the last four of the key.  A key of
    exactly eight characters can be read off its mask in full. *)
Theorem mask_api_key_shows_eight (key : string) :
  (8 <= String.length key)%nat ->
  let shown := Security.mask_api_key (Some key) in
  String.length shown = 11%nat /\
  take 4 shown = take 4 key /\
  drop 7 shown = drop (String.length key - 4) key /\
  (String.length key = 8%nat -> take 4 shown ++ drop 7 shown = key).
Proof.
  intros Hlen. cbn zeta. unfold Security.mask_api_key.
  assert (Hne : String.eqb key EmptyString = false)
    by (destruct key; [simpl in Hlen; lia | reflexivity]).
  assert (Hlt : (String.length key <? 8)%nat = false) by (apply Nat.ltb_ge; exact Hlen).
  rewrite Hne, Hlt.
  assert (H4 : String.length (take 4 key) = 4%nat) by (apply length_take; lia).
  set (head := take 4 key) in *.
  set (tail := drop (String.length key - 4) key).
  assert (Htake : take 4 (head ++ "..." ++ tail) = head).
  { pose proof (take_append_exact head ("..." ++ tail)) as H.
    now rewrite H4 in H. }
  assert (Hdrop : drop 7 (head ++ "..." ++ tail) = tail).
  { pose proof (drop_append_exact (head ++ "...") tail) as H.
    rewrite length_append, H4, append_assoc in H. exact H. }
  rewrite Htake, Hdrop.
  split.
  { rewrite !length_append, H4. subst tail. rewrite length_drop. simpl. lia. }
  split; [reflexivity|]. split; [reflexivity|].
  intros H8. subst head tail. rewrite H8. apply (take_drop 4).
Qed.

(** [c] stays out of a string when a character is replaced *)
Lemma replace_char_keeps (d c : ascii) (new s : string) :
  App.free_of d s = true -> App.free_of d new = true ->
  App.free_of d (replace (String c EmptyString) new s) = true.
Proof.
  unfold App.free_of, replace. intros Hs Hnew.
  induction s as [|x s IH]; [reflexivity|].
  cbn [all_chars] in Hs. apply andb_prop in Hs. destruct Hs as [Hx Hs].
  cbn [replace_go startswith String.length Nat.sub].
  destruct (Ascii.eqb c x); cbn [andb].
  - assert (Happ : forall a b, all_chars (fun y => negb (Ascii.eqb y d)) (a ++ b)
                    = all_chars (fun y => negb (Ascii.eqb y d)) a
                      && all_chars (fun y => negb (Ascii.eqb y d)) b).
    { induction a as [|y a IHa]; intros b; simpl; [reflexivity|].
      now rewrite IHa, andb_assoc. }
    rewrite Happ, Hnew. apply IH, Hs.
  - cbn [all_chars]. rewrite Hx. apply IH, Hs.
Qed.

(** [c] is gone once it has been replaced by a string without it *)
Lemma replace_char_removes (c : ascii) (new s : string) :
  App.free_of c new = true ->
  App.free_of c (replace (String c EmptyString) new s) = true.
Proof.
  unfold App.free_of, replace. intros Hnew.
  induction s as [|x s IH]; [reflexivity|].
  cbn [replace_go startswith String.length Nat.sub].
  destruct (Ascii.eqb c x) eqn:Hcx; cbn [andb].
  - assert (Happ : forall a b, all_chars (fun y => negb (Ascii.eqb y c)) (a ++ b)
                    = all_chars (fun y => negb (Ascii.eqb y c)) a
                      && all_chars (fun y => negb (Ascii.eqb y c)) b).
    { induction a as [|y a IHa]; intros b; simpl; [reflexivity|].
      now rewrite IHa, andb_assoc. }
    rewrite Happ, Hnew. exact IH.
  - cbn [all_chars]. rewrite Ascii.eqb_sym, Hcx. exact IH.
Qed.

(** The name of the file has none of the characters line 222 takes out of
    the topic: no line break, no space, and none of the nine characters a
    file name must not have.  (No replacement brings one of them back, and
    the order of the replacements does not matter for that.) *)
Theorem sanitize_takes_out (topic : string) :
  forallb (fun n => App.free_of (ascii_of_nat n) (App.sanitize topic)) App.taken_out
    = true.
Proof.
  unfold App.taken_out, App.sanitize, App.char. cbn [forallb].
  repeat (apply andb_true_intro; split); try reflexivity;
    repeat first [ apply replace_char_removes; reflexivity
                 | apply replace_char_keeps; [|reflexivity] ].
Qed.

End HostFacts.

Lemma mask_api_key_shows_eight_witness :
  Security.mask_api_key (Some "sk-12345") = "sk-1...2345" /\
  PyStr.take 4 (Security.mask_api_key (Some "sk-12345"))
    ++ PyStr.drop 7 (Security.mask_api_key (Some "sk-12345")) = "sk-12345".
Proof.
  split; [reflexivity|].
  apply (mask_api_key_shows_eight "sk-12345"); [simpl; lia | reflexivity].
Defined.

(** ** From the topic to the deck *)

Section PipelineFacts.
Import PyStr MarketData.
Variable E : env.
Hypothesis contract : generator_contract E.
Variable timestamp : nat -> string.

Lemma deck_for_template (content : dict) (template : string) (colors : dict)
      (w : world) :
  assoc_get template PPT.templates = Some colors ->
  PPT.has_colours colors = true ->
  PPT.content_ok content = true ->
  exists deck w',
    PPT.create_presentation E content template w = (Ok deck, w') /\
    map PPT.built_by deck
      = PPT.TitleSlide :: PPT.AgendaSlide
          :: repeat PPT.ContentSlide (List.length (Content.slides_of content)).
Proof.
  intros Hget Hcolours Hok.
  destruct (build_deck_returns E colors Hcolours content Hok w)
    as (deck & w' & Hrun & Hmap & _).
  exists deck, w'. split; [|exact Hmap].
  unfold PPT.create_presentation. rewrite Hget. exact Hrun.
Qed.

(** What the application does with a topic: for a slide count that is not
    negative and each of the three templates it offers, it builds a deck of
    2 + min(slide_count, 9) slides (a title, the agenda, a slide for each
    template title) and names the file after the sanitized topic.  Neither
    error message is shown. *)
Theorem generate_presentation_builds_deck (topic : string) (slide_count : Z)
        (include_real_data : bool) (template_key : string) (w : world) :
  0 <= slide_count ->
  In template_key App.template_options ->
  exists deck stamp w',
    App.generate_presentation E timestamp topic slide_count include_real_data
      template_key w
      = (Ok (Some (deck, App.sanitize topic ++ "_" ++ stamp ++ ".pptx")), w') /\
    Z.of_nat (List.length deck) = 2 + Z.min slide_count 9 /\
    map PPT.built_by deck
      = PPT.TitleSlide :: PPT.AgendaSlide
          :: repeat PPT.ContentSlide (Z.to_nat (Z.min slide_count 9)).
Proof.
  intros Hn Hin.
  destruct (generate_exact E contract topic "quarterly_analysis" "Executive Leadership"
              slide_count include_real_data "SerpAPI" w)
    as (content & w1 & Hrun & Htitles & _ & Hok & Htruthy & _).
  assert (Hlen : Z.of_nat (List.length (Content.slides_of content))
                 = Z.min slide_count 9).
  { rewrite <- (length_map (field "title")), Htitles, length_map.
    rewrite slice_to_length by exact Hn.
    now rewrite template_has_nine. }
  assert (Hdeck : exists deck w2,
             PPT.create_presentation E content
               (replace " " "_" (lower template_key)) w1 = (Ok deck, w2) /\
             map PPT.built_by deck
               = PPT.TitleSlide :: PPT.AgendaSlide
                   :: repeat PPT.ContentSlide (List.length (Content.slides_of content))).
  { simpl in Hin. destruct Hin as [<-|[<-|[<-|[]]]];
      (eapply deck_for_template; [reflexivity | reflexivity | exact Hok]). }
  destruct Hdeck as (deck & w2 & Hbuild & Hmap).
  exists deck, (timestamp (io w2)). eexists.
  split.
  { unfold App.generate_presentation, try_except.
    unfold bind at 1. rewrite Hrun, Htruthy. cbn [negb].
    unfold bind at 1. rewrite Hbuild.
    unfold bind, ask, ret. reflexivity. }
  split.
  { rewrite <- (length_map PPT.built_by), Hmap. cbn [List.length].
    rewrite repeat_length. lia. }
  rewrite Hmap. do 3 f_equal. lia.
Qed.

End PipelineFacts.

Lemma generate_presentation_builds_deck_witness :
  exists deck stamp w',
    App.generate_presentation offline (fun _ => "20240501_120000") "Nifty outlook" 5
      true "modern_white" start
      = (Ok (Some (deck, "Nifty_outlook_" ++ stamp ++ ".pptx")), w') /\
    Z.of_nat (List.length deck) = 7.
Proof.
  destruct (generate_presentation_builds_deck offline offline_contract
              (fun _ => "20240501_120000") "Nifty outlook" 5 true "modern_white" start)
    as (deck & stamp & w' & Hrun & Hlen & _).
  - lia.
  - simpl. tauto.
  - exists deck, stamp, w'. split; [exact Hrun | exact Hlen].
Defined.

(** ** Instances in the sample environment *)

Lemma searched_slides_have_four_bullets_witness :
  exists content w',
    Content.generate_presentation_content offline "Nifty outlook"
      "quarterly_analysis" "Board" 3 true "SerpAPI" start = (Ok content, w') /\
    Forall (fun slide => exists bullets,
              field "content" slide = Some (str_list bullets) /\
              List.length bullets = 4%nat /\ Forall SerpAPI.marked bullets)
           (Content.slides_of content).
Proof.
  exact (searched_slides_have_four_bullets offline offline_contract "Nifty outlook"
           "quarterly_analysis" "Board" 3 true start).
Defined.

Lemma slides_carry_no_data_points_witness :
  exists content w',
    Content.generate_presentation_content offline "Sensex risk"
      "quarterly_analysis" "Board" 9 true "SerpAPI" start = (Ok content, w') /\
    Forall (fun slide => field "data_points" slide = Some (VList []))
           (Content.slides_of content).
Proof.
  exact (slides_carry_no_data_points offline offline_contract "Sensex risk"
           "quarterly_analysis" "Board" 9 true "SerpAPI" start).
Defined.

Lemma slide_titles_follow_template_witness :
  exists content w',
    Content.generate_presentation_content offline "Budget" "budget_planning"
      "Board" 2 false "SerpAPI" start = (Ok content, w') /\
    map (field "title") (Content.slides_of content)
      = [ Some (VStr "Budget Overview & Objectives");
          Some (VStr "Revenue Forecasting") ].
Proof.
  exact (slide_titles_follow_template offline offline_contract "Budget"
           "budget_planning" "Board" 2 false "SerpAPI" start).
Defined.


Lemma general_analysis_provenance_witness :
  exists d w' primary_market,
    MarketData._analyze_general_market offline "Markets" 3 start = (Ok (VDict d), w') /\
    dict_get "primary_market" d = Some (VDict primary_market) /\
    dict_get "symbol" primary_market = Some (VStr "^NSEI") /\
    dict_get "data_quality" primary_market = None.
Proof.
  destruct (general_analysis_provenance offline offline_contract "Markets" 3 start)
    as (d & w' & pm & gc & Hrun & _ & Hpm & _ & Hsym & _ & Hq & _).
  exists d, w', pm. repeat split; assumption.
Defined.

Lemma recommendations_never_warn_witness :
  exists market_data w1,
    Content.fetch_market_data offline "NIFTY this year" true start
      = (Ok market_data, w1) /\
    List.length (match Content._get_recommendations "NIFTY this year" market_data w1 with
                 | (Ok l, _) => l
                 | (Raise _, _) => []
                 end) = 4%nat.
Proof.
  destruct (recommendations_never_warn offline offline_contract "NIFTY this year"
              true start)
    as (d & w1 & Hrun & Hrec).
  exists d, w1. split; [exact Hrun|]. rewrite Hrec. reflexivity.
Defined.

Lemma test_enhanced_retry_logic_fails_witness :
  exists w', TestMarketData.test_enhanced_retry_logic offline start = (Ok false, w').
Proof.
  destruct (test_enhanced_retry_logic_fails offline offline_contract start)
    as (_ & w' & _ & Hrun).
  exists w'. exact Hrun.
Defined.

(** ** Topics outside finance *)

Section InvalidTopics.
Import PyStr Topic MarketData.
Variable E : env.

(** The verdict "invalid" of the classifier changes nothing: a topic without
    a word of finance is analysed as the general market is, and the reason
    the classifier gives is not read. *)
Theorem invalid_topic_is_analysed (topic : string) (years : Z) :
  passes_gate topic = false ->
  _parse_topic topic = [ ("type", VStr "invalid"); ("reason", VStr invalid_reason) ] /\
  dispatch E topic years = _analyze_general_market E topic years.
Proof.
  unfold passes_gate. intros Hgate.
  assert (Hp : _parse_topic topic
               = [ ("type", VStr "invalid"); ("reason", VStr invalid_reason) ])
    by (unfold _parse_topic; now rewrite Hgate).
  assert (Hd : dispatch E topic years = _analyze_general_market E topic years)
    by (unfold dispatch; now rewrite Hp).
  split; [exact Hp | exact Hd].
Qed.

End InvalidTopics.

Lemma invalid_topic_is_analysed_witness :
  MarketData.dispatch offline "Holiday photos" 3
    = MarketData._analyze_general_market offline "Holiday photos" 3.
Proof. apply invalid_topic_is_analysed. reflexivity. Defined.
